(** * Basketball-App: the REST routers and the real-time gateway

    A shallow embedding of the Express routers (routes/teams.js,
    routes/players.js, routes/games.js), of the Mongoose models they use, of
    the Socket.IO wiring of server.js with middleware/socketAuth.js and
    sockets/gameSockets.js, and the properties of them that the specification
    states.

    Conventions of the embedding.
    - An ObjectId is the string of its 24 hexadecimal digits, the letters in
      lower case, as [toString] and the [id] getter print it.  A route
      parameter [:id], and the [gameId] of a real-time event, is such a
      string; the cast of an id in another spelling, and the failure of the
      cast, are modelled where a route takes the id from the query or the
      body ([castObjectId]).
    - A collection is a finite map from ObjectId to document.  The asynchronous
      calls of a handler are run in sequence: one request is served at a time.
    - A string is the sequence of the bytes of its UTF-8 encoding.
    - A JavaScript Number that holds a score, a jersey number, a weight or an
      age is an integer of [Z].  The two counters and the win percentage of a
      team, which the pre-save hook computes with, are IEEE 754 doubles
      ([Number.t]).  The per-game statistics of a player, which are stored
      and compared with 0 only, are rationals of [Q].
    - A handler is a function from the state before the request to the state
      after it and the response; [try { ... } catch] is written out as the
      500 response at each place where the handler can throw. *)

From Stdlib Require Import ZArith QArith String Ascii List Bool Lia.
From Stdlib Require Import Floats.SpecFloat.
From stdpp Require Import gmap strings list sorting.
Close Scope Q_scope.

Abbreviation ObjectId := string (only parsing).

(** ** express-validator *)

Module Validator.

Definition isHexDigit (c : ascii) : bool :=
  let n := nat_of_ascii c in
  ((48 <=? n)%nat && (n <=? 57)%nat) || ((65 <=? n)%nat && (n <=? 70)%nat)
  || ((97 <=? n)%nat && (n <=? 102)%nat).

(** [isMongoId]: 24 hexadecimal digits. *)
Definition isMongoId (s : string) : bool :=
  (String.length s =? 24)%nat && forallb isHexDigit (list_ascii_of_string s).

(** [isInt({ min, max })] tests the string form of the value of the field.
    [Some n] is a field whose value the validator reads as the integer [n],
    and which converts to the Number [n]: a JSON number that is printed in
    plain digits, or a string that holds a decimal numeral, as the fields of
    a urlencoded body do.  [None] is a field that is absent or whose value
    the validator refuses whatever the bounds. *)
Definition isInt (min : Z) (max : option Z) (v : option Z) : bool :=
  match v with
  | None => false
  | Some n => (min <=? n)%Z && match max with Some m => (n <=? m)%Z | None => true end
  end.


Definition notEmpty (v : option string) : bool :=
  match v with
  | None => false
  | Some s => negb (String.eqb s "")
  end.

Definition isIn (values : list string) (v : option string) : bool :=
  match v with
  | None => false
  | Some s => existsb (String.eqb s) values
  end.

Definition mongoId (v : option string) : bool :=
  match v with
  | None => false
  | Some s => isMongoId s
  end.

(** One declared check of a validation chain: the error message is kept when
    the check fails, as [validationResult(req).array()] lists it. *)
Definition check (ok : bool) (msg : string) : list string :=
  if ok then [] else [msg].

End Validator.

(** ** Mongoose models *)

(** The string form of an ObjectId: 24 hexadecimal digits, the letters in
    lower case.  Mongoose casts such a string to the ObjectId that prints as
    it, so that a document is found by it exactly when it is the key of the
    document. *)
Definition isObjectIdString (s : string) : bool :=
  (String.length s =? 24)%nat
  && forallb (fun c => let n := nat_of_ascii c in
                       ((48 <=? n)%nat && (n <=? 57)%nat)
                       || ((97 <=? n)%nat && (n <=? 102)%nat))
       (list_ascii_of_string s).

(** [String] paths declared with [trim: true]: the setter is
    [String.prototype.trim], which strips the white space and the line
    terminators of ECMAScript from both ends.  In UTF-8 these are the bytes
    9 to 13 and 32, U+00A0 (194 160), U+1680 (225 154 128), U+2000 to U+200A
    (226 128 128 to 138), U+2028 and U+2029 (226 128 168 and 169), U+202F
    (226 128 175), U+205F (226 129 159), U+3000 (227 128 128) and U+FEFF
    (239 187 191). *)
Definition whiteSpace1 (a : nat) : bool :=
  (a =? 32)%nat || ((9 <=? a)%nat && (a <=? 13)%nat).

Definition whiteSpace2 (a b : nat) : bool :=
  (a =? 194)%nat && (b =? 160)%nat.

Definition whiteSpace3 (a b c : nat) : bool :=
  ((a =? 225)%nat && (b =? 154)%nat && (c =? 128)%nat)
  || ((a =? 226)%nat && (b =? 128)%nat
      && (((128 <=? c)%nat && (c <=? 138)%nat)
          || (c =? 168)%nat || (c =? 169)%nat || (c =? 175)%nat))
  || ((a =? 226)%nat && (b =? 129)%nat && (c =? 159)%nat)
  || ((a =? 227)%nat && (b =? 128)%nat && (c =? 128)%nat)
  || ((a =? 239)%nat && (b =? 187)%nat && (c =? 191)%nat).

(** The white space at the head of a list of bytes is dropped; [backwards]
    tells that the list is a string read from its end, where the bytes of
    a character come in the opposite order. *)
Fixpoint strip (backwards : bool) (l : list ascii) : list ascii :=
  match l with
  | [] => []
  | a :: l1 =>
      if whiteSpace1 (nat_of_ascii a) then strip backwards l1
      else
        match l1 with
        | [] => l
        | b :: l2 =>
            if (if backwards
                then whiteSpace2 (nat_of_ascii b) (nat_of_ascii a)
                else whiteSpace2 (nat_of_ascii a) (nat_of_ascii b))
            then strip backwards l2
            else
              match l2 with
              | [] => l
              | c :: l3 =>
                  if (if backwards
                      then whiteSpace3 (nat_of_ascii c) (nat_of_ascii b)
                             (nat_of_ascii a)
                      else whiteSpace3 (nat_of_ascii a) (nat_of_ascii b)
                             (nat_of_ascii c))
                  then strip backwards l3
                  else l
              end
        end
  end.

Definition trim (s : string) : string :=
  string_of_list_ascii
    (rev (strip true (rev (strip false (list_ascii_of_string s))))).

(** [maxlength] compares the [length] of the string, which counts UTF-16
    code units: one for each character of one to three bytes, two for each
    character of four bytes. *)
Definition length16 (s : string) : nat :=
  list_sum
    (map (fun a => let n := nat_of_ascii a in
                   (if (128 <=? n)%nat && (n <? 192)%nat then 0 else 1)
                   + (if (240 <=? n)%nat then 1 else 0))%nat
       (list_ascii_of_string s)).

(** ** JavaScript Numbers

    The Numbers that the code computes with are the doubles of IEEE 754:
    53 bits of precision, exponents up to 1024, every operation rounded to
    the nearest double, ties to even. *)
Module Number.

Definition t : Type := spec_float.

Definition prec : Z := 53.
Definition emax : Z := 1024.

(** The Number nearest to an integer, and the literal [0]. *)
Definition ofZ (n : Z) : t := binary_normalize prec emax n 0 false.
Definition zero : t := S754_zero false.

(** [x + y], [x / y] and [x > y]. *)
Definition add (x y : t) : t := SFadd prec emax x y.
Definition div (x y : t) : t := SFdiv prec emax x y.
Definition gt (x y : t) : bool := SFltb y x.

(** The rational a finite Number stands for. *)
Definition toQ (x : t) : option Q :=
  match x with
  | S754_zero _ => Some 0%Q
  | S754_finite s m e =>
      Some (inject_Z (if s then Z.neg m else Z.pos m) * Qpower 2 e)%Q
  | _ => None
  end.

End Number.

Module User.

(** Modelled from the spec: models/User.js is not among the sources.  The
    fields are the ones the specification's data model names for a user
    (identity, role, the managed team list of a coach, the team and player
    profile of a player) under the names the routers use for them. *)
Record doc := {
  name : string;
  email : string;
  role : string;
  team : option ObjectId;
  playerProfile : option ObjectId;
  managedTeams : list ObjectId
}.

Definition set_team (t : option ObjectId) (u : doc) : doc :=
  {| name := name u; email := email u; role := role u; team := t;
     playerProfile := playerProfile u; managedTeams := managedTeams u |}.

Definition set_playerProfile (p : option ObjectId) (u : doc) : doc :=
  {| name := name u; email := email u; role := role u; team := team u;
     playerProfile := p; managedTeams := managedTeams u |}.

Definition set_managedTeams (l : list ObjectId) (u : doc) : doc :=
  {| name := name u; email := email u; role := role u; team := team u;
     playerProfile := playerProfile u; managedTeams := l |}.

End User.

Module Team.

Record Stats := {
  wins : Number.t;
  losses : Number.t;
  winPercentage : Number.t
}.

Record Colors := {
  primary : string;
  secondary : string
}.

Record doc := {
  name : string;
  coach : ObjectId;
  description : option string;
  foundedYear : option Z;
  homeVenue : option string;
  colors : Colors;
  logo : option string;
  isActive : bool;
  players : list ObjectId;
  stats : Stats;
  createdAt : Z
}.

Definition set_stats (s : Stats) (t : doc) : doc :=
  {| name := name t; coach := coach t; description := description t;
     foundedYear := foundedYear t; homeVenue := homeVenue t;
     colors := colors t; logo := logo t; isActive := isActive t;
     players := players t; stats := s; createdAt := createdAt t |}.

Definition set_players (l : list ObjectId) (t : doc) : doc :=
  {| name := name t; coach := coach t; description := description t;
     foundedYear := foundedYear t; homeVenue := homeVenue t;
     colors := colors t; logo := logo t; isActive := isActive t;
     players := l; stats := stats t; createdAt := createdAt t |}.

(** [teamSchema.pre('save', ...)]: the win percentage is recomputed from the
    two counters. *)
Definition pre_save (this : doc) : doc :=
  let totalGames := Number.add (wins (stats this)) (losses (stats this)) in
  if Number.gt totalGames Number.zero
  then set_stats {| wins := wins (stats this); losses := losses (stats this);
                    winPercentage := Number.div (wins (stats this)) totalGames |}
         this
  else set_stats {| wins := wins (stats this); losses := losses (stats this);
                    winPercentage := Number.zero |} this.

(** [unique: true] on [name]: the write of document [t] under [id] violates
    the index when another team already has its name. *)
Definition duplicateKey (id : ObjectId) (t : doc) (coll : gmap ObjectId doc)
  : bool :=
  existsb (fun e => negb (String.eqb (fst e) id)
                    && String.eqb (name (snd e)) (name t))
    (map_to_list coll).

(** [doc.save()]: the pre-save hook runs, then the document is written. *)
Definition save (id : ObjectId) (this : doc) (coll : gmap ObjectId doc)
  : gmap ObjectId doc :=
  <[id := pre_save this]> coll.

End Team.

Module Player.

Record Stats := {
  pointsPerGame : Q;
  reboundsPerGame : Q;
  assistsPerGame : Q;
  stealsPerGame : Q;
  blocksPerGame : Q
}.

Record doc := {
  name : string;
  user : ObjectId;
  team : option ObjectId;
  position : string;
  jerseyNumber : Z;
  height : string;
  weight : Z;
  age : Z;
  stats : Stats;
  isActive : bool;
  createdAt : Z
}.

Definition set_team (t : option ObjectId) (p : doc) : doc :=
  {| name := name p; user := user p; team := t; position := position p;
     jerseyNumber := jerseyNumber p; height := height p; weight := weight p;
     age := age p; stats := stats p; isActive := isActive p;
     createdAt := createdAt p |}.

Definition defaultStats : Stats :=
  {| pointsPerGame := 0%Q; reboundsPerGame := 0%Q; assistsPerGame := 0%Q;
     stealsPerGame := 0%Q; blocksPerGame := 0%Q |}.

Definition statsValid (s : Stats) : bool :=
  forallb (fun q => if Qlt_le_dec q 0 then false else true)
    [pointsPerGame s; reboundsPerGame s; assistsPerGame s;
     stealsPerGame s; blocksPerGame s].

(** The validators of [playerSchema], run on the paths after their setters. *)
Definition validate (p : doc) : bool :=
  negb (String.eqb (name p) "") && (length16 (name p) <=? 50)%nat
  && existsb (String.eqb (position p)) ["PG"; "SG"; "SF"; "PF"; "C"]
  && (0 <=? jerseyNumber p)%Z && (jerseyNumber p <=? 99)%Z
  && negb (String.eqb (height p) "")
  && (100 <=? weight p)%Z && (weight p <=? 400)%Z
  && (16 <=? age p)%Z && (age p <=? 50)%Z
  && statsValid (stats p).

(** [playerSchema.index({ jerseyNumber: 1, team: 1 }, { unique: true })]:
    the key of a document in that index; a document without a team is
    indexed under the null team. *)
Definition indexKey (p : doc) : Z * option ObjectId :=
  (jerseyNumber p, team p).

Definition sameKey (k : Z * option ObjectId) (p : doc) : bool :=
  bool_decide (indexKey p = k).

(** The write of document [p] under [id] violates the unique index when
    another document already has its key. *)
Definition duplicateKey (id : ObjectId) (p : doc) (coll : gmap ObjectId doc)
  : bool :=
  existsb (fun e => negb (String.eqb (fst e) id) && sameKey (indexKey p) (snd e))
    (map_to_list coll).

End Player.

Module Game.

Record Stat := {
  player : option ObjectId;
  points : Z;
  rebounds : Z;
  assists : Z;
  steals : Z;
  blocks : Z;
  minutesPlayed : Z
}.

Record doc := {
  homeTeam : string;
  awayTeam : string;
  homeScore : Z;
  awayScore : Z;
  gameDate : Z;
  status : string;
  quarter : Z;
  timeRemaining : string;
  venue : option string;
  attendance : option Z;
  gameStats : list Stat;
  createdAt : Z
}.

(** The update document [{ homeScore, awayScore }]: a [$set] of the two
    paths. *)
Definition set_scores (home away : Z) (g : doc) : doc :=
  {| homeTeam := homeTeam g; awayTeam := awayTeam g;
     homeScore := home; awayScore := away;
     gameDate := gameDate g; status := status g; quarter := quarter g;
     timeRemaining := timeRemaining g; venue := venue g;
     attendance := attendance g; gameStats := gameStats g;
     createdAt := createdAt g |}.

Definition set_status (s : string) (g : doc) : doc :=
  {| homeTeam := homeTeam g; awayTeam := awayTeam g;
     homeScore := homeScore g; awayScore := awayScore g;
     gameDate := gameDate g; status := s; quarter := quarter g;
     timeRemaining := timeRemaining g; venue := venue g;
     attendance := attendance g; gameStats := gameStats g;
     createdAt := createdAt g |}.

Definition set_quarter (q : Z) (g : doc) : doc :=
  {| homeTeam := homeTeam g; awayTeam := awayTeam g;
     homeScore := homeScore g; awayScore := awayScore g;
     gameDate := gameDate g; status := status g; quarter := q;
     timeRemaining := timeRemaining g; venue := venue g;
     attendance := attendance g; gameStats := gameStats g;
     createdAt := createdAt g |}.

(** The update validators of the two score paths ([min: 0]) and of the
    status path ([enum]). *)
Definition scoreValid (n : Z) : bool := (0 <=? n)%Z.

Definition statusValid (s : string) : bool :=
  existsb (String.eqb s) ["scheduled"; "in_progress"; "completed"; "cancelled"].

End Game.

(** The document store: one collection per model. *)
Record Store := {
  Users : gmap ObjectId User.doc;
  Teams : gmap ObjectId Team.doc;
  Players : gmap ObjectId Player.doc;
  Games : gmap ObjectId Game.doc
}.

Definition with_Users (m : gmap ObjectId User.doc) (db : Store) : Store :=
  {| Users := m; Teams := Teams db; Players := Players db; Games := Games db |}.

Definition with_Teams (m : gmap ObjectId Team.doc) (db : Store) : Store :=
  {| Users := Users db; Teams := m; Players := Players db; Games := Games db |}.

Definition with_Players (m : gmap ObjectId Player.doc) (db : Store) : Store :=
  {| Users := Users db; Teams := Teams db; Players := m; Games := Games db |}.

Definition with_Games (m : gmap ObjectId Game.doc) (db : Store) : Store :=
  {| Users := Users db; Teams := Teams db; Players := Players db; Games := m |}.

(** ** Socket.IO

    The part of the library the server uses, as of the versions that export
    [Server] and give the handshake an [auth] payload (3 and later), which
    server.js and middleware/socketAuth.js rely on.  A server owns namespaces;
    the main namespace ["/"] exists from construction and [io.of(name)]
    creates the others.  A client connects to one namespace and gets a socket
    of that namespace.  Each namespace has its own middleware, its own
    connection listeners, its own sockets and its own rooms.  The methods
    [io.use], [io.on] and [io.to] of the server are the ones of its main
    namespace. *)

Abbreviation SocketId := string (only parsing).
Abbreviation Room := string (only parsing).

#[local] Unset Elimination Schemes.
Inductive json :=
| JNull
| JBool (b : bool)
| JNum (n : Z)
| JStr (s : string)
| JArr (l : list json)
| JObj (l : list (string * json)).
#[local] Set Elimination Schemes.

(** The argument of an [updateGame] event: an object that names a game, with
    the three fields the persisting handler reads and whatever else the client
    put in it. *)
Record UpdateData := {
  gameId : Room;
  ud_homeScore : option Z;
  ud_awayScore : option Z;
  ud_status : option string;
  ud_rest : list (string * json)
}.

(** What a [gameUpdated] event carries: a game document as a route read it
    back from the store, a game document with its two teams populated, or
    the object a client sent. *)
Inductive EmitArg :=
| Document (id : ObjectId) (g : Game.doc)
| Populated (id : ObjectId) (g : Game.doc) (home away : option string)
| Payload (d : UpdateData).

(** Server to client events. *)
Inductive Packet :=
| gameUpdated (arg : EmitArg)
| errorMessage (m : string).

(** Client to server events. *)
Inductive ClientEvent :=
| joinGame (gameId : Room)
| updateGame (updateData : UpdateData)
| otherEvent (name : string).

(** The functions the application registers with the library, by name:
    the middleware of middleware/socketAuth.js, and the two connection
    listeners, the one of sockets/gameSockets.js and the one of the variant of
    that file that persists the update. *)
Inductive Middleware := ProtectSocket.
Inductive Listener := GameSockets | GameSocketsPersisting.

(** [User.findById(decoded.id).select("role name")]. *)
Record SocketUser := {
  su_id : ObjectId;
  su_role : string;
  su_name : string
}.

Module SocketIO.

Record Socket := {
  user : option SocketUser;
  rooms : gset Room;
  handlers : list Listener;
  received : list Packet
}.

Record Namespace := {
  fns : list Middleware;
  listeners : list Listener;
  sockets : gmap SocketId Socket
}.

Record Server := { nsps : gmap string Namespace }.

Definition emptyNamespace : Namespace :=
  {| fns := []; listeners := []; sockets := ∅ |}.

(** [new Server(...)]: the main namespace is created with the server. *)
Definition new : Server := {| nsps := {[ "/" := emptyNamespace ]} |}.

(** [io.of(name)]: the namespace is created when it does not exist yet. *)
Definition of_ (name : string) (io : Server) : Server :=
  match nsps io !! name with
  | Some _ => io
  | None => {| nsps := <[name := emptyNamespace]> (nsps io) |}
  end.

Definition alterNamespace (name : string) (f : Namespace → Namespace)
  (io : Server) : Server :=
  {| nsps := alter f name (nsps io) |}.

Definition alterSocket (name : string) (sid : SocketId) (f : Socket → Socket)
  (io : Server) : Server :=
  alterNamespace name
    (fun n => {| fns := fns n; listeners := listeners n;
                 sockets := alter f sid (sockets n) |}) io.

(** [namespace.use(fn)] and [namespace.on("connection", listener)]. *)
Definition nsp_use (name : string) (fn : Middleware) (io : Server) : Server :=
  alterNamespace name
    (fun n => {| fns := fns n ++ [fn]; listeners := listeners n;
                 sockets := sockets n |}) io.

Definition nsp_on_connection (name : string) (l : Listener) (io : Server)
  : Server :=
  alterNamespace name
    (fun n => {| fns := fns n; listeners := listeners n ++ [l];
                 sockets := sockets n |}) io.

(** [io.use(fn)] and [io.on("connection", listener)]. *)
Definition use (fn : Middleware) (io : Server) : Server := nsp_use "/" fn io.

Definition on_connection (l : Listener) (io : Server) : Server :=
  nsp_on_connection "/" l io.

Definition deliver (p : Packet) (s : Socket) : Socket :=
  {| user := user s; rooms := rooms s; handlers := handlers s;
     received := received s ++ [p] |}.

(** [namespace.to(room).emit(...)]: the packet goes once to each socket of
    the namespace that is in the room. *)
Definition nsp_to_emit (name : string) (room : Room) (p : Packet)
  (io : Server) : Server :=
  alterNamespace name
    (fun n => {| fns := fns n; listeners := listeners n;
                 sockets := (fun s => if bool_decide (room ∈ rooms s)
                                      then deliver p s else s) <$> sockets n |})
    io.

(** [io.to(room).emit(...)]. *)
Definition to_emit (room : Room) (p : Packet) (io : Server) : Server :=
  nsp_to_emit "/" room p io.

(** [socket.join(room)] and [socket.emit(...)]. *)
Definition join (name : string) (sid : SocketId) (room : Room) (io : Server)
  : Server :=
  alterSocket name sid
    (fun s => {| user := user s; rooms := {[ room ]} ∪ rooms s;
                 handlers := handlers s; received := received s |}) io.

Definition emit (name : string) (sid : SocketId) (p : Packet) (io : Server)
  : Server :=
  alterSocket name sid (deliver p) io.

Definition socket (name : string) (sid : SocketId) (io : Server)
  : option Socket :=
  n ← nsps io !! name; sockets n !! sid.

(** A socket as the namespace creates it for a client: it is in the room
    named by its own id. *)
Definition newSocket (sid : SocketId) : Socket :=
  {| user := None; rooms := {[ sid ]}; handlers := []; received := [] |}.

End SocketIO.

(** ** The state of the process: the store behind Mongoose and the Socket.IO
    server that [app.set("io", io)] shares with the routers. *)
Record World := {
  db : Store;
  io : SocketIO.Server
}.

Definition with_db (s : Store) (w : World) : World := {| db := s; io := io w |}.
Definition with_io (i : SocketIO.Server) (w : World) : World := {| db := db w; io := i |}.

(** ** Mongoose queries on a collection *)

(** [$addToSet] and [$pull] on an array of ObjectIds. *)
Definition addToSet (x : ObjectId) (l : list ObjectId) : list ObjectId :=
  if bool_decide (x ∈ l) then l else l ++ [x].

Definition pull (x : ObjectId) (l : list ObjectId) : list ObjectId :=
  List.filter (fun y => negb (String.eqb y x)) l.

(** [Model.findOne(filter)]: only whether a document matches is looked at by
    the routers, so the order of the scan does not matter. *)
Definition findOne {A} (filter : A → bool) (coll : gmap ObjectId A)
  : option (ObjectId * A) :=
  List.find (fun e => filter (snd e)) (map_to_list coll).

(** ** The real-time gateway *)

Record Handshake := { auth_token : option string }.

Inductive ConnectResult :=
| Connected
| ConnectError (message : string).

Section RealTime.

(** [jwt.verify(token, process.env.JWT_SECRET)] of the jsonwebtoken package:
    the [id] of the decoded payload, or [None] when verification throws. *)
Variable jwt_verify : string → option ObjectId.

(** middleware/socketAuth.js *)
Definition protectSocket (store : Store) (handshake : Handshake)
  (socket : SocketIO.Socket) : string + SocketIO.Socket :=
  match auth_token handshake with
  | None => inl "No token provided"
  | Some token =>
      if String.eqb token "" then inl "No token provided"
      else
        match jwt_verify token with
        | None => inl "Unauthorized"
        | Some id =>
            match Users store !! id with
            | None => inl "User not found"
            | Some u =>
                inr {| SocketIO.user := Some {| su_id := id;
                                                su_role := User.role u;
                                                su_name := User.name u |};
                       SocketIO.rooms := SocketIO.rooms socket;
                       SocketIO.handlers := SocketIO.handlers socket;
                       SocketIO.received := SocketIO.received socket |}
            end
        end
  end.

Definition middleware (fn : Middleware)
  : Store → Handshake → SocketIO.Socket → string + SocketIO.Socket :=
  match fn with
  | ProtectSocket => protectSocket
  end.

(** The middleware of a namespace run in order on a connecting socket: the
    first one that calls [next(err)] ends the run with that error. *)
Fixpoint run (fns : list Middleware) (store : Store) (handshake : Handshake)
  (socket : SocketIO.Socket) : string + SocketIO.Socket :=
  match fns with
  | [] => inr socket
  | fn :: rest =>
      match middleware fn store handshake socket with
      | inl message => inl message
      | inr socket' => run rest store handshake socket'
      end
  end.

(** A client connects to a namespace.  The namespace must exist; its
    middleware runs; on an error the client gets a connect error and no
    socket is added; otherwise the socket is added and the connection
    listeners of the namespace run, each registering its handlers on it. *)
Definition connect (name : string) (sid : SocketId) (handshake : Handshake)
  (w : World) : World * ConnectResult :=
  match SocketIO.nsps (io w) !! name with
  | None => (w, ConnectError "Invalid namespace")
  | Some n =>
      match run (SocketIO.fns n) (db w) handshake (SocketIO.newSocket sid) with
      | inl message => (w, ConnectError message)
      | inr s =>
          let s' := {| SocketIO.user := SocketIO.user s;
                       SocketIO.rooms := SocketIO.rooms s;
                       SocketIO.handlers := SocketIO.listeners n;
                       SocketIO.received := SocketIO.received s |} in
          (with_io
             (SocketIO.alterNamespace name
                (fun n => {| SocketIO.fns := SocketIO.fns n;
                             SocketIO.listeners := SocketIO.listeners n;
                             SocketIO.sockets := <[sid := s']> (SocketIO.sockets n) |})
                (io w)) w,
           Connected)
      end
  end.

(** [socket.user?.role === "admin" || socket.user?.role === "coach"] *)
Definition mayPush (socket : SocketIO.Socket) : bool :=
  match SocketIO.user socket with
  | None => false
  | Some u => String.eqb (su_role u) "admin" || String.eqb (su_role u) "coach"
  end.

(** sockets/gameSockets.js: the handlers the connection listener registers
    on [socket], the socket [sid] of namespace [name]. *)
Definition gameSockets (name : string) (sid : SocketId) (event : ClientEvent)
  (w : World) : World :=
  match event with
  | joinGame gameId => with_io (SocketIO.join name sid gameId (io w)) w
  | updateGame updateData =>
      match SocketIO.socket name sid (io w) with
      | None => w
      | Some socket =>
          if mayPush socket
          then with_io (SocketIO.to_emit (gameId updateData)
                          (gameUpdated (Payload updateData)) (io w)) w
          else w
      end
  | otherEvent _ => w
  end.

(** The variant of sockets/gameSockets.js that persists the update: no test
    of the role, the fields present in the payload are written with the
    update validators on, and the game read back is broadcast.  The [gameId]
    of the payload is looked up as it is written: it is taken to be the string
    form of an ObjectId ([isObjectIdString]), which is what the keys of the
    store are; the cast of another spelling of an id, and the failure of the
    cast, are not modelled.  First the update validators of the fields
    present, and the update itself. *)
Definition fieldsValid (data : UpdateData) : bool :=
  from_option Game.scoreValid true (ud_homeScore data)
  && from_option Game.scoreValid true (ud_awayScore data)
  && from_option Game.statusValid true (ud_status data).

Definition updateFields (data : UpdateData) (g : Game.doc) : Game.doc :=
  let g1 := match ud_homeScore data with
            | Some h => Game.set_scores h (Game.awayScore g) g
            | None => g
            end in
  let g2 := match ud_awayScore data with
            | Some a => Game.set_scores (Game.homeScore g1) a g1
            | None => g1
            end in
  match ud_status data with
  | Some s => Game.set_status s g2
  | None => g2
  end.

Definition gameSocketsPersisting (name : string) (sid : SocketId)
  (event : ClientEvent) (w : World) : World :=
  match event with
  | joinGame gameId => with_io (SocketIO.join name sid gameId (io w)) w
  | updateGame data =>
      if negb (fieldsValid data)
      then with_io (SocketIO.emit name sid (errorMessage "Update failed")
                      (io w)) w
      else
        match Games (db w) !! gameId data with
        | None =>
            with_io (SocketIO.emit name sid (errorMessage "Game not found")
                       (io w)) w
        | Some g =>
            let game := updateFields data g in
            let store := with_Games (<[gameId data := game]> (Games (db w)))
                           (db w) in
            let populated :=
              Populated (gameId data) game
                (Team.name <$> Teams store !! Game.homeTeam game)
                (Team.name <$> Teams store !! Game.awayTeam game) in
            {| db := store;
               io := SocketIO.to_emit (gameId data) (gameUpdated populated)
                       (io w) |}
        end
  | otherEvent _ => w
  end.

Definition handler (l : Listener)
  : string → SocketId → ClientEvent → World → World :=
  match l with
  | GameSockets => gameSockets
  | GameSocketsPersisting => gameSocketsPersisting
  end.

(** The client of socket [sid] of namespace [name] emits an event: the
    handlers registered on that socket run. *)
Definition client_emit (name : string) (sid : SocketId) (event : ClientEvent)
  (w : World) : World :=
  match SocketIO.socket name sid (io w) with
  | None => w
  | Some s => fold_left (fun w l => handler l name sid event w)
                (SocketIO.handlers s) w
  end.

(** The client goes away: the ["disconnect"] handlers only log, and the
    library drops the socket from its namespace and so from its rooms. *)
Definition client_disconnect (name : string) (sid : SocketId) (w : World)
  : World :=
  with_io
    (SocketIO.alterNamespace name
       (fun n => {| SocketIO.fns := SocketIO.fns n;
                    SocketIO.listeners := SocketIO.listeners n;
                    SocketIO.sockets := delete sid (SocketIO.sockets n) |})
       (io w)) w.

End RealTime.

(** [initGameSockets(io)] of sockets/gameSockets.js: the listener is registered
    on the namespace ["/api/game"]. *)
Definition initGameSockets (io : SocketIO.Server) : SocketIO.Server :=
  SocketIO.nsp_on_connection "/api/game" GameSockets
    (SocketIO.of_ "/api/game" io).

(** [initGameSockets(io)] of the persisting variant: [io.on("connection", ...)]. *)
Definition initGameSocketsPersisting (io : SocketIO.Server) : SocketIO.Server :=
  SocketIO.on_connection GameSocketsPersisting io.

(** server.js: [io.use(protectSocket)], then [initGameSockets(io)]. *)
Definition server (init : SocketIO.Server → SocketIO.Server) : SocketIO.Server :=
  init (SocketIO.use ProtectSocket SocketIO.new).

(** ** HTTP: requests, responses and the authorization gate *)

Module Req.

(** [req.user], the acting identity that [protect] attached to the request. *)
Record user := {
  id : ObjectId;
  role : string
}.

End Req.

(** A player as [populate('players', ...)] selects it. *)
Record PlayerBrief := {
  pb_id : ObjectId;
  pb_name : string;
  pb_position : string;
  pb_jerseyNumber : Z;
  pb_stats : option Player.Stats;
  pb_isActive : option bool
}.

Module Res.

Inductive Data :=
| NoData
| GameData (id : ObjectId) (g : Game.doc)
| TeamData (id : ObjectId) (t : Team.doc) (coach : option (string * string))
    (players : list PlayerBrief)
| PlayerData (id : ObjectId) (p : Player.doc)
    (team : option (string * Team.Colors)) (user : option (string * string)).

(** [res.status(code).json({ success, message, errors, data })] *)
Record t := {
  status : nat;
  success : bool;
  message : option string;
  errors : list string;
  data : Data
}.

Definition fail (code : nat) (msg : string) : t :=
  {| status := code; success := false; message := Some msg; errors := [];
     data := NoData |}.

Definition validationErrors (errs : list string) : t :=
  {| status := 400; success := false; message := Some "Validation errors";
     errors := errs; data := NoData |}.

Definition serverError : t := fail 500 "Server error".

Definition ok (d : Data) : t :=
  {| status := 200; success := true; message := None; errors := []; data := d |}.

Definition created (d : Data) : t :=
  {| status := 201; success := true; message := None; errors := []; data := d |}.

Definition done (msg : string) : t :=
  {| status := 200; success := true; message := Some msg; errors := [];
     data := NoData |}.

(** Modelled from the spec: the answer of the role gate of
    middleware/auth.js, which is not among the sources ("reject with
    forbidden"); the specification gives its status only. *)
Definition forbidden : t :=
  {| status := 403; success := false; message := None; errors := [];
     data := NoData |}.

End Res.

(** Modelled from the spec: [authorize(...roles)] of middleware/auth.js, which
    is not among the sources: "a second gate checks the identity's role
    against a route-declared allow-list; reject with forbidden otherwise". *)
Definition authorize (roles : list string) (user : Req.user) : bool :=
  existsb (String.eqb (Req.role user)) roles.

(** A route behind [protect, authorize(...roles)]: the handler runs for an
    identity whose role is on the list. *)
Definition gated {S : Type} (roles : list string) (user : Req.user) (s : S)
  (handler : S * Res.t) : S * Res.t :=
  if authorize roles user then handler else (s, Res.forbidden).

(** [.populate('coach', 'name email')], [.populate('players', select)] with
    or without [stats isActive] in the selection, [.populate('team', 'name
    colors')] and [.populate('user', 'name email')]. *)
Definition populateUser (store : Store) (id : ObjectId) : option (string * string) :=
  u ← Users store !! id; Some (User.name u, User.email u).

Definition populatePlayers (full : bool) (store : Store) (ids : list ObjectId)
  : list PlayerBrief :=
  omap (fun id =>
          p ← Players store !! id;
          Some {| pb_id := id; pb_name := Player.name p;
                  pb_position := Player.position p;
                  pb_jerseyNumber := Player.jerseyNumber p;
                  pb_stats := if full then Some (Player.stats p) else None;
                  pb_isActive := if full then Some (Player.isActive p) else None |})
       ids.

Definition teamData (full : bool) (store : Store) (id : ObjectId) : Res.Data :=
  match Teams store !! id with
  | None => Res.NoData
  | Some t => Res.TeamData id t (populateUser store (Team.coach t))
                (populatePlayers full store (Team.players t))
  end.

Definition playerData (store : Store) (id : ObjectId) : Res.Data :=
  match Players store !! id with
  | None => Res.NoData
  | Some p =>
      Res.PlayerData id p
        (t ← Player.team p ≫= (fun tid => Teams store !! tid);
         Some (Team.name t, Team.colors t))
        (populateUser store (Player.user p))
  end.

(** The test every handler of routes/teams.js makes after it has loaded the
    team: [req.user.role !== 'admin' && team.coach.toString() !== req.user.id]. *)
Definition notTeamsCoachOrAdmin (user : Req.user) (team : Team.doc) : bool :=
  negb (String.eqb (Req.role user) "admin")
  && negb (String.eqb (Team.coach team) (Req.id user)).

(** [Player.updateMany({ team }, { $unset: { team: 1 } })]: the documents are
    rewritten one after the other, and the first write that the unique index
    refuses ends the run with the earlier writes applied; the flag tells
    whether the run came to its end. *)
Definition unsetTeamMany (team : ObjectId) (coll : gmap ObjectId Player.doc)
  : gmap ObjectId Player.doc * bool :=
  fold_left
    (fun acc e =>
       if snd acc && bool_decide (Player.team (snd e) = Some team)
       then
         let p := Player.set_team None (snd e) in
         if Player.duplicateKey (fst e) p (fst acc) then (fst acc, false)
         else (<[fst e := p]> (fst acc), true)
       else acc)
    (map_to_list coll) (coll, true).

(** [req.user.role === 'coach' && player.team.coach.toString() !== req.user.id]
    on a player loaded with [populate('team')]: [None] when the expression
    throws, the populated team being null. *)
Definition notPlayersCoach (user : Req.user) (team : option Team.doc)
  : option bool :=
  if String.eqb (Req.role user) "coach"
  then match team with
       | None => None
       | Some t => Some (negb (String.eqb (Team.coach t) (Req.id user)))
       end
  else Some false.

(** Request bodies as the validators and Mongoose read them, after
    [express.json()] or [express.urlencoded()].  A string field is [Some s]
    when its value is a string, or a number or a boolean, whose string form is
    [s]; an integer field is [Some n] when [isInt] reads its value as the
    integer [n] (see [Validator.isInt]).  A field is [None] when it is absent
    or null, and an integer field also when [isInt] refuses its value.  Arrays
    and objects as values of these fields are not modelled. *)
Module AddPlayerBody.
Record t := { playerId : option string }.
End AddPlayerBody.

Module ScoreBody.

Record t := { homeScore : option Z; awayScore : option Z }.

(** The validation chain of [PUT /api/games/:id/score]. *)
Definition validationResult (b : t) : list string :=
  Validator.check (Validator.isInt 0 None (homeScore b))
    "Home score must be non-negative"
  ++ Validator.check (Validator.isInt 0 None (awayScore b))
       "Away score must be non-negative".

End ScoreBody.

Module PlayerBody.

Record t := {
  name : option string;
  user : option string;
  team : option string;
  position : option string;
  jerseyNumber : option Z;
  height : option string;
  weight : option Z;
  age : option Z;
  stats : option Player.Stats;
  isActive : option bool
}.

(** The validation chain of [POST /api/players]. *)
Definition validationResult (b : t) : list string :=
  Validator.check (Validator.notEmpty (name b)) "Name is required"
  ++ Validator.check (Validator.mongoId (user b)) "Valid user ID is required"
  ++ Validator.check (Validator.mongoId (team b)) "Valid team ID is required"
  ++ Validator.check (Validator.isIn ["PG"; "SG"; "SF"; "PF"; "C"] (position b))
       "Invalid position"
  ++ Validator.check (Validator.isInt 0 (Some 99%Z) (jerseyNumber b))
       "Jersey number must be between 0-99"
  ++ Validator.check (Validator.notEmpty (height b)) "Height is required"
  ++ Validator.check (Validator.isInt 100 (Some 400%Z) (weight b))
       "Weight must be between 100-400 lbs"
  ++ Validator.check (Validator.isInt 16 (Some 50%Z) (age b))
       "Age must be between 16-50".

(** [new Player({ ...playerData, user, team })] of a body that has the eight
    validated fields: setters and defaults applied. *)
Definition document (now : Z) (b : t) : option Player.doc :=
  name ← name b; user ← user b; team ← team b; position ← position b;
  jerseyNumber ← jerseyNumber b; height ← height b; weight ← weight b;
  age ← age b;
  Some {| Player.name := trim name; Player.user := user;
          Player.team := Some team; Player.position := position;
          Player.jerseyNumber := jerseyNumber; Player.height := trim height;
          Player.weight := weight; Player.age := age;
          Player.stats := default Player.defaultStats (stats b);
          Player.isActive := default true (isActive b);
          Player.createdAt := now |}.

End PlayerBody.

(** ** The routers *)

Section Routes.

(** A request body handed whole to [findByIdAndUpdate(id, req.body,
    { new: true, runValidators: true })], and what Mongoose makes of it for
    each model: the update it casts the body to, or [None] when the cast or
    an update validator throws. *)
Variable Body : Type.
Variable castTeam : Body → option (Team.doc → Team.doc).
Variable castPlayer : Body → option (Player.doc → Player.doc).
Variable castGame : Body → option (Game.doc → Game.doc).

(** *** routes/teams.js *)

(** [PUT /api/teams/:id] *)
Definition teams_put (user : Req.user) (id : ObjectId) (body : Body)
  (store : Store) : Store * Res.t :=
  gated ["admin"; "coach"] user store
    match Teams store !! id with
    | None => (store, Res.fail 404 "Team not found")
    | Some team =>
        if notTeamsCoachOrAdmin user team
        then (store, Res.fail 403 "Not authorized to update this team")
        else
          match castTeam body with
          | None => (store, Res.serverError)
          | Some update =>
              if Team.duplicateKey id (update team) (Teams store)
              then (store, Res.serverError)
              else
                let store' := with_Teams (<[id := update team]> (Teams store))
                                store in
                (store', Res.ok (teamData false store' id))
          end
    end.

(** [POST /api/teams/:id/players] *)
Definition teams_post_players (user : Req.user) (id : ObjectId)
  (body : AddPlayerBody.t) (store : Store) : Store * Res.t :=
  gated ["admin"; "coach"] user store
    match Validator.check (Validator.mongoId (AddPlayerBody.playerId body))
            "Valid player ID is required",
          AddPlayerBody.playerId body with
    | [], Some playerId =>
        match Teams store !! id with
        | None => (store, Res.fail 404 "Team not found")
        | Some team =>
            if notTeamsCoachOrAdmin user team
            then (store, Res.fail 403 "Not authorized to manage this team")
            else
              match Players store !! playerId with
              | None => (store, Res.fail 404 "Player not found")
              | Some player =>
                  if bool_decide (playerId ∈ Team.players team)
                  then (store, Res.fail 400 "Player is already on this team")
                  else
                    let player' := Player.set_team (Some id) player in
                    if Player.duplicateKey playerId player' (Players store)
                    then (store, Res.serverError)
                    else
                      let s1 := with_Players
                                  (<[playerId := player']> (Players store))
                                  store in
                      let s2 := with_Teams
                                  (alter (fun t => Team.set_players
                                                     (addToSet playerId (Team.players t)) t)
                                     id (Teams s1)) s1 in
                      let s3 := with_Users
                                  (alter (User.set_team (Some id))
                                     (Player.user player) (Users s2)) s2 in
                      (s3, Res.ok (teamData true s3 id))
              end
        end
    | errors, _ => (store, Res.validationErrors errors)
    end.

(** [DELETE /api/teams/:id/players/:playerId] *)
Definition teams_delete_players (user : Req.user) (id playerId : ObjectId)
  (store : Store) : Store * Res.t :=
  gated ["admin"; "coach"] user store
    match Teams store !! id with
    | None => (store, Res.fail 404 "Team not found")
    | Some team =>
        if notTeamsCoachOrAdmin user team
        then (store, Res.fail 403 "Not authorized to manage this team")
        else
          match Players store !! playerId with
          | None => (store, Res.fail 404 "Player not found")
          | Some player =>
              let s1 := with_Teams
                          (alter (fun t => Team.set_players
                                             (pull playerId (Team.players t)) t)
                             id (Teams store)) store in
              let player' := Player.set_team None player in
              if Player.duplicateKey playerId player' (Players s1)
              then (s1, Res.serverError)
              else
                let s2 := with_Players (<[playerId := player']> (Players s1))
                            s1 in
                let s3 := with_Users
                            (alter (User.set_team None) (Player.user player)
                               (Users s2)) s2 in
                (s3, Res.ok (teamData true s3 id))
          end
    end.

(** [DELETE /api/teams/:id] *)
Definition teams_delete (user : Req.user) (id : ObjectId) (store : Store)
  : Store * Res.t :=
  gated ["admin"; "coach"] user store
    match Teams store !! id with
    | None => (store, Res.fail 404 "Team not found")
    | Some team =>
        if notTeamsCoachOrAdmin user team
        then (store, Res.fail 403 "Not authorized to delete this team")
        else
          let unset := unsetTeamMany id (Players store) in
          let s1 := with_Players (fst unset) store in
          if negb (snd unset) then (s1, Res.serverError)
          else
            let s2 := with_Users
                        (alter (fun u => User.set_managedTeams
                                           (pull id (User.managedTeams u)) u)
                           (Team.coach team) (Users s1)) s1 in
            let s3 := with_Users
                        ((fun u => if bool_decide (User.team u = Some id)
                                   then User.set_team None u else u)
                           <$> Users s2) s2 in
            let s4 := with_Teams (delete id (Teams s3)) s3 in
            (s4, Res.done "Team deleted successfully")
    end.

(** *** routes/players.js *)

(** [POST /api/players]; [newId] is the ObjectId the driver gives the new
    document and [now] the value of [Date.now()]. *)
Definition players_post (user : Req.user) (body : PlayerBody.t)
  (newId : ObjectId) (now : Z) (store : Store) : Store * Res.t :=
  gated ["admin"; "coach"] user store
    match PlayerBody.validationResult body, PlayerBody.user body,
          PlayerBody.team body, PlayerBody.document now body with
    | [], Some userId, Some team, Some document =>
        match Users store !! userId with
        | None => (store, Res.fail 400 "User must exist and have player role")
        | Some userExists =>
            if negb (String.eqb (User.role userExists) "player")
            then (store, Res.fail 400 "User must exist and have player role")
            else
              match Teams store !! team with
              | None => (store, Res.fail 400 "Team not found")
              | Some teamExists =>
                  if String.eqb (Req.role user) "coach"
                     && negb (String.eqb (Team.coach teamExists) (Req.id user))
                  then (store,
                        Res.fail 403 "Not authorized to add players to this team")
                  else
                    match findOne (fun p => String.eqb (Player.user p) userId)
                            (Players store) with
                    | Some existingPlayer =>
                        (store, Res.fail 400 "User already has a player profile")
                    | None =>
                        match findOne
                                (Player.sameKey
                                   (Player.jerseyNumber document, Some team))
                                (Players store) with
                        | Some jerseyTaken =>
                            (store,
                             Res.fail 400 "Jersey number already taken in this team")
                        | None =>
                            if negb (Player.validate document)
                               || bool_decide (is_Some (Players store !! newId))
                               || Player.duplicateKey newId document (Players store)
                            then (store, Res.serverError)
                            else
                              let s1 := with_Players
                                          (<[newId := document]> (Players store))
                                          store in
                              let s2 := with_Users
                                          (alter (fun u =>
                                                    User.set_playerProfile (Some newId)
                                                      (User.set_team (Some team) u))
                                             userId (Users s1)) s1 in
                              let s3 := with_Teams
                                          (alter (fun t =>
                                                    Team.set_players
                                                      (addToSet newId (Team.players t)) t)
                                             team (Teams s2)) s2 in
                              (s3, Res.created (playerData s3 newId))
                        end
                    end
              end
        end
    | errors, _, _, _ => (store, Res.validationErrors errors)
    end.

(** [PUT /api/players/:id] *)
Definition players_put (user : Req.user) (id : ObjectId) (body : Body)
  (store : Store) : Store * Res.t :=
  gated ["admin"; "coach"] user store
    match Players store !! id with
    | None => (store, Res.fail 404 "Player not found")
    | Some player =>
        let team := Player.team player ≫= (fun t => Teams store !! t) in
        match notPlayersCoach user team with
        | None => (store, Res.serverError)
        | Some true => (store, Res.fail 403 "Not authorized to update this player")
        | Some false =>
            match castPlayer body with
            | None => (store, Res.serverError)
            | Some update =>
                if Player.duplicateKey id (update player) (Players store)
                then (store, Res.serverError)
                else
                  let store' := with_Players
                                  (<[id := update player]> (Players store))
                                  store in
                  (store', Res.ok (playerData store' id))
            end
        end
    end.

(** [DELETE /api/players/:id] *)
Definition players_delete (user : Req.user) (id : ObjectId) (store : Store)
  : Store * Res.t :=
  gated ["admin"; "coach"] user store
    match Players store !! id with
    | None => (store, Res.fail 404 "Player not found")
    | Some player =>
        let team := Player.team player ≫= (fun t => Teams store !! t) in
        match notPlayersCoach user team with
        | None => (store, Res.serverError)
        | Some true => (store, Res.fail 403 "Not authorized to delete this player")
        | Some false =>
            match Player.team player, team with
            | Some teamId, Some _ =>
                let s1 := with_Teams
                            (alter (fun t => Team.set_players
                                               (pull id (Team.players t)) t)
                               teamId (Teams store)) store in
                let s2 := with_Users
                            (alter (fun u => User.set_playerProfile None
                                               (User.set_team None u))
                               (Player.user player) (Users s1)) s1 in
                let s3 := with_Players (delete id (Players s2)) s2 in
                (s3, Res.done "Player deleted successfully")
            | _, _ => (store, Res.serverError)
            end
        end
    end.

(** *** routes/games.js *)

(** [PUT /api/games/:id] *)
Definition games_put (user : Req.user) (id : ObjectId) (body : Body)
  (store : Store) : Store * Res.t :=
  gated ["admin"; "coach"] user store
    match castGame body with
    | None => (store, Res.serverError)
    | Some update =>
        match Games store !! id with
        | None => (store, Res.fail 404 "Game not found")
        | Some g =>
            (with_Games (<[id := update g]> (Games store)) store,
             Res.ok (Res.GameData id (update g)))
        end
    end.

(** [DELETE /api/games/:id] *)
Definition games_delete (user : Req.user) (id : ObjectId) (store : Store)
  : Store * Res.t :=
  gated ["admin"; "coach"] user store
    match Games store !! id with
    | None => (store, Res.fail 404 "Game not found")
    | Some _ =>
        (with_Games (delete id (Games store)) store,
         Res.done "Game deleted successfully")
    end.

End Routes.

(** [PUT /api/games/:id/score] *)
Definition games_put_score (user : Req.user) (id : ObjectId)
  (body : ScoreBody.t) (w : World) : World * Res.t :=
  gated ["admin"; "coach"] user w
    match ScoreBody.validationResult body,
          ScoreBody.homeScore body, ScoreBody.awayScore body with
    | [], Some homeScore, Some awayScore =>
        if negb (Game.scoreValid homeScore && Game.scoreValid awayScore)
        then (w, Res.serverError)
        else
          match Games (db w) !! id with
          | None => (w, Res.fail 404 "Game not found")
          | Some g =>
              let game := Game.set_scores homeScore awayScore g in
              ({| db := with_Games (<[id := game]> (Games (db w))) (db w);
                  io := SocketIO.to_emit id (gameUpdated (Document id game)) (io w) |},
               Res.ok (Res.GameData id game))
          end
    | errors, _, _ => (w, Res.validationErrors errors)
    end.

(** The requests to [POST /api/players] that come as far as the test of the
    jersey number: the role gate, the validation chain, the lookups of the
    user and of the team, the test of the coach and the test of an existing
    profile of the user all let them through. *)
Definition reachesJerseyCheck (user : Req.user) (body : PlayerBody.t)
  (store : Store) : Prop :=
  (Req.role user = "admin" ∨ Req.role user = "coach")
  ∧ PlayerBody.validationResult body = []
  ∧ (∃ userId u,
        PlayerBody.user body = Some userId ∧ Users store !! userId = Some u
        ∧ User.role u = "player"
        ∧ ∀ pid p, Players store !! pid = Some p → Player.user p ≠ userId)
  ∧ (∃ team t,
        PlayerBody.team body = Some team ∧ Teams store !! team = Some t
        ∧ (Req.role user = "coach" → Team.coach t = Req.id user)).

(** The outcome of a request that is refused for want of ownership: the
    store is the one before the request and the status is 403. *)
Definition refused (store : Store) (r : Store * Res.t) : Prop :=
  fst r = store ∧ Res.status (snd r) = 403.

(** ** The gateway and the routers over time

    What reaches the Socket.IO server and the routers: clients connect to a
    namespace, emit events and go away, and HTTP requests come in.  Of the
    routes, the score update is the one that uses the Socket.IO server; every
    other route is a function of the store alone.  [serve] takes a handshake
    that has reached the Socket.IO server; whether one does is told by
    [handle], below. *)
Inductive Request :=
| ClientConnect (name : string) (sid : SocketId) (handshake : Handshake)
| ClientEmit (name : string) (sid : SocketId) (event : ClientEvent)
| ClientDisconnect (name : string) (sid : SocketId)
| PutScore (user : Req.user) (id : ObjectId) (body : ScoreBody.t)
| OtherRoute (route : Store → Store * Res.t).

Definition serve (jwt_verify : string → option ObjectId) (r : Request)
  (w : World) : World :=
  match r with
  | ClientConnect name sid handshake => fst (connect jwt_verify name sid handshake w)
  | ClientEmit name sid event => client_emit name sid event w
  | ClientDisconnect name sid => client_disconnect name sid w
  | PutScore user id body => fst (games_put_score user id body w)
  | OtherRoute route => with_db (fst (route (db w))) w
  end.

Definition serveAll (jwt_verify : string → option ObjectId)
  (requests : list Request) (w : World) : World :=
  fold_left (fun w r => serve jwt_verify r w) requests w.

(** The shape server.js gives the Socket.IO server, and that every request
    keeps: two namespaces; the main one has the middleware and no listener, so
    that its sockets have no handler and are in no room but their own; the
    one of sockets/gameSockets.js has the listener and no middleware, so that
    its sockets carry no user, and nothing is ever sent to them. *)
Definition wired (io : SocketIO.Server) : Prop :=
  (∀ name, name ≠ "/" → name ≠ "/api/game" → SocketIO.nsps io !! name = None)
  ∧ (∃ n, SocketIO.nsps io !! "/" = Some n
          ∧ SocketIO.fns n = [ProtectSocket] ∧ SocketIO.listeners n = []
          ∧ ∀ sid s, SocketIO.sockets n !! sid = Some s →
                     SocketIO.handlers s = [] ∧ SocketIO.rooms s = {[ sid ]})
  ∧ (∃ n, SocketIO.nsps io !! "/api/game" = Some n
          ∧ SocketIO.fns n = [] ∧ SocketIO.listeners n = [GameSockets]
          ∧ ∀ sid s, SocketIO.sockets n !! sid = Some s →
                     SocketIO.handlers s = [GameSockets]
                     ∧ SocketIO.user s = None ∧ SocketIO.received s = []).

(** ** server.js: the server that listens

    [http.createServer(app)] makes the HTTP server that
    [new Server(server, ...)] attaches Socket.IO to.  [app.listen(PORT)]
    makes an HTTP server of its own for the Express application and opens the
    port on that one; [server.listen] is never called.  A request for a
    real-time connection is answered by Socket.IO on the HTTP server it is
    attached to; on another server it goes to the Express application, which
    has no route for it and answers 404. *)
Inductive HttpServer :=
| createServer
| appListen.

#[local] Instance HttpServer_eq_dec : EqDecision HttpServer.
Proof. solve_decision. Defined.

Record Process := {
  world : World;
  attached : HttpServer;
  listening : list HttpServer
}.

Definition with_world (w : World) (p : Process) : Process :=
  {| world := w; attached := attached p; listening := listening p |}.

(** What a client that asks for a real-time connection gets: the 404 of the
    Express application, or the answer of Socket.IO. *)
Inductive Upgrade :=
| NotFound
| Served (result : ConnectResult).

Definition upgrade (jwt_verify : string → option ObjectId) (name : string)
  (sid : SocketId) (handshake : Handshake) (p : Process) : Process * Upgrade :=
  if bool_decide (attached p ∈ listening p)
  then
    let r := connect jwt_verify name sid handshake (world p) in
    (with_world (fst r) p, Served (snd r))
  else (p, NotFound).

(** server.js, once [mongoose.connect] has resolved. *)
Definition start (init : SocketIO.Server → SocketIO.Server) (store : Store)
  : Process :=
  {| world := {| db := store; io := server init |};
     attached := createServer;
     listening := [appListen] |}.

(** A request at the port.  An event of a client that has no socket reaches
    no handler, which [client_emit] tells. *)
Definition handle (jwt_verify : string → option ObjectId) (r : Request)
  (p : Process) : Process :=
  match r with
  | ClientConnect name sid handshake =>
      fst (upgrade jwt_verify name sid handshake p)
  | _ => with_world (serve jwt_verify r (world p)) p
  end.

Definition handleAll (jwt_verify : string → option ObjectId)
  (requests : list Request) (p : Process) : Process :=
  fold_left (fun p r => handle jwt_verify r p) requests p.

(** No client has a socket, in any namespace. *)
Definition noSocket (io : SocketIO.Server) : Prop :=
  ∀ name sid, SocketIO.socket name sid io = None.

(** ** A league to run the routers on *)

Module Fixture.

Definition coachA : ObjectId := "64b0000000000000000000a1".
Definition coachB : ObjectId := "64b0000000000000000000a2".
Definition coachC : ObjectId := "64b0000000000000000000a6".
Definition admin : ObjectId := "64b0000000000000000000a3".
Definition userP : ObjectId := "64b0000000000000000000a4".
Definition userQ : ObjectId := "64b0000000000000000000a5".
Definition hawks : ObjectId := "64b0000000000000000000b1".
Definition owls : ObjectId := "64b0000000000000000000b2".
Definition playerP : ObjectId := "64b0000000000000000000c1".
Definition game : ObjectId := "64b0000000000000000000d1".

Definition user (name role : string) (team profile : option ObjectId)
  (managed : list ObjectId) : User.doc :=
  {| User.name := name; User.email := String.append name "@league.test";
     User.role := role; User.team := team; User.playerProfile := profile;
     User.managedTeams := managed |}.

Definition team (name : string) (coach : ObjectId) (players : list ObjectId)
  (wins losses : Z) : Team.doc :=
  {| Team.name := name; Team.coach := coach; Team.description := None;
     Team.foundedYear := None; Team.homeVenue := None;
     Team.colors := {| Team.primary := "#000000"; Team.secondary := "#FFFFFF" |};
     Team.logo := None; Team.isActive := true; Team.players := players;
     Team.stats := {| Team.wins := Number.ofZ wins;
                      Team.losses := Number.ofZ losses;
                      Team.winPercentage := Number.zero |};
     Team.createdAt := 0%Z |}.

Definition player (name : string) (user : ObjectId) (team : option ObjectId)
  (jersey : Z) : Player.doc :=
  {| Player.name := name; Player.user := user; Player.team := team;
     Player.position := "PG"; Player.jerseyNumber := jersey;
     Player.height := "6'2"; Player.weight := 190%Z; Player.age := 24%Z;
     Player.stats := Player.defaultStats; Player.isActive := true;
     Player.createdAt := 0%Z |}.

Definition scheduled : Game.doc :=
  {| Game.homeTeam := hawks; Game.awayTeam := owls; Game.homeScore := 0%Z;
     Game.awayScore := 0%Z; Game.gameDate := 1700000000%Z;
     Game.status := "scheduled"; Game.quarter := 1%Z;
     Game.timeRemaining := "12:00"; Game.venue := Some "Arena";
     Game.attendance := None; Game.gameStats := []; Game.createdAt := 0%Z |}.

(** Two coaches with a team each and a third coach without a team, a player
    on the first team, a user without a profile yet, and a game between the
    two teams. *)
Definition store : Store :=
  {| Users := {[ coachA := user "Ann" "coach" None None [hawks];
                 coachB := user "Bob" "coach" None None [owls];
                 coachC := user "Cy" "coach" None None [];
                 admin := user "Eve" "admin" None None [];
                 userP := user "Pat" "player" (Some hawks) (Some playerP) [];
                 userQ := user "Quin" "player" None None [] ]};
     Teams := {[ hawks := team "Hawks" coachA [playerP] 3 1;
                 owls := team "Owls" coachB [] 0 0 ]};
     Players := {[ playerP := player "Pat" userP (Some hawks) 7 ]};
     Games := {[ game := scheduled ]} |}.

Definition asCoachA : Req.user := {| Req.id := coachA; Req.role := "coach" |}.
Definition asCoachB : Req.user := {| Req.id := coachB; Req.role := "coach" |}.
Definition asCoachC : Req.user := {| Req.id := coachC; Req.role := "coach" |}.
Definition asAdmin : Req.user := {| Req.id := admin; Req.role := "admin" |}.

(** The tokens that verify are of the form ["jwt:" ++ id]. *)
Definition jwt_verify (token : string) : option ObjectId :=
  match token with
  | String "j" (String "w" (String "t" (String ":" id))) => Some id
  | _ => None
  end.

(** The store and the Socket.IO server as server.js sets them up. *)
Definition world : World := {| db := store; io := server initGameSockets |}.

(** The process as server.js starts it. *)
Definition program : Process := start initGameSockets store.

(** The process had server.js been given the persisting variant of
    sockets/gameSockets.js. *)
Definition worldPersisting : World :=
  {| db := store; io := server initGameSocketsPersisting |}.

Definition score (home away : Z) : ScoreBody.t :=
  {| ScoreBody.homeScore := Some home; ScoreBody.awayScore := Some away |}.

Definition payload : UpdateData :=
  {| gameId := game; ud_homeScore := Some 2%Z; ud_awayScore := None;
     ud_status := Some "in_progress"; ud_rest := [("note", JStr "tip-off")] |}.

(** A body for [POST /api/players] that asks for jersey [jersey] on team
    [team] for user [userQ]. *)
Definition newPlayer (team : ObjectId) (jersey : Z) : PlayerBody.t :=
  {| PlayerBody.name := Some "Quin"; PlayerBody.user := Some userQ;
     PlayerBody.team := Some team; PlayerBody.position := Some "SG";
     PlayerBody.jerseyNumber := Some jersey; PlayerBody.height := Some "6'4";
     PlayerBody.weight := Some 200%Z; PlayerBody.age := Some 22%Z;
     PlayerBody.stats := None; PlayerBody.isActive := None |}.

(** A client that connected to the namespace of sockets/gameSockets.js
    without a token, and the same client after it has asked for the room
    of the game. *)
Definition connected : World :=
  fst (connect jwt_verify "/api/game" "viewer" {| auth_token := None |} world).

Definition joined : World :=
  client_emit "/api/game" "viewer" (joinGame game) connected.


(** A state built by hand, in which a socket with the handlers of
    sockets/gameSockets.js carries a coach, and a socket of the main
    namespace is in the room of the game. *)
Definition pusher : SocketIO.Socket :=
  {| SocketIO.user := Some {| su_id := coachB; su_role := "coach";
                              su_name := "Bob" |};
     SocketIO.rooms := {[ "pusher" ]};
     SocketIO.handlers := [GameSockets];
     SocketIO.received := [] |}.

Definition listener : SocketIO.Socket :=
  {| SocketIO.user := None; SocketIO.rooms := {[ "listener"; game ]};
     SocketIO.handlers := []; SocketIO.received := [] |}.

Definition pushing : World :=
  {| db := store;
     io := {| SocketIO.nsps :=
                {[ "/" := {| SocketIO.fns := [ProtectSocket];
                             SocketIO.listeners := [];
                             SocketIO.sockets := {[ "listener" := listener ]} |};
                   "/api/game" := {| SocketIO.fns := [];
                                     SocketIO.listeners := [GameSockets];
                                     SocketIO.sockets := {[ "pusher" := pusher ]} |} ]} |} |}.

(** The body [{ quarter: n }] of a game update, which Mongoose casts to the
    [$set] of that path when [n] passes the validators of the path ([min: 1],
    [max: 4]). *)
Definition quarterBody (n : Z) : option (Game.doc → Game.doc) :=
  if (1 <=? n)%Z && (n <=? 4)%Z then Some (Game.set_quarter n) else None.

(** The empty body [{}], which Mongoose casts to the update that changes
    nothing, for the three routes that take a whole body. *)
Definition emptyBody {A : Type} (body : unit) : option (A → A) :=
  Some (fun d => d).

(** The body [{ name: n }] of a team update, which Mongoose casts to the
    [$set] of that path, trimmed, when the name passes the validators of the
    path (required, [maxlength: 50]). *)
Definition nameBody (n : string) : option (Team.doc → Team.doc) :=
  if negb (String.eqb (trim n) "") && (length16 (trim n) <=? 50)%nat
  then Some (fun t =>
               {| Team.name := trim n; Team.coach := Team.coach t;
                  Team.description := Team.description t;
                  Team.foundedYear := Team.foundedYear t;
                  Team.homeVenue := Team.homeVenue t;
                  Team.colors := Team.colors t; Team.logo := Team.logo t;
                  Team.isActive := Team.isActive t;
                  Team.players := Team.players t; Team.stats := Team.stats t;
                  Team.createdAt := Team.createdAt t |})
  else None.

(** The body [{ jerseyNumber: n }] of a player update ([min: 0],
    [max: 99]). *)
Definition jerseyBody (n : Z) : option (Player.doc → Player.doc) :=
  if (0 <=? n)%Z && (n <=? 99)%Z
  then Some (fun p =>
               {| Player.name := Player.name p; Player.user := Player.user p;
                  Player.team := Player.team p;
                  Player.position := Player.position p;
                  Player.jerseyNumber := n; Player.height := Player.height p;
                  Player.weight := Player.weight p; Player.age := Player.age p;
                  Player.stats := Player.stats p;
                  Player.isActive := Player.isActive p;
                  Player.createdAt := Player.createdAt p |})
  else None.

End Fixture.

(** ** The read routes, and the creation of a team *)

(** [.sort({ name: 1 })]: ascending in the order of the bytes of the names;
    the order among equal names is the database's to choose. *)
Definition byName {A : Type} (name : A → string) (a b : ObjectId * A) : Prop :=
  String.leb (name (snd a)) (name (snd b)) = true.

#[local] Instance byName_dec {A : Type} (name : A → string) (a b : ObjectId * A) :
  Decision (byName name a b).
Proof. unfold byName. apply _. Defined.

Definition sortByName {A : Type} (name : A → string) (l : list (ObjectId * A))
  : list (ObjectId * A) :=
  merge_sort (byName name) l.

(** [Model.find(query)] with the conditions of [query] gathered in [filter]. *)
Definition findMany {A : Type} (filter : A → bool) (coll : gmap ObjectId A)
  : list (ObjectId * A) :=
  List.filter (fun e => filter (snd e)) (map_to_list coll).

(** The answer of a list route: [{ success: true, count, data }]. *)
Module ListRes.

Record t := {
  count : nat;
  data : list Res.Data
}.

End ListRes.

(** A value of the query string: [None] when the parameter is absent. *)
Definition truthy (v : option string) : bool :=
  match v with
  | None => false
  | Some s => negb (String.eqb s "")
  end.

Section Queries.

(** The cast of a string to an ObjectId, as Mongoose makes it for a path or a
    condition of that type: [None] is the [CastError] that the call throws. *)
Variable castObjectId : string → option ObjectId.

(** [if (v) query.path = v] for a path of type ObjectId: no condition, a
    condition, or the [CastError] of the query. *)
Definition idCondition (v : option string) : option (option ObjectId) :=
  match v with
  | Some s => if truthy v then Some <$> castObjectId s else Some None
  | None => Some None
  end.

(** [GET /api/teams]: [if (coach) query.coach = coach] and
    [if (isActive !== undefined) query.isActive = isActive === 'true']. *)
Definition teams_query (coach : option ObjectId) (isActive : option string)
  (t : Team.doc) : bool :=
  from_option (String.eqb (Team.coach t)) true coach
  && match isActive with
     | None => true
     | Some v => Bool.eqb (Team.isActive t) (String.eqb v "true")
     end.

Definition teamView (store : Store) (e : ObjectId * Team.doc) : Res.Data :=
  Res.TeamData (fst e) (snd e) (populateUser store (Team.coach (snd e)))
    (populatePlayers false store (Team.players (snd e))).

(** The answer is [None] for the 500 of the [catch]. *)
Definition teams_list (coach isActive : option string) (store : Store)
  : option ListRes.t :=
  match idCondition coach with
  | None => None
  | Some coach =>
      let teams := sortByName Team.name
                     (findMany (teams_query coach isActive) (Teams store)) in
      Some {| ListRes.count := length teams;
              ListRes.data := map (teamView store) teams |}
  end.

(** [GET /api/players]: [team] and [position] when they are given, and
    [isActive] when it is one of ['true'] and ['false']. *)
Definition players_query (team : option ObjectId) (position isActive : option string)
  (p : Player.doc) : bool :=
  from_option (fun t => bool_decide (Player.team p = Some t)) true team
  && (if truthy position then bool_decide (Some (Player.position p) = position)
      else true)
  && match isActive with
     | Some v =>
         if String.eqb v "true" || String.eqb v "false"
         then Bool.eqb (Player.isActive p) (String.eqb v "true")
         else true
     | None => true
     end.

Definition populatePlayer (store : Store) (e : ObjectId * Player.doc)
  : Res.Data :=
  Res.PlayerData (fst e) (snd e)
    (t ← Player.team (snd e) ≫= (fun tid => Teams store !! tid);
     Some (Team.name t, Team.colors t))
    (populateUser store (Player.user (snd e))).

Definition players_list (team position isActive : option string)
  (store : Store) : option ListRes.t :=
  match idCondition team with
  | None => None
  | Some team =>
      let players := sortByName Player.name
                       (findMany (players_query team position isActive)
                          (Players store)) in
      Some {| ListRes.count := length players;
              ListRes.data := map (populatePlayer store) players |}
  end.

End Queries.

(** [GET /api/teams/:id] *)
Definition teams_get (id : ObjectId) (store : Store) : Res.t :=
  match Teams store !! id with
  | None => Res.fail 404 "Team not found"
  | Some _ => Res.ok (teamData true store id)
  end.

(** A game as [GET /api/games/:id] populates it: the names of the two teams,
    and for each line of the box score the name, team and position of its
    player; a reference without a document populates to null. *)
Record GameView := {
  gv_id : ObjectId;
  gv_game : Game.doc;
  gv_homeTeam : option string;
  gv_awayTeam : option string;
  gv_players : list (option (string * option ObjectId * string))
}.

Definition populateGame (store : Store) (id : ObjectId) (g : Game.doc)
  : GameView :=
  {| gv_id := id; gv_game := g;
     gv_homeTeam := Team.name <$> Teams store !! Game.homeTeam g;
     gv_awayTeam := Team.name <$> Teams store !! Game.awayTeam g;
     gv_players :=
       map (fun line =>
              p ← Game.player line ≫= (fun pid => Players store !! pid);
              Some (Player.name p, Player.team p, Player.position p))
         (Game.gameStats g) |}.

Module GameRes.

Record t := {
  status : nat;
  success : bool;
  message : option string;
  data : option GameView
}.

End GameRes.

(** [GET /api/games/:id] *)
Definition games_get (id : ObjectId) (store : Store) : GameRes.t :=
  match Games store !! id with
  | None => {| GameRes.status := 404; GameRes.success := false;
               GameRes.message := Some "Game not found"; GameRes.data := None |}
  | Some g => {| GameRes.status := 200; GameRes.success := true;
                 GameRes.message := None;
                 GameRes.data := Some (populateGame store id g) |}
  end.

(** The body of [POST /api/teams].  The optional fields are [None] when they
    are absent. *)
Module TeamBody.

Record t := {
  name : option string;
  description : option string;
  foundedYear : option Z;
  homeVenue : option string;
  primary : option string;
  secondary : option string;
  logo : option string;
  coach : option string
}.

(** The validation chain of the route; [year] is [new Date().getFullYear()]
    as the module read it when it was loaded.  The [isString] checks of the
    optional fields hold of every field of this record that is present. *)
Definition validationResult (year : Z) (b : t) : list string :=
  Validator.check (Validator.notEmpty (name b)) "Team name is required"
  ++ Validator.check
       (match foundedYear b with
        | None => true
        | Some y => Validator.isInt 1800 (Some year) (Some y)
        end) "Invalid founded year".

End TeamBody.

(** The validators of [teamSchema], run on the paths after their setters. *)
Definition Team_validate (year : Z) (t : Team.doc) : bool :=
  negb (String.eqb (Team.name t) "") && (length16 (Team.name t) <=? 50)%nat
  && from_option (fun d => (length16 d <=? 500)%nat) true (Team.description t)
  && from_option (fun y => (1800 <=? y)%Z && (y <=? year)%Z) true (Team.foundedYear t)
  && from_option (fun v => (length16 v <=? 100)%nat) true (Team.homeVenue t).

(** [new Team(teamData)]: setters and defaults applied. *)
Definition Team_document (now : Z) (name : string) (coachId : ObjectId)
  (b : TeamBody.t) : Team.doc :=
  {| Team.name := trim name; Team.coach := coachId;
     Team.description := trim <$> TeamBody.description b;
     Team.foundedYear := TeamBody.foundedYear b;
     Team.homeVenue := trim <$> TeamBody.homeVenue b;
     Team.colors :=
       {| Team.primary := from_option trim "#000000" (TeamBody.primary b);
          Team.secondary := from_option trim "#FFFFFF" (TeamBody.secondary b) |};
     Team.logo := trim <$> TeamBody.logo b;
     Team.isActive := true; Team.players := [];
     Team.stats := {| Team.wins := Number.zero; Team.losses := Number.zero;
                      Team.winPercentage := Number.zero |};
     Team.createdAt := now |}.

Section TeamsPost.

Variable castObjectId : string → option ObjectId.

(** [POST /api/teams]; [newId] is the ObjectId the driver gives the new
    document and [now] the value of [Date.now()].  The filter [{ name }] of
    the first query is cast with the setter of the path, as every string
    Mongoose casts for a query; [User.findById(coachId)] casts [coachId]. *)
Definition teams_post (year : Z) (user : Req.user) (body : TeamBody.t)
  (newId : ObjectId) (now : Z) (store : Store) : Store * Res.t :=
  gated ["admin"; "coach"] user store
    match TeamBody.validationResult year body, TeamBody.name body with
    | [], Some name =>
        match findOne (fun t => String.eqb (Team.name t) (trim name))
                (Teams store) with
        | Some existingTeam => (store, Res.fail 400 "Team name already exists")
        | None =>
            let coachId := if String.eqb (Req.role user) "coach"
                           then Some (Req.id user) else TeamBody.coach body in
            if negb (truthy coachId)
            then (store, Res.fail 400 "Coach must be specified")
            else
              match coachId ≫= castObjectId with
              | None => (store, Res.serverError)
              | Some coachId =>
                  match Users store !! coachId with
                  | None => (store, Res.fail 400 "Invalid coach specified")
                  | Some coach =>
                      if negb (String.eqb (User.role coach) "coach")
                      then (store, Res.fail 400 "Invalid coach specified")
                      else
                        let team := Team_document now name coachId body in
                        if negb (Team_validate year team)
                           || bool_decide (is_Some (Teams store !! newId))
                           || Team.duplicateKey newId team (Teams store)
                        then (store, Res.serverError)
                        else
                          let s1 := with_Teams
                                      (Team.save newId team (Teams store))
                                      store in
                          let s2 := with_Users
                                      (alter
                                         (fun u =>
                                            User.set_managedTeams
                                              (addToSet newId
                                                 (User.managedTeams u)) u)
                                         coachId (Users s1)) s1 in
                          (s2, Res.created (teamData false s2 newId))
                  end
              end
        end
    | errors, _ => (store, Res.validationErrors errors)
    end.

End TeamsPost.

(** ** Invariants of the collections *)

(** No two players of a team wear the same jersey number. *)
Definition jerseyUnique (coll : gmap ObjectId Player.doc) : Prop :=
  ∀ i j p q, coll !! i = Some p → coll !! j = Some q →
             is_Some (Player.team p) →
             Player.indexKey p = Player.indexKey q → i = j.

(** No user has two player profiles. *)
Definition oneProfilePerUser (coll : gmap ObjectId Player.doc) : Prop :=
  ∀ i j p q, coll !! i = Some p → coll !! j = Some q →
             Player.user p = Player.user q → i = j.

(** No two teams have the same name. *)
Definition nameUnique (coll : gmap ObjectId Team.doc) : Prop :=
  ∀ i j s t, coll !! i = Some s → coll !! j = Some t →
             Team.name s = Team.name t → i = j.

(** * Properties *)

(** ** The team model *)

Lemma pre_save_counters (this : Team.doc) :
  Team.wins (Team.stats (Team.pre_save this)) = Team.wins (Team.stats this)
  ∧ Team.losses (Team.stats (Team.pre_save this)) = Team.losses (Team.stats this).
Proof.
  unfold Team.pre_save.
  destruct (Number.gt _ _); split; reflexivity.
Qed.

(** C6, as stated, fails on the code: the hook computes with doubles.  With
    10^308 wins and as many losses the sum of the counters is positive and
    their ratio is one half, but the sum overflows to [Infinity] and the stored
    percentage is 0; with one win and two losses the stored percentage is the
    double next to one third, not one third. *)
Lemma win_percentage_counterexample :
  let big := Fixture.team "Hawks" Fixture.coachA [] (10 ^ 308) (10 ^ 308) in
  let small := Fixture.team "Owls" Fixture.coachB [] 1 2 in
  (∃ w l, Number.toQ (Team.wins (Team.stats big)) = Some w
          ∧ Number.toQ (Team.losses (Team.stats big)) = Some l
          ∧ (0 < w + l)%Q ∧ (w / (w + l) == 1 # 2)%Q
          ∧ Team.winPercentage (Team.stats (Team.pre_save big))
            = S754_zero false)
  ∧ (∃ w l q, Number.toQ (Team.wins (Team.stats small)) = Some w
              ∧ Number.toQ (Team.losses (Team.stats small)) = Some l
              ∧ (w == 1)%Q ∧ (l == 2)%Q
              ∧ Number.toQ
                  (Team.winPercentage (Team.stats (Team.pre_save small)))
                = Some q
              ∧ ¬ (q == 1 # 3)%Q).
Proof.
  intros big small. split.
  - eexists. eexists.
    split; [vm_compute; reflexivity |]. split; [vm_compute; reflexivity |].
    split; [vm_compute; reflexivity |]. split; vm_compute; reflexivity.
  - eexists. eexists. eexists.
    split; [vm_compute; reflexivity |]. split; [vm_compute; reflexivity |].
    split; [vm_compute; reflexivity |]. split; [vm_compute; reflexivity |].
    split; [vm_compute; reflexivity |].
    vm_compute. discriminate.
Qed.

(** C6, amended.  Every team document saved has, after the pre-save
    recomputation, the two counters it was given and the win percentage that
    JavaScript computes for wins / (wins + losses), the sum and then the
    quotient each rounded to a double, when that sum is greater than 0; it has
    the win percentage 0 otherwise, and so when both counters are zero. *)
Theorem save_win_percentage (id : ObjectId) (this : Team.doc)
  (coll : gmap ObjectId Team.doc) :
  let wins := Team.wins (Team.stats this) in
  let losses := Team.losses (Team.stats this) in
  ∃ saved,
    Team.save id this coll !! id = Some saved
    ∧ Team.wins (Team.stats saved) = wins
    ∧ Team.losses (Team.stats saved) = losses
    ∧ (SFltb (S754_zero false) (SFadd 53 1024 wins losses) = true →
       Team.winPercentage (Team.stats saved)
       = SFdiv 53 1024 wins (SFadd 53 1024 wins losses))
    ∧ (SFltb (S754_zero false) (SFadd 53 1024 wins losses) = false →
       Team.winPercentage (Team.stats saved) = S754_zero false)
    ∧ (∀ sw sl, wins = S754_zero sw → losses = S754_zero sl →
                Team.winPercentage (Team.stats saved) = S754_zero false).
Proof.
  intros wins losses. exists (Team.pre_save this).
  split; [apply lookup_insert_eq |].
  destruct (pre_save_counters this) as [Hw Hl].
  split; [exact Hw |]. split; [exact Hl |].
  unfold Team.pre_save, Number.gt, Number.add, Number.div, Number.zero,
    Number.prec, Number.emax.
  fold wins. fold losses.
  destruct (SFltb (S754_zero false) (SFadd 53 1024 wins losses)) eqn:Hgt; simpl.
  - split; [reflexivity |]. split; [discriminate |].
    intros sw sl Hw0 Hl0. exfalso. rewrite Hw0, Hl0 in Hgt.
    destruct sw, sl; vm_compute in Hgt; discriminate Hgt.
  - split; [discriminate |]. split; reflexivity.
Qed.

(** On the fixture: three wins and one loss save as the double 0.75, which is
    three quarters; no game played saves as 0. *)
Lemma save_win_percentage_witness :
  (∃ saved,
      Team.save Fixture.hawks (Fixture.team "Hawks" Fixture.coachA [] 3 1) ∅
        !! Fixture.hawks = Some saved
      ∧ Team.winPercentage (Team.stats saved)
        = S754_finite false 6755399441055744 (-53)
      ∧ ∃ q, Number.toQ (Team.winPercentage (Team.stats saved)) = Some q
             ∧ (q == 3 # 4)%Q)
  ∧ (∃ saved,
        Team.save Fixture.owls (Fixture.team "Owls" Fixture.coachB [] 0 0) ∅
          !! Fixture.owls = Some saved
        ∧ Team.winPercentage (Team.stats saved) = S754_zero false).
Proof.
  split.
  - destruct (save_win_percentage Fixture.hawks
                (Fixture.team "Hawks" Fixture.coachA [] 3 1) ∅)
      as (saved & Hs & _ & _ & Hpct & _).
    exists saved. split; [exact Hs |].
    rewrite Hpct by (vm_compute; reflexivity).
    split; [vm_compute; reflexivity |].
    eexists. split; vm_compute; reflexivity.
  - destruct (save_win_percentage Fixture.owls
                (Fixture.team "Owls" Fixture.coachB [] 0 0) ∅)
      as (saved & Hs & _ & _ & _ & _ & Hzero).
    exists saved. split; [exact Hs |].
    apply (Hzero false false); reflexivity.
Defined.

(** ** Socket.IO: what a broadcast and a join do to each socket *)

Lemma socket_nsp_to_emit (name name' : string) (sid : SocketId) (room : Room)
  (p : Packet) (io : SocketIO.Server) :
  SocketIO.socket name sid (SocketIO.nsp_to_emit name' room p io)
  = if decide (name' = name)
    then (fun s => if bool_decide (room ∈ SocketIO.rooms s)
                   then SocketIO.deliver p s else s)
           <$> SocketIO.socket name sid io
    else SocketIO.socket name sid io.
Proof.
  unfold SocketIO.socket, SocketIO.nsp_to_emit, SocketIO.alterNamespace. simpl.
  rewrite lookup_alter.
  destruct (decide (name' = name)) as [-> | Hne]; [| reflexivity].
  destruct (SocketIO.nsps io !! name) as [n |]; simpl; [| reflexivity].
  apply lookup_fmap.
Qed.

(** A broadcast of the server goes to the rooms of the main namespace: the
    sockets of every other namespace are left as they are. *)
Lemma socket_to_emit_other (name : string) (sid : SocketId) (room : Room)
  (p : Packet) (io : SocketIO.Server) :
  name ≠ "/" →
  SocketIO.socket name sid (SocketIO.to_emit room p io) = SocketIO.socket name sid io.
Proof.
  intros Hne. unfold SocketIO.to_emit. rewrite socket_nsp_to_emit.
  destruct (decide ("/" = name)); [congruence | reflexivity].
Qed.

(** In the main namespace each member of the room gets the packet once, after
    what it had received, and the other sockets get nothing. *)
Lemma socket_to_emit_main (sid : SocketId) (room : Room) (p : Packet)
  (io : SocketIO.Server) (s : SocketIO.Socket) :
  SocketIO.socket "/" sid io = Some s →
  ∃ s', SocketIO.socket "/" sid (SocketIO.to_emit room p io) = Some s'
        ∧ SocketIO.user s' = SocketIO.user s
        ∧ SocketIO.rooms s' = SocketIO.rooms s
        ∧ SocketIO.handlers s' = SocketIO.handlers s
        ∧ (room ∈ SocketIO.rooms s →
           SocketIO.received s' = SocketIO.received s ++ [p])
        ∧ (room ∉ SocketIO.rooms s → SocketIO.received s' = SocketIO.received s).
Proof.
  intros Hs. unfold SocketIO.to_emit. rewrite socket_nsp_to_emit.
  destruct (decide ("/" = "/")) as [_ | Hne]; [| congruence].
  rewrite Hs. simpl.
  destruct (bool_decide_reflect (room ∈ SocketIO.rooms s)) as [Hin | Hout];
    eexists; (split; [reflexivity |]); simpl; repeat split; tauto.
Qed.

Lemma socket_join (name name' : string) (sid sid' : SocketId) (room : Room)
  (io : SocketIO.Server) :
  SocketIO.socket name' sid' (SocketIO.join name sid room io)
  = if decide (name = name' ∧ sid = sid')
    then (fun s => {| SocketIO.user := SocketIO.user s;
                      SocketIO.rooms := {[ room ]} ∪ SocketIO.rooms s;
                      SocketIO.handlers := SocketIO.handlers s;
                      SocketIO.received := SocketIO.received s |})
           <$> SocketIO.socket name' sid' io
    else SocketIO.socket name' sid' io.
Proof.
  unfold SocketIO.socket, SocketIO.join, SocketIO.alterSocket,
    SocketIO.alterNamespace. simpl.
  rewrite lookup_alter.
  destruct (decide (name = name')) as [-> | Hne].
  - destruct (SocketIO.nsps io !! name') as [n |]; simpl.
    + rewrite lookup_alter.
      destruct (decide (sid = sid')) as [-> | Hne'].
      * rewrite decide_True by done. reflexivity.
      * rewrite decide_False by (intros [_ ?]; done). reflexivity.
    + destruct (decide _); reflexivity.
  - rewrite decide_False by (intros [? _]; done). reflexivity.
Qed.

(** ** sockets/gameSockets.js *)

Lemma client_emit_gameSockets (name : string) (sid : SocketId)
  (event : ClientEvent) (w : World) (s : SocketIO.Socket) :
  SocketIO.socket name sid (io w) = Some s →
  SocketIO.handlers s = [GameSockets] →
  client_emit name sid event w = gameSockets name sid event w.
Proof.
  intros Hs Hh. unfold client_emit. rewrite Hs, Hh. reflexivity.
Qed.

Lemma mayPush_false (s : SocketIO.Socket) :
  (∀ u, SocketIO.user s = Some u → su_role u ≠ "admin" ∧ su_role u ≠ "coach") →
  mayPush s = false.
Proof.
  intros H. unfold mayPush.
  destruct (SocketIO.user s) as [u |]; [| reflexivity].
  destruct (H u eq_refl) as [Ha Hc].
  apply orb_false_intro; apply String.eqb_neq; assumption.
Qed.

Lemma mayPush_true (s : SocketIO.Socket) (u : SocketUser) :
  SocketIO.user s = Some u →
  su_role u = "admin" ∨ su_role u = "coach" →
  mayPush s = true.
Proof.
  intros Hu Hr. unfold mayPush. rewrite Hu.
  destruct Hr as [-> | ->]; reflexivity.
Qed.

(** The socket after its [joinGame]. *)
Lemma client_emit_joinGame (name : string) (sid : SocketId) (gameId : Room)
  (w : World) (s : SocketIO.Socket) :
  SocketIO.socket name sid (io w) = Some s →
  SocketIO.handlers s = [GameSockets] →
  SocketIO.socket name sid (io (client_emit name sid (joinGame gameId) w))
  = Some {| SocketIO.user := SocketIO.user s;
            SocketIO.rooms := {[ gameId ]} ∪ SocketIO.rooms s;
            SocketIO.handlers := SocketIO.handlers s;
            SocketIO.received := SocketIO.received s |}.
Proof.
  intros Hs Hh.
  rewrite (client_emit_gameSockets _ _ _ _ _ Hs Hh). simpl.
  rewrite socket_join, decide_True by done. rewrite Hs. reflexivity.
Qed.

(** The [joinGame] handler of sockets/gameSockets.js, on a socket it is
    registered on.  Whatever user the socket carries, and when it carries
    none, and whatever the game identifier: the event adds the socket to the
    room [gameId] of its namespace; no test stands in front of the join, and
    nothing else changes. *)
Theorem joinGame_joins_room (name : string) (sid : SocketId) (gameId : Room)
  (w : World) (s : SocketIO.Socket) :
  SocketIO.socket name sid (io w) = Some s →
  SocketIO.handlers s = [GameSockets] →
  let w' := client_emit name sid (joinGame gameId) w in
  db w' = db w
  ∧ (∃ s', SocketIO.socket name sid (io w') = Some s'
           ∧ gameId ∈ SocketIO.rooms s'
           ∧ SocketIO.rooms s' = {[ gameId ]} ∪ SocketIO.rooms s
           ∧ SocketIO.user s' = SocketIO.user s
           ∧ SocketIO.received s' = SocketIO.received s)
  ∧ (∀ name' sid', ¬ (name = name' ∧ sid = sid') →
       SocketIO.socket name' sid' (io w') = SocketIO.socket name' sid' (io w)).
Proof.
  intros Hs Hh w'. subst w'.
  split; [rewrite (client_emit_gameSockets _ _ _ _ _ Hs Hh); reflexivity |].
  split.
  - eexists. split; [apply (client_emit_joinGame _ _ _ _ _ Hs Hh) |]. simpl.
    repeat split. set_solver.
  - intros name' sid' Hne.
    rewrite (client_emit_gameSockets _ _ _ _ _ Hs Hh). simpl.
    rewrite socket_join, decide_False by exact Hne. reflexivity.
Qed.

(** C10.  An [updateGame] event of a connection that carries no user, or a
    user whose role is neither admin nor coach, is dropped: the store, every
    socket and what every socket has received (so no [gameUpdated] and no
    [errorMessage]) are as before. *)
Theorem updateGame_dropped (name : string) (sid : SocketId)
  (updateData : UpdateData) (w : World) (s : SocketIO.Socket) :
  SocketIO.socket name sid (io w) = Some s →
  SocketIO.handlers s = [GameSockets] →
  (∀ u, SocketIO.user s = Some u → su_role u ≠ "admin" ∧ su_role u ≠ "coach") →
  client_emit name sid (updateGame updateData) w = w.
Proof.
  intros Hs Hh Hrole.
  rewrite (client_emit_gameSockets _ _ _ _ _ Hs Hh). simpl.
  rewrite Hs, (mayPush_false _ Hrole). reflexivity.
Qed.

(** The [updateGame] handler of sockets/gameSockets.js, on a socket it is
    registered on and that carries a coach or an admin: the payload, as it
    came, is broadcast as a [gameUpdated] event to the room named by its
    [gameId] (with [io.to]).  The store is not written, and the store is not
    read either: no ownership of the game's teams is looked up. *)
Theorem updateGame_rebroadcast (name : string) (sid : SocketId)
  (updateData : UpdateData) (w : World) (s : SocketIO.Socket)
  (u : SocketUser) :
  SocketIO.socket name sid (io w) = Some s →
  SocketIO.handlers s = [GameSockets] →
  SocketIO.user s = Some u →
  su_role u = "admin" ∨ su_role u = "coach" →
  client_emit name sid (updateGame updateData) w
  = {| db := db w;
       io := SocketIO.to_emit (gameId updateData)
               (gameUpdated (Payload updateData)) (io w) |}.
Proof.
  intros Hs Hh Hu Hrole.
  rewrite (client_emit_gameSockets _ _ _ _ _ Hs Hh). simpl.
  rewrite Hs, (mayPush_true _ _ Hu Hrole). reflexivity.
Qed.

Lemma joinGame_joins_room_witness :
  ∃ s', SocketIO.socket "/api/game" "viewer" (io Fixture.joined) = Some s'
        ∧ Fixture.game ∈ SocketIO.rooms s'.
Proof.
  destruct (joinGame_joins_room "/api/game" "viewer" Fixture.game
              Fixture.connected
              {| SocketIO.user := None; SocketIO.rooms := {[ "viewer" ]};
                 SocketIO.handlers := [GameSockets]; SocketIO.received := [] |})
    as (_ & (s' & Hs' & Hin & _) & _).
  - vm_compute. reflexivity.
  - reflexivity.
  - exists s'. split; [exact Hs' | exact Hin].
Defined.

Lemma updateGame_dropped_witness :
  client_emit "/api/game" "viewer" (updateGame Fixture.payload) Fixture.joined
  = Fixture.joined.
Proof.
  apply (updateGame_dropped "/api/game" "viewer" Fixture.payload Fixture.joined
           {| SocketIO.user := None;
              SocketIO.rooms := {[ Fixture.game ]} ∪ {[ "viewer" ]};
              SocketIO.handlers := [GameSockets];
              SocketIO.received := [] |}).
  - vm_compute. reflexivity.
  - reflexivity.
  - intros u Hu. discriminate Hu.
Defined.

Lemma updateGame_rebroadcast_witness :
  client_emit "/api/game" "pusher" (updateGame Fixture.payload) Fixture.pushing
  = {| db := Fixture.store;
       io := SocketIO.to_emit Fixture.game
               (gameUpdated (Payload Fixture.payload)) (io Fixture.pushing) |}.
Proof.
  apply (updateGame_rebroadcast "/api/game" "pusher" Fixture.payload
           Fixture.pushing Fixture.pusher
           {| su_id := Fixture.coachB; su_role := "coach"; su_name := "Bob" |}).
  - vm_compute. reflexivity.
  - reflexivity.
  - reflexivity.
  - right. reflexivity.
Defined.

(** ** routes/games.js: the score update *)

Lemma validationResult_score (body : ScoreBody.t) :
  ScoreBody.validationResult body = [] →
  ∃ home away,
    ScoreBody.homeScore body = Some home ∧ ScoreBody.awayScore body = Some away
    ∧ (0 ≤ home)%Z ∧ (0 ≤ away)%Z.
Proof.
  unfold ScoreBody.validationResult, Validator.check, Validator.isInt.
  destruct (ScoreBody.homeScore body) as [home |];
    destruct (ScoreBody.awayScore body) as [away |]; simpl;
    try discriminate;
    destruct (Z.leb_spec 0 home); simpl; try discriminate;
    try (destruct (Z.leb_spec 0 away); simpl; try discriminate).
  intros _. exists home, away. auto.
Qed.

(** The outcome of the route on an existing game, for an identity the role
    gate lets through and two non-negative integers. *)
Lemma games_put_score_ok (user : Req.user) (id : ObjectId) (home away : Z)
  (g : Game.doc) (w : World) :
  Req.role user = "admin" ∨ Req.role user = "coach" →
  (0 ≤ home)%Z → (0 ≤ away)%Z →
  Games (db w) !! id = Some g →
  games_put_score user id
    {| ScoreBody.homeScore := Some home; ScoreBody.awayScore := Some away |} w
  = ({| db := with_Games (<[id := Game.set_scores home away g]> (Games (db w)))
                (db w);
        io := SocketIO.to_emit id
                (gameUpdated (Document id (Game.set_scores home away g))) (io w) |},
     Res.ok (Res.GameData id (Game.set_scores home away g))).
Proof.
  intros Hrole Hh Ha Hg.
  unfold games_put_score, gated, authorize.
  assert (existsb (String.eqb (Req.role user)) ["admin"; "coach"] = true) as ->.
  { destruct Hrole as [-> | ->]; reflexivity. }
  unfold ScoreBody.validationResult, Validator.check, Validator.isInt,
    Game.scoreValid. simpl.
  apply Z.leb_le in Hh. apply Z.leb_le in Ha. rewrite Hh, Ha. simpl.
  rewrite Hg. reflexivity.
Qed.

(** The route answers 200 in that case only. *)
Lemma games_put_score_200 (user : Req.user) (id : ObjectId) (body : ScoreBody.t)
  (w : World) :
  Res.status (snd (games_put_score user id body w)) = 200 →
  ∃ g home away,
    Games (db w) !! id = Some g
    ∧ body = {| ScoreBody.homeScore := Some home; ScoreBody.awayScore := Some away |}
    ∧ (0 ≤ home)%Z ∧ (0 ≤ away)%Z
    ∧ games_put_score user id body w
      = ({| db := with_Games (<[id := Game.set_scores home away g]> (Games (db w)))
                    (db w);
            io := SocketIO.to_emit id
                    (gameUpdated (Document id (Game.set_scores home away g)))
                    (io w) |},
         Res.ok (Res.GameData id (Game.set_scores home away g))).
Proof.
  unfold games_put_score, gated.
  destruct (authorize _ user); [| discriminate].
  destruct (ScoreBody.validationResult body) as [| e errors] eqn:Hv;
    [| destruct (ScoreBody.homeScore body), (ScoreBody.awayScore body);
       discriminate].
  destruct (validationResult_score body Hv) as (home & away & Hh & Ha & H0h & H0a).
  rewrite Hh, Ha. unfold Game.scoreValid.
  apply Z.leb_le in H0h as Hbh. apply Z.leb_le in H0a as Hba.
  rewrite Hbh, Hba. simpl.
  destruct (Games (db w) !! id) as [g |]; [| discriminate].
  intros _. exists g, home, away.
  repeat split; try assumption.
  destruct body as [h a]. simpl in Hh, Ha. subst. reflexivity.
Qed.

(** C9.  A score update that succeeds changes the two score paths of the
    target game and nothing else: the other paths of that game, the other
    games, and the users, the teams and the players are as before. *)
Theorem score_update_frame (user : Req.user) (id : ObjectId)
  (body : ScoreBody.t) (w : World) :
  let r := games_put_score user id body w in
  Res.status (snd r) = 200 →
  Users (db (fst r)) = Users (db w)
  ∧ Teams (db (fst r)) = Teams (db w)
  ∧ Players (db (fst r)) = Players (db w)
  ∧ (∀ id', id' ≠ id → Games (db (fst r)) !! id' = Games (db w) !! id')
  ∧ ∃ g g',
      Games (db w) !! id = Some g ∧ Games (db (fst r)) !! id = Some g'
      ∧ Some (Game.homeScore g') = ScoreBody.homeScore body
      ∧ Some (Game.awayScore g') = ScoreBody.awayScore body
      ∧ Game.homeTeam g' = Game.homeTeam g
      ∧ Game.awayTeam g' = Game.awayTeam g
      ∧ Game.gameDate g' = Game.gameDate g
      ∧ Game.status g' = Game.status g
      ∧ Game.quarter g' = Game.quarter g
      ∧ Game.timeRemaining g' = Game.timeRemaining g
      ∧ Game.venue g' = Game.venue g
      ∧ Game.attendance g' = Game.attendance g
      ∧ Game.gameStats g' = Game.gameStats g
      ∧ Game.createdAt g' = Game.createdAt g.
Proof.
  intros r H200. subst r.
  destruct (games_put_score_200 user id body w H200)
    as (g & home & away & Hg & -> & _ & _ & ->). simpl.
  repeat (split; [reflexivity |]).
  split.
  - intros id' Hne. apply lookup_insert_ne. congruence.
  - exists g, (Game.set_scores home away g).
    split; [exact Hg |]. split; [apply lookup_insert_eq |].
    simpl. repeat split.
Qed.

Lemma score_update_frame_witness :
  Games (db (fst (games_put_score Fixture.asCoachA Fixture.game
                    (Fixture.score 57 61) Fixture.world))) !! Fixture.game
  = Some (Game.set_scores 57 61 Fixture.scheduled)
  ∧ Teams (db (fst (games_put_score Fixture.asCoachA Fixture.game
                      (Fixture.score 57 61) Fixture.world)))
    = Teams Fixture.store.
Proof.
  destruct (score_update_frame Fixture.asCoachA Fixture.game
              (Fixture.score 57 61) Fixture.world)
    as (_ & Ht & _ & _ & _).
  - vm_compute. reflexivity.
  - split; [vm_compute; reflexivity | exact Ht].
Defined.

(** What the broadcast of the route reaches: in the main namespace, each
    socket that is in the room named by the game's identifier receives the
    updated document once, after what it had received, and no other socket
    of that namespace receives anything. *)
Lemma games_put_score_main_namespace (user : Req.user) (id : ObjectId)
  (home away : Z) (g : Game.doc) (w : World) (sid : SocketId)
  (s : SocketIO.Socket) :
  Req.role user = "admin" ∨ Req.role user = "coach" →
  (0 ≤ home)%Z → (0 ≤ away)%Z →
  Games (db w) !! id = Some g →
  SocketIO.socket "/" sid (io w) = Some s →
  let r := games_put_score user id
             {| ScoreBody.homeScore := Some home;
                ScoreBody.awayScore := Some away |} w in
  ∃ s', SocketIO.socket "/" sid (io (fst r)) = Some s'
        ∧ (id ∈ SocketIO.rooms s →
           SocketIO.received s'
           = SocketIO.received s
               ++ [gameUpdated (Document id (Game.set_scores home away g))])
        ∧ (id ∉ SocketIO.rooms s → SocketIO.received s' = SocketIO.received s).
Proof.
  intros Hrole Hh Ha Hg Hs r. subst r.
  rewrite (games_put_score_ok user id home away g w Hrole Hh Ha Hg). simpl.
  destruct (socket_to_emit_main sid id
              (gameUpdated (Document id (Game.set_scores home away g)))
              (io w) s Hs) as (s' & Hs' & _ & _ & _ & Hin & Hout).
  exists s'. auto.
Qed.

(** The sockets of any other namespace are out of its reach, whatever rooms
    they have joined. *)
Lemma games_put_score_other_namespace (user : Req.user) (id : ObjectId)
  (body : ScoreBody.t) (w : World) (name : string) (sid : SocketId) :
  name ≠ "/" →
  SocketIO.socket name sid (io (fst (games_put_score user id body w)))
  = SocketIO.socket name sid (io w).
Proof.
  intros Hne. unfold games_put_score, gated.
  destruct (authorize _ user); [| reflexivity].
  destruct (ScoreBody.validationResult body);
    destruct (ScoreBody.homeScore body), (ScoreBody.awayScore body);
    try reflexivity.
  destruct (negb _); [reflexivity |].
  destruct (Games (db w) !! id); [| reflexivity].
  simpl. apply socket_to_emit_other. exact Hne.
Qed.

(** ** server.js: which namespace has what *)

Lemma server_main_namespace :
  SocketIO.nsps (server initGameSockets) !! "/"
  = Some {| SocketIO.fns := [ProtectSocket]; SocketIO.listeners := [];
            SocketIO.sockets := ∅ |}.
Proof. vm_compute. reflexivity. Qed.

Lemma server_game_namespace :
  SocketIO.nsps (server initGameSockets) !! "/api/game"
  = Some {| SocketIO.fns := []; SocketIO.listeners := [GameSockets];
            SocketIO.sockets := ∅ |}.
Proof. vm_compute. reflexivity. Qed.

Section Handshake.

Variable jwt_verify : string → option ObjectId.

(** middleware/socketAuth.js refuses a handshake without a token, with a
    token that does not verify, and with a token of a user that is not in
    the store. *)
Lemma protectSocket_refuses (store : Store) (handshake : Handshake)
  (socket : SocketIO.Socket) :
  (∀ token id u, auth_token handshake = Some token →
                 jwt_verify token = Some id → Users store !! id = Some u →
                 token = "") →
  ∃ message, protectSocket jwt_verify store handshake socket = inl message.
Proof.
  intros Hbad. unfold protectSocket.
  destruct (auth_token handshake) as [token |]; [| eauto].
  destruct (String.eqb_spec token "") as [-> | Hne]; [eauto |].
  destruct (jwt_verify token) as [id |] eqn:Hv; [| eauto].
  destruct (Users store !! id) as [u |] eqn:Hu; [| eauto].
  exfalso. apply Hne. eapply Hbad; eauto.
Qed.

(** It attaches the role and the name of the user of a token that
    verifies. *)
Lemma protectSocket_attaches (store : Store) (token : string)
  (id : ObjectId) (u : User.doc) (socket : SocketIO.Socket) :
  token ≠ "" → jwt_verify token = Some id → Users store !! id = Some u →
  protectSocket jwt_verify store {| auth_token := Some token |} socket
  = inr {| SocketIO.user := Some {| su_id := id; su_role := User.role u;
                                    su_name := User.name u |};
           SocketIO.rooms := SocketIO.rooms socket;
           SocketIO.handlers := SocketIO.handlers socket;
           SocketIO.received := SocketIO.received socket |}.
Proof.
  intros Hne Hv Hu. unfold protectSocket. simpl.
  apply String.eqb_neq in Hne. rewrite Hne, Hv, Hu. reflexivity.
Qed.

(** On the main namespace the gate stands: a connection it refuses leaves
    no socket behind. *)
Lemma connect_main_refused (store : Store) (sid : SocketId)
  (handshake : Handshake) :
  (∀ token id u, auth_token handshake = Some token →
                 jwt_verify token = Some id → Users store !! id = Some u →
                 token = "") →
  ∃ message,
    connect jwt_verify "/" sid handshake
      {| db := store; io := server initGameSockets |}
    = ({| db := store; io := server initGameSockets |}, ConnectError message).
Proof.
  intros Hbad. unfold connect. cbn [db io].
  rewrite server_main_namespace. simpl.
  destruct (protectSocket_refuses store handshake (SocketIO.newSocket sid) Hbad)
    as [message ->].
  eauto.
Qed.

(** The namespace on which sockets/gameSockets.js listens has no middleware:
    whatever the handshake holds, the connection is made, the handlers are
    registered on the socket, and no user is attached to it. *)
Lemma connect_game_namespace (store : Store) (sid : SocketId)
  (handshake : Handshake) :
  let r := connect jwt_verify "/api/game" sid handshake
             {| db := store; io := server initGameSockets |} in
  snd r = Connected
  ∧ db (fst r) = store
  ∧ SocketIO.socket "/api/game" sid (io (fst r))
    = Some {| SocketIO.user := None; SocketIO.rooms := {[ sid ]};
              SocketIO.handlers := [GameSockets]; SocketIO.received := [] |}.
Proof.
  unfold connect. cbn [db io].
  rewrite server_game_namespace. simpl.
  split; [reflexivity |]. split; [reflexivity |].
  unfold SocketIO.socket, SocketIO.alterNamespace, with_io.
  cbn [io SocketIO.nsps].
  rewrite lookup_alter_eq, server_game_namespace.
  cbn [fmap option_fmap option_map mbind option_bind SocketIO.sockets].
  apply lookup_insert_eq.
Qed.

End Handshake.

(** The gateway behind the port, for handshakes that reach it: the
    middleware is registered with [io.use], on the main namespace, and the
    listener on [io.of("/api/game")].  A handshake for ["/api/game"] with no
    token is accepted; the handlers of sockets/gameSockets.js are registered on
    its socket and its [joinGame] fires.  A handshake for that namespace with a
    token that verifies is accepted as well, and no user is attached to its
    socket. *)
Theorem game_namespace_not_gated :
  let r := connect Fixture.jwt_verify "/api/game" "viewer"
             {| auth_token := None |} Fixture.world in
  let r' := connect Fixture.jwt_verify "/api/game" "bench"
              {| auth_token := Some "jwt:64b0000000000000000000a1" |}
              Fixture.world in
  snd r = Connected
  ∧ SocketIO.socket "/api/game" "viewer" (io (fst r))
    = Some {| SocketIO.user := None; SocketIO.rooms := {[ "viewer" ]};
              SocketIO.handlers := [GameSockets]; SocketIO.received := [] |}
  ∧ (∃ s, SocketIO.socket "/api/game" "viewer"
            (io (client_emit "/api/game" "viewer" (joinGame Fixture.game) (fst r)))
          = Some s
          ∧ Fixture.game ∈ SocketIO.rooms s)
  ∧ snd r' = Connected
  ∧ SocketIO.user <$> SocketIO.socket "/api/game" "bench" (io (fst r'))
    = Some None.
Proof.
  intros r r'.
  destruct (connect_game_namespace Fixture.jwt_verify Fixture.store "viewer"
              {| auth_token := None |}) as (Hc & _ & Hs).
  destruct (connect_game_namespace Fixture.jwt_verify Fixture.store "bench"
              {| auth_token := Some "jwt:64b0000000000000000000a1" |})
    as (Hc' & _ & Hs').
  fold Fixture.world in Hc, Hs, Hc', Hs'. fold r in Hc, Hs. fold r' in Hc', Hs'.
  split; [exact Hc |]. split; [exact Hs |]. split.
  - eexists. split; [exact (client_emit_joinGame _ _ _ _ _ Hs eq_refl) |].
    simpl. set_solver.
  - split; [exact Hc' |]. rewrite Hs'. reflexivity.
Qed.

(** The same two handshakes on the main namespace: the first is refused, the
    second gets its user attached, and neither socket has any handler. *)
Lemma main_namespace_gated :
  connect Fixture.jwt_verify "/" "viewer" {| auth_token := None |} Fixture.world
  = (Fixture.world, ConnectError "No token provided")
  ∧ connect Fixture.jwt_verify "/" "viewer"
      {| auth_token := Some "forged" |} Fixture.world
    = (Fixture.world, ConnectError "Unauthorized")
  ∧ connect Fixture.jwt_verify "/" "viewer"
      {| auth_token := Some "jwt:64b0000000000000000000ff" |} Fixture.world
    = (Fixture.world, ConnectError "User not found")
  ∧ SocketIO.socket "/" "bench"
      (io (fst (connect Fixture.jwt_verify "/" "bench"
                  {| auth_token := Some "jwt:64b0000000000000000000a1" |}
                  Fixture.world)))
    = Some {| SocketIO.user := Some {| su_id := Fixture.coachA;
                                       su_role := "coach"; su_name := "Ann" |};
              SocketIO.rooms := {[ "bench" ]}; SocketIO.handlers := [];
              SocketIO.received := [] |}.
Proof. repeat split; vm_compute; reflexivity. Qed.

(** With the persisting variant of sockets/gameSockets.js, which listens with
    [io.on], the gate of [io.use] stands in front of the handlers: there is no
    other namespace to connect to, and a handshake without a token leaves no
    socket. *)
Lemma persisting_variant_gated :
  connect Fixture.jwt_verify "/" "viewer" {| auth_token := None |}
    Fixture.worldPersisting
  = (Fixture.worldPersisting, ConnectError "No token provided")
  ∧ connect Fixture.jwt_verify "/api/game" "viewer" {| auth_token := None |}
      Fixture.worldPersisting
    = (Fixture.worldPersisting, ConnectError "Invalid namespace")
  ∧ SocketIO.socket "/" "bench"
      (io (fst (connect Fixture.jwt_verify "/" "bench"
                  {| auth_token := Some "jwt:64b0000000000000000000a1" |}
                  Fixture.worldPersisting)))
    = Some {| SocketIO.user := Some {| su_id := Fixture.coachA;
                                       su_role := "coach"; su_name := "Ann" |};
              SocketIO.rooms := {[ "bench" ]};
              SocketIO.handlers := [GameSocketsPersisting];
              SocketIO.received := [] |}.
Proof. repeat split; vm_compute; reflexivity. Qed.

(** The gateway behind the port, for handshakes that reach it: [joinGame]
    puts a socket in a room of the namespace ["/api/game"], and the route
    broadcasts with [io.to], to the room of that name in the main namespace.
    On the fixture, a viewer has joined the room of the game; an admin puts
    the score 57-61; the route answers 200 with the updated game and the game
    is written, and the viewer, still in that room, has received nothing. *)
Theorem score_update_misses_viewer :
  let w1 := fst (connect Fixture.jwt_verify "/api/game" "viewer"
                   {| auth_token := None |} Fixture.world) in
  let w2 := client_emit "/api/game" "viewer" (joinGame Fixture.game) w1 in
  let r := games_put_score Fixture.asAdmin Fixture.game (Fixture.score 57 61)
             w2 in
  snd r = Res.ok (Res.GameData Fixture.game
                    (Game.set_scores 57 61 Fixture.scheduled))
  ∧ Games (db (fst r)) !! Fixture.game
    = Some (Game.set_scores 57 61 Fixture.scheduled)
  ∧ SocketIO.socket "/api/game" "viewer" (io (fst r))
    = Some {| SocketIO.user := None;
              SocketIO.rooms := {[ Fixture.game ]} ∪ {[ "viewer" ]};
              SocketIO.handlers := [GameSockets]; SocketIO.received := [] |}.
Proof. repeat split; vm_compute; reflexivity. Qed.

(** With the persisting variant the same run delivers: the viewer connects to
    the main namespace, joins, and receives the updated game once. *)
Lemma persisting_variant_delivers :
  let w1 := fst (connect Fixture.jwt_verify "/" "viewer"
                   {| auth_token := Some "jwt:64b0000000000000000000a4" |}
                   Fixture.worldPersisting) in
  let w2 := client_emit "/" "viewer" (joinGame Fixture.game) w1 in
  let r := games_put_score Fixture.asAdmin Fixture.game (Fixture.score 57 61) w2 in
  SocketIO.received <$> SocketIO.socket "/" "viewer" (io (fst r))
  = Some [gameUpdated (Document Fixture.game
                         (Game.set_scores 57 61 Fixture.scheduled))].
Proof. vm_compute. reflexivity. Qed.

(** ** routes/players.js: deleting a player *)

Lemma pull_not_elem (x : ObjectId) (l : list ObjectId) : x ∉ pull x l.
Proof.
  unfold pull. rewrite list_elem_of_In, filter_In.
  intros [_ H]. rewrite String.eqb_refl in H. discriminate.
Qed.

Lemma pull_other (x y : ObjectId) (l : list ObjectId) :
  y ≠ x → y ∈ l → y ∈ pull x l.
Proof.
  intros Hne Hin. unfold pull. rewrite list_elem_of_In, filter_In.
  split; [apply list_elem_of_In; exact Hin |].
  apply negb_true_iff, String.eqb_neq. exact Hne.
Qed.

(** The route answers 200 only when it has found the player and the team the
    player points to, and then it has made its three writes. *)
Lemma players_delete_200 (user : Req.user) (id : ObjectId) (store : Store) :
  Res.status (snd (players_delete user id store)) = 200 →
  ∃ player teamId team,
    Players store !! id = Some player
    ∧ Player.team player = Some teamId
    ∧ Teams store !! teamId = Some team
    ∧ fst (players_delete user id store)
      = {| Users := alter (fun u => User.set_playerProfile None
                                      (User.set_team None u))
                      (Player.user player) (Users store);
           Teams := alter (fun t => Team.set_players
                                      (pull id (Team.players t)) t)
                      teamId (Teams store);
           Players := delete id (Players store);
           Games := Games store |}.
Proof.
  unfold players_delete, gated.
  destruct (authorize _ user); [| discriminate].
  destruct (Players store !! id) as [player |]; [| discriminate].
  destruct (Player.team player) as [teamId |] eqn:Ht; simpl.
  - destruct (Teams store !! teamId) as [team |] eqn:Hteam;
      destruct (notPlayersCoach user _) as [[|] |]; try discriminate.
    intros _. exists player, teamId, team. repeat split; assumption.
  - destruct (notPlayersCoach user _) as [[|] |]; discriminate.
Qed.

(** C7.  A delete-player request that succeeds has done all three things: the
    player's id is no longer in the player list of the player's team, the
    linked user has neither team nor player profile, and the player document
    is gone. *)
Theorem players_delete_clears_all (user : Req.user) (id : ObjectId)
  (store : Store) :
  let r := players_delete user id store in
  Res.status (snd r) = 200 →
  ∃ player teamId team,
    Players store !! id = Some player
    ∧ Player.team player = Some teamId
    ∧ Teams store !! teamId = Some team
    ∧ (∃ team', Teams (fst r) !! teamId = Some team'
                ∧ (id ∉ Team.players team')
                ∧ (∀ other, other ≠ id → other ∈ Team.players team →
                            other ∈ Team.players team'))
    ∧ (∀ u, Users store !! Player.user player = Some u →
            ∃ u', Users (fst r) !! Player.user player = Some u'
                  ∧ User.team u' = None ∧ User.playerProfile u' = None)
    ∧ Players (fst r) !! id = None.
Proof.
  intros r H200. subst r.
  destruct (players_delete_200 user id store H200)
    as (player & teamId & team & Hp & Ht & Hteam & ->).
  exists player, teamId, team.
  split; [exact Hp |]. split; [exact Ht |]. split; [exact Hteam |].
  simpl. split; [| split].
  - rewrite lookup_alter_eq, Hteam. simpl.
    eexists. split; [reflexivity |]. simpl. split.
    + apply pull_not_elem.
    + intros other Hne Hin. apply pull_other; assumption.
  - intros u Hu. rewrite lookup_alter_eq, Hu. simpl.
    eexists. split; [reflexivity |]. split; reflexivity.
  - apply lookup_delete_eq.
Qed.

Lemma players_delete_clears_all_witness :
  let r := players_delete Fixture.asCoachA Fixture.playerP Fixture.store in
  (∃ team', Teams (fst r) !! Fixture.hawks = Some team'
            ∧ Fixture.playerP ∉ Team.players team')
  ∧ (∃ u', Users (fst r) !! Fixture.userP = Some u'
           ∧ User.team u' = None ∧ User.playerProfile u' = None)
  ∧ Players (fst r) !! Fixture.playerP = None.
Proof.
  intros r.
  destruct (players_delete_clears_all Fixture.asCoachA Fixture.playerP
              Fixture.store)
    as (player & teamId & team & Hp & Ht & _ & (team' & Ht' & Hout & _) & Hu & Hgone).
  - vm_compute. reflexivity.
  - assert (Players Fixture.store !! Fixture.playerP
            = Some (Fixture.player "Pat" Fixture.userP (Some Fixture.hawks) 7))
      as Hp' by (vm_compute; reflexivity).
    rewrite Hp' in Hp. injection Hp as <-.
    injection Ht as <-.
    split; [exists team'; split; assumption |].
    split; [| exact Hgone].
    apply (Hu (Fixture.user "Pat" "player" (Some Fixture.hawks)
                 (Some Fixture.playerP) [])).
    vm_compute. reflexivity.
Defined.

(** ** routes/players.js: a jersey number that is taken *)

Lemma findOne_is_Some {A} (filter : A → bool) (coll : gmap ObjectId A)
  (id : ObjectId) (x : A) :
  coll !! id = Some x → filter x = true → is_Some (findOne filter coll).
Proof.
  intros Hl Hf. unfold findOne.
  destruct (List.find _ _) as [e |] eqn:Hfind; [eauto |].
  pose proof (find_none _ _ Hfind (id, x)) as Hnone. simpl in Hnone.
  rewrite Hf in Hnone. exfalso.
  assert (In (id, x) (map_to_list coll)) as Hin
      by (apply list_elem_of_In, elem_of_map_to_list; exact Hl).
  specialize (Hnone Hin). discriminate.
Qed.

Lemma findOne_None {A} (filter : A → bool) (coll : gmap ObjectId A) :
  (∀ id x, coll !! id = Some x → filter x = false) → findOne filter coll = None.
Proof.
  intros Hall. unfold findOne.
  destruct (List.find _ _) as [[id x] |] eqn:Hfind; [| reflexivity].
  apply find_some in Hfind as [Hin Hf]. simpl in Hf.
  apply list_elem_of_In, elem_of_map_to_list in Hin.
  rewrite (Hall id x Hin) in Hf. discriminate.
Qed.

Lemma document_fields (now : Z) (body : PlayerBody.t) (d : Player.doc) :
  PlayerBody.document now body = Some d →
  Player.team d = PlayerBody.team body
  ∧ Some (Player.jerseyNumber d) = PlayerBody.jerseyNumber body.
Proof.
  unfold PlayerBody.document.
  destruct (PlayerBody.name body), (PlayerBody.user body),
    (PlayerBody.team body), (PlayerBody.position body),
    (PlayerBody.jerseyNumber body), (PlayerBody.height body),
    (PlayerBody.weight body), (PlayerBody.age body); simpl; try discriminate.
  intros [= <-]. split; reflexivity.
Qed.

Lemma validationResult_document (now : Z) (body : PlayerBody.t) :
  PlayerBody.validationResult body = [] →
  is_Some (PlayerBody.document now body).
Proof.
  unfold PlayerBody.validationResult, PlayerBody.document, Validator.check.
  destruct (PlayerBody.name body); [| discriminate].
  destruct (Validator.notEmpty _); [| discriminate].
  destruct (PlayerBody.user body); [| discriminate].
  destruct (Validator.mongoId _); [| discriminate].
  destruct (PlayerBody.team body); [| discriminate].
  destruct (Validator.mongoId _); [| discriminate].
  destruct (PlayerBody.position body); [| discriminate].
  destruct (Validator.isIn _ _); [| discriminate].
  destruct (PlayerBody.jerseyNumber body); [| discriminate].
  destruct (Validator.isInt _ _ _); [| discriminate].
  destruct (PlayerBody.height body); [| discriminate].
  destruct (Validator.notEmpty _); [| discriminate].
  destruct (PlayerBody.weight body); [| discriminate].
  destruct (Validator.isInt _ _ _); [| discriminate].
  destruct (PlayerBody.age body); [| discriminate].
  intros _. simpl. eauto.
Qed.

(** A request whose jersey number is taken on its team writes nothing, and
    is answered 400 or 403. *)
Lemma players_post_taken_refused (user : Req.user) (body : PlayerBody.t)
  (newId : ObjectId) (now : Z) (store : Store) (team pid : ObjectId)
  (jersey : Z) (p : Player.doc) :
  PlayerBody.team body = Some team →
  PlayerBody.jerseyNumber body = Some jersey →
  Players store !! pid = Some p →
  Player.team p = Some team →
  Player.jerseyNumber p = jersey →
  let r := players_post user body newId now store in
  fst r = store
  ∧ (Res.status (snd r) = 400 ∨ Res.status (snd r) = 403)
  ∧ Res.success (snd r) = false.
Proof.
  intros Hteam Hjersey Hp Hpt Hpj r. subst r.
  unfold players_post, gated.
  destruct (authorize _ user); [| simpl; auto].
  rewrite Hteam.
  destruct (PlayerBody.validationResult body) as [| e errors];
    destruct (PlayerBody.user body) as [userId |];
    destruct (PlayerBody.document now body) as [d |] eqn:Hd;
    try (simpl; auto; fail).
  destruct (Users store !! userId) as [userExists |]; [| simpl; auto].
  destruct (negb _); [simpl; auto |].
  destruct (Teams store !! team) as [teamExists |]; [| simpl; auto].
  destruct (andb _ _); [simpl; auto |].
  destruct (findOne _ (Players store)) as [existing |]; [simpl; auto |].
  destruct (document_fields now body d Hd) as [Hdt Hdj].
  rewrite Hjersey in Hdj. injection Hdj as Hdj.
  destruct (findOne_is_Some (Player.sameKey (Player.jerseyNumber d, Some team))
              (Players store) pid p Hp) as [taken ->]; [| simpl; auto].
  unfold Player.sameKey, Player.indexKey. apply bool_decide_eq_true.
  congruence.
Qed.

(** When the request comes as far as the test of the jersey number, the
    answer is the conflict. *)
Lemma players_post_taken_conflict (user : Req.user) (body : PlayerBody.t)
  (newId : ObjectId) (now : Z) (store : Store) (team pid : ObjectId)
  (jersey : Z) (p : Player.doc) :
  PlayerBody.team body = Some team →
  PlayerBody.jerseyNumber body = Some jersey →
  Players store !! pid = Some p →
  Player.team p = Some team →
  Player.jerseyNumber p = jersey →
  reachesJerseyCheck user body store →
  players_post user body newId now store
  = (store, Res.fail 400 "Jersey number already taken in this team").
Proof.
  intros Hteam Hjersey Hp Hpt Hpj
    (Hrole & Hv & (userId & u & Hu & Hus & Hur & Hnone)
     & (team' & t & Hteam' & Ht & Hcoach)).
  rewrite Hteam in Hteam'. injection Hteam' as <-.
  destruct (validationResult_document now body Hv) as [d Hd].
  destruct (document_fields now body d Hd) as [Hdt Hdj].
  rewrite Hjersey in Hdj. injection Hdj as Hdj.
  unfold players_post, gated, authorize.
  assert (existsb (String.eqb (Req.role user)) ["admin"; "coach"] = true) as ->.
  { destruct Hrole as [-> | ->]; reflexivity. }
  rewrite Hv, Hu, Hteam, Hd, Hus, Hur, Ht. simpl.
  assert (String.eqb (Req.role user) "coach"
          && negb (String.eqb (Team.coach t) (Req.id user)) = false) as ->.
  { destruct (String.eqb_spec (Req.role user) "coach") as [Hc | _];
      [| reflexivity].
    rewrite (Hcoach Hc), String.eqb_refl. reflexivity. }
  rewrite findOne_None.
  - destruct (findOne_is_Some (Player.sameKey (Player.jerseyNumber d, Some team))
                (Players store) pid p Hp) as [taken ->]; [| reflexivity].
    unfold Player.sameKey, Player.indexKey. apply bool_decide_eq_true.
    congruence.
  - intros pid' p' Hp'. apply String.eqb_neq. eapply Hnone. exact Hp'.
Qed.

(** C5, as stated, fails: the coach of another team asks for a jersey number
    that is taken on the team; the answer is the 403 of the ownership test,
    which comes before the test of the jersey number, not the 400 of the
    conflict. *)
Lemma jersey_conflict_counterexample :
  let r := players_post Fixture.asCoachB (Fixture.newPlayer Fixture.hawks 7)
             "64b0000000000000000000c9" 0 Fixture.store in
  Player.indexKey <$> Players Fixture.store !! Fixture.playerP
  = Some (7%Z, Some Fixture.hawks)
  ∧ snd r = Res.fail 403 "Not authorized to add players to this team"
  ∧ ¬ (Res.status (snd r) = 400
       ∧ Res.message (snd r) = Some "Jersey number already taken in this team").
Proof.
  split; [vm_compute; reflexivity |].
  split; [vm_compute; reflexivity |].
  intros [H _]. vm_compute in H. discriminate H.
Qed.

(** C5, amended.  A player-creation request whose (team, jersey number) pair
    is in use by a player of that team fails and writes nothing: the store
    after the request is the store before it and the answer is a 400 or a
    403; the answer is the conflict itself (400, "Jersey number already taken
    in this team") when the request passes the role gate, the validation
    chain, the lookups of the user and of the team, the ownership test and the
    test of an existing profile, which the handler makes first. *)
Theorem players_post_jersey_taken (user : Req.user) (body : PlayerBody.t)
  (newId : ObjectId) (now : Z) (store : Store) (team pid : ObjectId)
  (jersey : Z) (p : Player.doc) :
  PlayerBody.team body = Some team →
  PlayerBody.jerseyNumber body = Some jersey →
  Players store !! pid = Some p →
  Player.team p = Some team →
  Player.jerseyNumber p = jersey →
  let r := players_post user body newId now store in
  fst r = store
  ∧ (Res.status (snd r) = 400 ∨ Res.status (snd r) = 403)
  ∧ Res.success (snd r) = false
  ∧ (reachesJerseyCheck user body store →
     snd r = Res.fail 400 "Jersey number already taken in this team").
Proof.
  intros Hteam Hjersey Hp Hpt Hpj r.
  destruct (players_post_taken_refused user body newId now store team pid
              jersey p Hteam Hjersey Hp Hpt Hpj) as (Hs & Hst & Hf).
  fold r in Hs, Hst, Hf.
  repeat (split; [assumption |]).
  intros Hreach. subst r.
  rewrite (players_post_taken_conflict user body newId now store team pid
             jersey p Hteam Hjersey Hp Hpt Hpj Hreach).
  reflexivity.
Qed.

Lemma players_post_jersey_taken_witness :
  players_post Fixture.asCoachA (Fixture.newPlayer Fixture.hawks 7)
    "64b0000000000000000000c9" 0 Fixture.store
  = (Fixture.store, Res.fail 400 "Jersey number already taken in this team").
Proof.
  assert (Players Fixture.store
          = {[ Fixture.playerP
               := Fixture.player "Pat" Fixture.userP (Some Fixture.hawks) 7 ]})
    as Hps by reflexivity.
  assert (Players Fixture.store !! Fixture.playerP
          = Some (Fixture.player "Pat" Fixture.userP (Some Fixture.hawks) 7))
    as Hp by (rewrite Hps; apply lookup_singleton_eq).
  destruct (players_post_jersey_taken Fixture.asCoachA
              (Fixture.newPlayer Fixture.hawks 7) "64b0000000000000000000c9" 0
              Fixture.store Fixture.hawks Fixture.playerP 7
              (Fixture.player "Pat" Fixture.userP (Some Fixture.hawks) 7)
              eq_refl eq_refl Hp eq_refl eq_refl)
    as (Hs & _ & _ & Hr).
  apply injective_projections; [exact Hs |].
  apply Hr. split; [right; reflexivity |].
  split; [vm_compute; reflexivity |]. split.
  - exists Fixture.userQ, (Fixture.user "Quin" "player" None None []).
    split; [reflexivity |]. split; [vm_compute; reflexivity |].
    split; [reflexivity |].
    intros pid p Hp' Hu.
    rewrite Hps in Hp'. apply lookup_singleton_Some in Hp' as [_ <-].
    discriminate Hu.
  - exists Fixture.hawks,
      (Fixture.team "Hawks" Fixture.coachA [Fixture.playerP] 3 1).
    split; [reflexivity |]. split; [vm_compute; reflexivity |].
    intros _. reflexivity.
Defined.

(** ** The ownership test of the coach-gated routes *)

Section Ownership.

Variable Body : Type.
Variable castTeam : Body → option (Team.doc → Team.doc).
Variable castPlayer : Body → option (Player.doc → Player.doc).
Variable castGame : Body → option (Game.doc → Game.doc).

Variable user : Req.user.
Hypothesis coach : Req.role user = "coach".

Lemma authorize_coach : authorize ["admin"; "coach"] user = true.
Proof. unfold authorize. rewrite coach. reflexivity. Qed.

Lemma notTeamsCoachOrAdmin_other (team : Team.doc) :
  Team.coach team ≠ Req.id user → notTeamsCoachOrAdmin user team = true.
Proof.
  intros Hne. unfold notTeamsCoachOrAdmin. rewrite coach.
  apply String.eqb_neq in Hne. rewrite Hne. reflexivity.
Qed.

Lemma notPlayersCoach_other (team : Team.doc) :
  Team.coach team ≠ Req.id user →
  notPlayersCoach user (Some team) = Some true.
Proof.
  intros Hne. unfold notPlayersCoach. rewrite coach.
  apply String.eqb_neq in Hne. rewrite Hne. reflexivity.
Qed.

Variable store : Store.
Variable id : ObjectId.
Variable team : Team.doc.
Hypothesis target : Teams store !! id = Some team.
Hypothesis other : Team.coach team ≠ Req.id user.

Lemma teams_put_refused (body : Body) :
  refused store (teams_put Body castTeam user id body store).
Proof.
  unfold teams_put, gated.
  rewrite authorize_coach, target, (notTeamsCoachOrAdmin_other team other).
  split; reflexivity.
Qed.

Lemma teams_delete_refused : refused store (teams_delete user id store).
Proof.
  unfold teams_delete, gated.
  rewrite authorize_coach, target, (notTeamsCoachOrAdmin_other team other).
  split; reflexivity.
Qed.

Lemma teams_delete_players_refused (playerId : ObjectId) :
  refused store (teams_delete_players user id playerId store).
Proof.
  unfold teams_delete_players, gated.
  rewrite authorize_coach, target, (notTeamsCoachOrAdmin_other team other).
  split; reflexivity.
Qed.

Lemma teams_post_players_refused (playerId : ObjectId) :
  Validator.isMongoId playerId = true →
  refused store
    (teams_post_players user id {| AddPlayerBody.playerId := Some playerId |}
       store).
Proof.
  intros Hid. unfold teams_post_players, gated.
  rewrite authorize_coach. unfold Validator.mongoId, Validator.check.
  cbn [AddPlayerBody.playerId]. rewrite Hid.
  rewrite target, (notTeamsCoachOrAdmin_other team other).
  split; reflexivity.
Qed.

Lemma players_post_refused (body : PlayerBody.t) (newId : ObjectId) (now : Z)
  (userId : ObjectId) (u : User.doc) :
  PlayerBody.validationResult body = [] →
  PlayerBody.team body = Some id →
  PlayerBody.user body = Some userId →
  Users store !! userId = Some u →
  User.role u = "player" →
  refused store (players_post user body newId now store).
Proof.
  intros Hv Hteam Huser Hu Hrole.
  destruct (validationResult_document now body Hv) as [d Hd].
  unfold players_post, gated.
  rewrite authorize_coach, Hv, Huser, Hteam, Hd, Hu, Hrole, target, coach.
  simpl. apply String.eqb_neq in other. rewrite other. simpl.
  split; reflexivity.
Qed.

Lemma players_put_refused (pid : ObjectId) (player : Player.doc) (body : Body) :
  Players store !! pid = Some player →
  Player.team player = Some id →
  refused store (players_put Body castPlayer user pid body store).
Proof.
  intros Hp Ht. unfold players_put, gated.
  rewrite authorize_coach, Hp, Ht. simpl.
  rewrite target, (notPlayersCoach_other team other).
  split; reflexivity.
Qed.

Lemma players_delete_refused (pid : ObjectId) (player : Player.doc) :
  Players store !! pid = Some player →
  Player.team player = Some id →
  refused store (players_delete user pid store).
Proof.
  intros Hp Ht. unfold players_delete, gated.
  rewrite authorize_coach, Hp, Ht. simpl.
  rewrite target, (notPlayersCoach_other team other).
  split; reflexivity.
Qed.

End Ownership.

(** The update and the score update of routes/games.js ("Private
    (Admin/Coach)") test the role and nothing else: the request of a coach on
    a game that exists goes through, whoever coaches the two teams. *)
Lemma games_routes_any_coach {Body : Type}
  (castGame : Body → option (Game.doc → Game.doc)) (user : Req.user)
  (store : Store) (id : ObjectId) (g : Game.doc) :
  Req.role user = "coach" →
  Games store !! id = Some g →
  (∀ body update, castGame body = Some update →
     games_put Body castGame user id body store
     = (with_Games (<[id := update g]> (Games store)) store,
        Res.ok (Res.GameData id (update g))))
  ∧ (∀ io home away, (0 ≤ home)%Z → (0 ≤ away)%Z →
       games_put_score user id
         {| ScoreBody.homeScore := Some home; ScoreBody.awayScore := Some away |}
         {| db := store; io := io |}
       = ({| db := with_Games (<[id := Game.set_scores home away g]> (Games store))
                     store;
             io := SocketIO.to_emit id
                     (gameUpdated (Document id (Game.set_scores home away g))) io |},
          Res.ok (Res.GameData id (Game.set_scores home away g)))).
Proof.
  intros Hcoach Hg. split.
  - intros body update Hcast. unfold games_put, gated.
    rewrite (authorize_coach user Hcoach), Hcast, Hg. reflexivity.
  - intros io home away Hh Ha.
    rewrite (games_put_score_ok user id home away g {| db := store; io := io |});
      auto.
Qed.

(** The delete of routes/games.js lets a coach through as well, and has no
    ownership test either; its own comment gives the access as "Private
    (Admin)". *)
Lemma games_delete_any_coach (user : Req.user) (store : Store) (id : ObjectId)
  (g : Game.doc) :
  Req.role user = "coach" →
  Games store !! id = Some g →
  games_delete user id store
  = (with_Games (delete id (Games store)) store,
     Res.done "Game deleted successfully").
Proof.
  intros Hcoach Hg. unfold games_delete, gated.
  rewrite (authorize_coach user Hcoach), Hg. reflexivity.
Qed.

(** C2, as stated, fails on the game routes: a coach who coaches neither team
    of the game puts its score, and updates it, with a 200, and the game is
    written. *)
Lemma game_routes_counterexample :
  Team.coach <$> Teams Fixture.store !! Game.homeTeam Fixture.scheduled
  = Some Fixture.coachA
  ∧ Team.coach <$> Teams Fixture.store !! Game.awayTeam Fixture.scheduled
    = Some Fixture.coachB
  ∧ Games Fixture.store !! Fixture.game = Some Fixture.scheduled
  ∧ Res.status (snd (games_put_score Fixture.asCoachC Fixture.game
                       (Fixture.score 57 61) Fixture.world)) = 200
  ∧ Games (db (fst (games_put_score Fixture.asCoachC Fixture.game
                      (Fixture.score 57 61) Fixture.world))) !! Fixture.game
    = Some (Game.set_scores 57 61 Fixture.scheduled)
  ∧ Res.status (snd (games_put Z Fixture.quarterBody Fixture.asCoachC
                       Fixture.game 3%Z Fixture.store)) = 200
  ∧ Game.quarter <$> Games (fst (games_put Z Fixture.quarterBody Fixture.asCoachC
                                   Fixture.game 3%Z Fixture.store)) !! Fixture.game
    = Some 3%Z.
Proof. repeat split; vm_compute; reflexivity. Qed.

(** C2, amended.  A coach who is not the coach of the target team is
    answered 403, and the store is left as it was, on the team routes (update,
    delete, roster remove, and roster add once the player id has passed
    validation) and on the player routes (create once the body has passed
    validation and names a user with the player role; update and delete of a
    player of that team).  The game update and the game score update have no
    ownership test: there the request of any coach on a game that exists
    succeeds. *)
Theorem coach_gated_routes {Body : Type}
  (castTeam : Body → option (Team.doc → Team.doc))
  (castPlayer : Body → option (Player.doc → Player.doc))
  (castGame : Body → option (Game.doc → Game.doc))
  (user : Req.user) (store : Store) :
  Req.role user = "coach" →
  (∀ id team,
      Teams store !! id = Some team → Team.coach team ≠ Req.id user →
      (∀ body, refused store (teams_put Body castTeam user id body store))
      ∧ refused store (teams_delete user id store)
      ∧ (∀ playerId, refused store (teams_delete_players user id playerId store))
      ∧ (∀ playerId,
            Validator.isMongoId playerId = true →
            refused store
              (teams_post_players user id
                 {| AddPlayerBody.playerId := Some playerId |} store))
      ∧ (∀ body newId now userId u,
            PlayerBody.validationResult body = [] →
            PlayerBody.team body = Some id →
            PlayerBody.user body = Some userId →
            Users store !! userId = Some u → User.role u = "player" →
            refused store (players_post user body newId now store))
      ∧ (∀ pid player,
            Players store !! pid = Some player → Player.team player = Some id →
            (∀ body, refused store
                       (players_put Body castPlayer user pid body store))
            ∧ refused store (players_delete user pid store)))
  ∧ (∀ id g,
        Games store !! id = Some g →
        (∀ body update, castGame body = Some update →
           games_put Body castGame user id body store
           = (with_Games (<[id := update g]> (Games store)) store,
              Res.ok (Res.GameData id (update g))))
        ∧ (∀ io home away, (0 ≤ home)%Z → (0 ≤ away)%Z →
             games_put_score user id
               {| ScoreBody.homeScore := Some home;
                  ScoreBody.awayScore := Some away |}
               {| db := store; io := io |}
             = ({| db := with_Games
                           (<[id := Game.set_scores home away g]> (Games store))
                           store;
                   io := SocketIO.to_emit id
                           (gameUpdated (Document id (Game.set_scores home away g)))
                           io |},
                Res.ok (Res.GameData id (Game.set_scores home away g))))).
Proof.
  intros Hcoach. split.
  - intros id team Ht Hne.
    split; [intros body; eapply teams_put_refused; eassumption |].
    split; [eapply teams_delete_refused; eassumption |].
    split; [intros playerId; eapply teams_delete_players_refused; eassumption |].
    split; [intros playerId Hid; eapply teams_post_players_refused; eassumption |].
    split.
    + intros body newId now userId u Hv Hteam Huser Hu Hrole.
      eapply players_post_refused; eassumption.
    + intros pid player Hp Hpt. split.
      * intros body. eapply players_put_refused; eassumption.
      * eapply players_delete_refused; eassumption.
  - intros id g Hg. apply games_routes_any_coach; assumption.
Qed.

(** On the fixture: coach Bob on the team, and on the player, of coach Ann. *)
Lemma coach_gated_routes_witness :
  refused Fixture.store
    (teams_put unit Fixture.emptyBody Fixture.asCoachB Fixture.hawks tt
       Fixture.store)
  ∧ refused Fixture.store
      (teams_delete Fixture.asCoachB Fixture.hawks Fixture.store)
  ∧ refused Fixture.store
      (players_delete Fixture.asCoachB Fixture.playerP Fixture.store).
Proof.
  destruct (coach_gated_routes (@Fixture.emptyBody Team.doc)
              (@Fixture.emptyBody Player.doc) (@Fixture.emptyBody Game.doc)
              Fixture.asCoachB Fixture.store eq_refl) as [Hteams _].
  destruct (Hteams Fixture.hawks
              (Fixture.team "Hawks" Fixture.coachA [Fixture.playerP] 3 1))
    as (Hput & Hdel & _ & _ & _ & Hplayers).
  - vm_compute. reflexivity.
  - discriminate.
  - split; [apply Hput |]. split; [exact Hdel |].
    apply (Hplayers Fixture.playerP
             (Fixture.player "Pat" Fixture.userP (Some Fixture.hawks) 7)).
    + vm_compute. reflexivity.
    + reflexivity.
Defined.

(** ** The wiring of server.js is kept by every request *)

Lemma nsps_alterNamespace (name name' : string)
  (f : SocketIO.Namespace → SocketIO.Namespace) (io : SocketIO.Server) :
  SocketIO.nsps (SocketIO.alterNamespace name f io) !! name'
  = if decide (name = name') then f <$> SocketIO.nsps io !! name
    else SocketIO.nsps io !! name'.
Proof. unfold SocketIO.alterNamespace. simpl. apply lookup_alter. Qed.

Lemma server_namespaces :
  server initGameSockets
  = {| SocketIO.nsps :=
         <["/api/game" := {| SocketIO.fns := [];
                             SocketIO.listeners := [GameSockets];
                             SocketIO.sockets := ∅ |}]>
           {[ "/" := {| SocketIO.fns := [ProtectSocket];
                        SocketIO.listeners := [];
                        SocketIO.sockets := ∅ |} ]} |}.
Proof. vm_compute. reflexivity. Qed.

Lemma wired_server : wired (server initGameSockets).
Proof.
  split; [| split].
  - intros name Hmain Hgame. rewrite server_namespaces. simpl.
    rewrite lookup_insert_ne by congruence.
    apply lookup_singleton_ne. congruence.
  - eexists. split; [exact server_main_namespace |].
    split; [reflexivity |]. split; [reflexivity |].
    intros sid s Hs. simpl in Hs. rewrite lookup_empty in Hs. discriminate.
  - eexists. split; [exact server_game_namespace |].
    split; [reflexivity |]. split; [reflexivity |].
    intros sid s Hs. simpl in Hs. rewrite lookup_empty in Hs. discriminate.
Qed.

(** A broadcast of the server keeps the wiring: it adds to what sockets of the
    main namespace have received, and to nothing else. *)
Lemma wired_to_emit (room : Room) (p : Packet) (io : SocketIO.Server) :
  wired io → wired (SocketIO.to_emit room p io).
Proof.
  intros (Hother & (n0 & Hn0 & Hf0 & Hl0 & Hs0) & (n1 & Hn1 & Hf1 & Hl1 & Hs1)).
  unfold SocketIO.to_emit, SocketIO.nsp_to_emit.
  split; [| split].
  - intros name Hmain Hgame.
    rewrite nsps_alterNamespace, decide_False by congruence. auto.
  - rewrite nsps_alterNamespace, decide_True, Hn0 by reflexivity.
    eexists. split; [reflexivity |]. simpl.
    split; [exact Hf0 |]. split; [exact Hl0 |].
    intros sid s' Hs'. apply lookup_fmap_Some in Hs' as (s & <- & Hs).
    destruct (Hs0 sid s Hs) as [Hh Hr].
    destruct (bool_decide _); simpl; auto.
  - rewrite nsps_alterNamespace, decide_False by discriminate.
    exists n1. auto.
Qed.

(** A socket of the namespace of sockets/gameSockets.js joins a room. *)
Lemma wired_join (sid : SocketId) (room : Room) (io : SocketIO.Server) :
  wired io → wired (SocketIO.join "/api/game" sid room io).
Proof.
  intros (Hother & (n0 & Hn0 & Hf0 & Hl0 & Hs0) & (n1 & Hn1 & Hf1 & Hl1 & Hs1)).
  unfold SocketIO.join, SocketIO.alterSocket.
  split; [| split].
  - intros name Hmain Hgame.
    rewrite nsps_alterNamespace, decide_False by congruence. auto.
  - rewrite nsps_alterNamespace, decide_False by discriminate.
    exists n0. auto.
  - rewrite nsps_alterNamespace, decide_True, Hn1 by reflexivity.
    eexists. split; [reflexivity |]. simpl.
    split; [exact Hf1 |]. split; [exact Hl1 |].
    intros sid' s' Hs'. apply lookup_alter_Some in Hs' as [(-> & s & Hs & ->) | [_ Hs]].
    + destruct (Hs1 sid' s Hs) as (Hh & Hu & Hr). simpl. auto.
    + exact (Hs1 sid' s' Hs).
Qed.

(** A socket goes away. *)
Lemma wired_disconnect (name : string) (sid : SocketId) (w : World) :
  wired (io w) → wired (io (client_disconnect name sid w)).
Proof.
  intros (Hother & (n0 & Hn0 & Hf0 & Hl0 & Hs0) & (n1 & Hn1 & Hf1 & Hl1 & Hs1)).
  unfold client_disconnect, with_io. cbn [io].
  split; [| split].
  - intros name' Hmain Hgame. rewrite nsps_alterNamespace.
    destruct (decide (name = name')) as [-> | _]; [| auto].
    rewrite (Hother name' Hmain Hgame). reflexivity.
  - rewrite nsps_alterNamespace.
    destruct (decide (name = "/")) as [-> | _]; [| exists n0; auto].
    rewrite Hn0. eexists. split; [reflexivity |]. simpl.
    split; [exact Hf0 |]. split; [exact Hl0 |].
    intros sid' s Hs. apply lookup_delete_Some in Hs as [_ Hs]. eauto.
  - rewrite nsps_alterNamespace.
    destruct (decide (name = "/api/game")) as [-> | _]; [| exists n1; auto].
    rewrite Hn1. eexists. split; [reflexivity |]. simpl.
    split; [exact Hf1 |]. split; [exact Hl1 |].
    intros sid' s Hs. apply lookup_delete_Some in Hs as [_ Hs]. eauto.
Qed.

Lemma protectSocket_inr (jwt_verify : string → option ObjectId) (store : Store)
  (handshake : Handshake) (socket s : SocketIO.Socket) :
  protectSocket jwt_verify store handshake socket = inr s →
  SocketIO.rooms s = SocketIO.rooms socket
  ∧ SocketIO.handlers s = SocketIO.handlers socket
  ∧ SocketIO.received s = SocketIO.received socket.
Proof.
  unfold protectSocket.
  destruct (auth_token handshake) as [token |]; [| discriminate].
  destruct (String.eqb token ""); [discriminate |].
  destruct (jwt_verify token) as [id |]; [| discriminate].
  destruct (Users store !! id) as [u |]; [| discriminate].
  intros [= <-]. simpl. auto.
Qed.

(** A client connects. *)
Lemma wired_connect (jwt_verify : string → option ObjectId) (name : string)
  (sid : SocketId) (handshake : Handshake) (w : World) :
  wired (io w) → wired (io (fst (connect jwt_verify name sid handshake w))).
Proof.
  intros Hw.
  pose proof Hw as (Hother & (n0 & Hn0 & Hf0 & Hl0 & Hs0)
                    & (n1 & Hn1 & Hf1 & Hl1 & Hs1)).
  unfold connect.
  destruct (decide (name = "/")) as [-> | Hmain];
    [| destruct (decide (name = "/api/game")) as [-> | Hgame]].
  - rewrite Hn0, Hf0. cbn [run middleware].
    destruct (protectSocket _ _ _ _) as [message | s] eqn:Hp; [exact Hw |].
    destruct (protectSocket_inr _ _ _ _ _ Hp) as (Hr & Hh & _).
    cbn [fst with_io io]. split; [| split].
    + intros name' Hmain' Hgame'.
      rewrite nsps_alterNamespace, decide_False by congruence. auto.
    + rewrite nsps_alterNamespace, decide_True, Hn0 by reflexivity.
      eexists. split; [reflexivity |]. simpl.
      split; [exact Hf0 |]. split; [exact Hl0 |].
      intros sid' s' Hs'.
      apply lookup_insert_Some in Hs' as [[<- <-] | [_ Hs']]; [| eauto].
      simpl. split; [exact Hl0 | exact Hr].
    + rewrite nsps_alterNamespace, decide_False by discriminate.
      exists n1. auto.
  - rewrite Hn1, Hf1. cbn [run fst with_io io]. split; [| split].
    + intros name' Hmain' Hgame'.
      rewrite nsps_alterNamespace, decide_False by congruence. auto.
    + rewrite nsps_alterNamespace, decide_False by discriminate.
      exists n0. auto.
    + rewrite nsps_alterNamespace, decide_True, Hn1 by reflexivity.
      eexists. split; [reflexivity |]. simpl.
      split; [exact Hf1 |]. split; [exact Hl1 |].
      intros sid' s' Hs'.
      apply lookup_insert_Some in Hs' as [[<- <-] | [_ Hs']]; [| eauto].
      simpl. auto.
  - rewrite (Hother name Hmain Hgame). exact Hw.
Qed.

(** A client emits an event. *)
Lemma wired_client_emit (name : string) (sid : SocketId) (event : ClientEvent)
  (w : World) :
  wired (io w) → wired (io (client_emit name sid event w)).
Proof.
  intros Hw.
  pose proof Hw as (Hother & (n0 & Hn0 & Hf0 & Hl0 & Hs0)
                    & (n1 & Hn1 & Hf1 & Hl1 & Hs1)).
  unfold client_emit.
  destruct (SocketIO.socket name sid (io w)) as [s |] eqn:Hs; [| exact Hw].
  unfold SocketIO.socket in Hs.
  destruct (decide (name = "/")) as [-> | Hmain];
    [| destruct (decide (name = "/api/game")) as [-> | Hgame]].
  - rewrite Hn0 in Hs. simpl in Hs.
    destruct (Hs0 sid s Hs) as [-> _]. exact Hw.
  - rewrite Hn1 in Hs. simpl in Hs.
    destruct (Hs1 sid s Hs) as (-> & Hu & _). simpl.
    destruct event as [room | updateData | other]; simpl.
    + apply wired_join. exact Hw.
    + unfold SocketIO.socket. rewrite Hn1. simpl. rewrite Hs.
      unfold mayPush. rewrite Hu. exact Hw.
    + exact Hw.
  - rewrite (Hother name Hmain Hgame) in Hs. discriminate.
Qed.

(** A score update comes in. *)
Lemma wired_games_put_score (user : Req.user) (id : ObjectId)
  (body : ScoreBody.t) (w : World) :
  wired (io w) → wired (io (fst (games_put_score user id body w))).
Proof.
  intros Hw. unfold games_put_score, gated.
  destruct (authorize _ user); [| exact Hw].
  destruct (ScoreBody.validationResult body);
    destruct (ScoreBody.homeScore body), (ScoreBody.awayScore body);
    try exact Hw.
  destruct (negb _); [exact Hw |].
  destruct (Games (db w) !! id); [| exact Hw].
  simpl. apply wired_to_emit. exact Hw.
Qed.

Lemma wired_serve (jwt_verify : string → option ObjectId) (r : Request)
  (w : World) :
  wired (io w) → wired (io (serve jwt_verify r w)).
Proof.
  intros Hw. destruct r; simpl.
  - apply wired_connect. exact Hw.
  - apply wired_client_emit. exact Hw.
  - apply wired_disconnect. exact Hw.
  - apply wired_games_put_score. exact Hw.
  - exact Hw.
Qed.

Lemma wired_serveAll (jwt_verify : string → option ObjectId)
  (requests : list Request) (w : World) :
  wired (io w) → wired (io (serveAll jwt_verify requests w)).
Proof.
  revert w. induction requests as [| r requests IH]; intros w Hw; simpl.
  - exact Hw.
  - apply IH, wired_serve, Hw.
Qed.

(** Whatever requests the process of server.js has served, a socket on which
    [joinGame] and [updateGame] can fire carries no user and has received
    nothing: no score update has reached it, and its [updateGame] events are
    dropped. *)
Lemma game_namespace_never_served (jwt_verify : string → option ObjectId)
  (requests : list Request) (store : Store) (sid : SocketId)
  (s : SocketIO.Socket) :
  SocketIO.socket "/api/game" sid
    (io (serveAll jwt_verify requests
           {| db := store; io := server initGameSockets |})) = Some s →
  SocketIO.handlers s = [GameSockets]
  ∧ SocketIO.user s = None ∧ SocketIO.received s = [].
Proof.
  intros Hs.
  destruct (wired_serveAll jwt_verify requests
              {| db := store; io := server initGameSockets |} wired_server)
    as (_ & _ & (n1 & Hn1 & _ & _ & Hs1)).
  unfold SocketIO.socket in Hs. rewrite Hn1 in Hs. simpl in Hs.
  exact (Hs1 sid s Hs).
Qed.

(** And a socket that has passed the gate of the main namespace has no
    handler and is in no room but its own: it cannot ask for the room of a
    game. *)
Lemma main_namespace_never_joins (jwt_verify : string → option ObjectId)
  (requests : list Request) (store : Store) (sid : SocketId)
  (s : SocketIO.Socket) :
  SocketIO.socket "/" sid
    (io (serveAll jwt_verify requests
           {| db := store; io := server initGameSockets |})) = Some s →
  SocketIO.handlers s = [] ∧ SocketIO.rooms s = {[ sid ]}.
Proof.
  intros Hs.
  destruct (wired_serveAll jwt_verify requests
              {| db := store; io := server initGameSockets |} wired_server)
    as (_ & (n0 & Hn0 & _ & _ & Hs0) & _).
  unfold SocketIO.socket in Hs. rewrite Hn0 in Hs. simpl in Hs.
  exact (Hs0 sid s Hs).
Qed.

(** * Further properties of the routers and of the gateway *)

(** ** routes/games.js: what a score update that fails leaves behind *)

(** A score update that is not answered 200 has written nothing and has
    broadcast nothing: the store and every socket are as before. *)
Theorem games_put_score_failure (user : Req.user) (id : ObjectId)
  (body : ScoreBody.t) (w : World) :
  Res.status (snd (games_put_score user id body w)) ≠ 200 →
  fst (games_put_score user id body w) = w.
Proof.
  unfold games_put_score, gated.
  destruct (authorize _ user); [| reflexivity].
  destruct (ScoreBody.validationResult body);
    destruct (ScoreBody.homeScore body), (ScoreBody.awayScore body);
    try reflexivity.
  destruct (negb _); [reflexivity |].
  destruct (Games (db w) !! id); [| reflexivity].
  simpl. intros H. exfalso. apply H. reflexivity.
Qed.

Lemma games_put_score_failure_witness :
  fst (games_put_score Fixture.asAdmin Fixture.game (Fixture.score (-1) 61)
         Fixture.joined) = Fixture.joined.
Proof.
  apply games_put_score_failure. vm_compute. discriminate.
Defined.

(** The body is validated before the game is looked up: a negative home
    score is answered 400 with its message among the errors, whatever the away
    score holds and also when no game has the id, and nothing changes. *)
Theorem games_put_score_invalid (user : Req.user) (id : ObjectId)
  (body : ScoreBody.t) (home : Z) (w : World) :
  Req.role user = "admin" ∨ Req.role user = "coach" →
  ScoreBody.homeScore body = Some home → (home < 0)%Z →
  ∃ errors,
    games_put_score user id body w = (w, Res.validationErrors errors)
    ∧ "Home score must be non-negative" ∈ errors.
Proof.
  intros Hrole Hhome Hneg. unfold games_put_score, gated, authorize.
  assert (existsb (String.eqb (Req.role user)) ["admin"; "coach"] = true) as ->.
  { destruct Hrole as [-> | ->]; reflexivity. }
  assert (Validator.isInt 0 None (ScoreBody.homeScore body) = false) as Hv.
  { rewrite Hhome. unfold Validator.isInt. rewrite andb_true_r.
    apply Z.leb_gt. exact Hneg. }
  unfold ScoreBody.validationResult. rewrite Hv. simpl.
  exists ("Home score must be non-negative"
          :: Validator.check (Validator.isInt 0 None (ScoreBody.awayScore body))
               "Away score must be non-negative").
  split; [| apply list_elem_of_here].
  destruct (ScoreBody.homeScore body), (ScoreBody.awayScore body); reflexivity.
Qed.

(** A home score of -2 for a game that does not exist. *)
Lemma games_put_score_invalid_witness :
  ∃ errors,
    games_put_score Fixture.asCoachA "64b0000000000000000000ee"
      {| ScoreBody.homeScore := Some (-2)%Z; ScoreBody.awayScore := Some 3%Z |}
      Fixture.world
    = (Fixture.world, Res.validationErrors errors)
    ∧ "Home score must be non-negative" ∈ errors.
Proof.
  apply (games_put_score_invalid Fixture.asCoachA "64b0000000000000000000ee"
           _ (-2)%Z).
  - right. reflexivity.
  - reflexivity.
  - lia.
Defined.

(** ** routes/games.js: reading a game back *)

(** A score update that succeeded is what the next [GET /api/games/:id]
    answers: 200, the two scores of the body, and the rest of the game as it
    was. *)
Theorem score_update_then_get (user : Req.user) (id : ObjectId)
  (body : ScoreBody.t) (w : World) :
  let r := games_put_score user id body w in
  Res.status (snd r) = 200 →
  ∃ g view,
    Games (db w) !! id = Some g
    ∧ games_get id (db (fst r))
      = {| GameRes.status := 200; GameRes.success := true;
           GameRes.message := None; GameRes.data := Some view |}
    ∧ Some (Game.homeScore (gv_game view)) = ScoreBody.homeScore body
    ∧ Some (Game.awayScore (gv_game view)) = ScoreBody.awayScore body
    ∧ Game.set_scores (Game.homeScore g) (Game.awayScore g) (gv_game view) = g
    ∧ snd r = Res.ok (Res.GameData id (gv_game view)).
Proof.
  intros r H200. subst r.
  destruct (games_put_score_200 user id body w H200)
    as (g & home & away & Hg & -> & _ & _ & ->).
  exists g. eexists. split; [exact Hg |].
  unfold games_get. simpl. rewrite lookup_insert_eq.
  split; [reflexivity |]. simpl.
  repeat split. destruct g; reflexivity.
Qed.

Lemma score_update_then_get_witness :
  ∃ view,
    GameRes.data
      (games_get Fixture.game
         (db (fst (games_put_score Fixture.asCoachA Fixture.game
                     (Fixture.score 57 61) Fixture.world)))) = Some view
    ∧ Game.homeScore (gv_game view) = 57%Z
    ∧ Game.awayScore (gv_game view) = 61%Z.
Proof.
  destruct (score_update_then_get Fixture.asCoachA Fixture.game
              (Fixture.score 57 61) Fixture.world)
    as (g & view & _ & Hget & Hh & Ha & _).
  - vm_compute. reflexivity.
  - exists view. rewrite Hget. simpl in *.
    split; [reflexivity |]. split; congruence.
Defined.

Lemma games_delete_200 (user : Req.user) (id : ObjectId) (store : Store) :
  Res.status (snd (games_delete user id store)) = 200 →
  authorize ["admin"; "coach"] user = true
  ∧ games_delete user id store
    = (with_Games (delete id (Games store)) store,
       Res.done "Game deleted successfully").
Proof.
  unfold games_delete, gated.
  destruct (authorize _ user); [| discriminate].
  destruct (Games store !! id); [| discriminate].
  auto.
Qed.

(** A delete that succeeded makes the game unknown to the read and to a
    second delete (both 404), and touches no other game and no other
    collection: the teams that played it, and the players in its box score,
    stay. *)
Theorem games_delete_then_get (user : Req.user) (id : ObjectId)
  (store : Store) :
  let r := games_delete user id store in
  Res.status (snd r) = 200 →
  GameRes.status (games_get id (fst r)) = 404
  ∧ games_delete user id (fst r) = (fst r, Res.fail 404 "Game not found")
  ∧ (∀ id', id' ≠ id → games_get id' (fst r) = games_get id' store)
  ∧ Users (fst r) = Users store
  ∧ Teams (fst r) = Teams store
  ∧ Players (fst r) = Players store.
Proof.
  intros r H200. subst r.
  destruct (games_delete_200 user id store H200) as [Hauth ->]. simpl.
  split; [unfold games_get; simpl; rewrite lookup_delete_eq; reflexivity |].
  split.
  - unfold games_delete, gated. rewrite Hauth. simpl.
    rewrite lookup_delete_eq. reflexivity.
  - split; [| repeat split].
    intros id' Hne. unfold games_get, populateGame. simpl.
    rewrite lookup_delete_ne by congruence. reflexivity.
Qed.

Lemma games_delete_then_get_witness :
  GameRes.status
    (games_get Fixture.game
       (fst (games_delete Fixture.asAdmin Fixture.game Fixture.store))) = 404.
Proof.
  apply (games_delete_then_get Fixture.asAdmin Fixture.game Fixture.store).
  vm_compute. reflexivity.
Defined.

(** ** routes/teams.js: the roster *)




Lemma teams_delete_players_200 (user : Req.user) (id playerId : ObjectId)
  (store : Store) :
  Res.status (snd (teams_delete_players user id playerId store)) = 200 →
  ∃ team player,
    Teams store !! id = Some team
    ∧ Players store !! playerId = Some player
    ∧ fst (teams_delete_players user id playerId store)
      = {| Users := alter (User.set_team None) (Player.user player) (Users store);
           Teams := alter (fun t => Team.set_players
                                      (pull playerId (Team.players t)) t)
                      id (Teams store);
           Players := <[playerId := Player.set_team None player]> (Players store);
           Games := Games store |}.
Proof.
  unfold teams_delete_players, gated.
  destruct (authorize _ user) eqn:Hauth; [| discriminate].
  destruct (Teams store !! id) as [team |] eqn:Ht; [| discriminate].
  destruct (notTeamsCoachOrAdmin user team) eqn:Hown; [discriminate |].
  destruct (Players store !! playerId) as [player |] eqn:Hp; [| discriminate].
  simpl. destruct (Player.duplicateKey _ _ _); [discriminate |].
  intros _. exists team, player. auto.
Qed.



(** A roster removal that succeeded has unlinked the three documents: the
    player id is out of the team's list, the player has no team and the
    linked user has none.  The route does not look whether the player was on
    the team: the player loses the team it had, whichever it was, and the
    list of that other team is not touched. *)
Theorem roster_remove_unlinks (user : Req.user) (id playerId : ObjectId)
  (store : Store) :
  let r := teams_delete_players user id playerId store in
  Res.status (snd r) = 200 →
  ∃ team player,
    Teams store !! id = Some team
    ∧ Players store !! playerId = Some player
    ∧ Teams (fst r) !! id
      = Some (Team.set_players (pull playerId (Team.players team)) team)
    ∧ (playerId ∉ pull playerId (Team.players team))
    ∧ Players (fst r) !! playerId = Some (Player.set_team None player)
    ∧ (∀ u, Users store !! Player.user player = Some u →
            Users (fst r) !! Player.user player = Some (User.set_team None u))
    ∧ (∀ other, other ≠ id → Teams (fst r) !! other = Teams store !! other).
Proof.
  intros r H200. subst r.
  destruct (teams_delete_players_200 user id playerId store H200)
    as (team & player & Ht & Hp & ->).
  exists team, player.
  split; [exact Ht |]. split; [exact Hp |]. simpl.
  split; [| split; [| split; [| split]]].
  - rewrite lookup_alter_eq, Ht. reflexivity.
  - apply pull_not_elem.
  - apply lookup_insert_eq.
  - intros u Hu. rewrite lookup_alter_eq, Hu. reflexivity.
  - intros other Hne. apply lookup_alter_ne. congruence.
Qed.

(** The coach of the Owls removes from the Owls the player of the Hawks: the
    player has no team any more, and the Hawks still list the player. *)
Lemma roster_remove_unlinks_witness :
  let r := teams_delete_players Fixture.asCoachB Fixture.owls Fixture.playerP
             Fixture.store in
  Player.team <$> Players (fst r) !! Fixture.playerP = Some None
  ∧ Team.players <$> Teams (fst r) !! Fixture.hawks = Some [Fixture.playerP].
Proof.
  intros r.
  destruct (roster_remove_unlinks Fixture.asCoachB Fixture.owls Fixture.playerP
              Fixture.store)
    as (team & player & _ & _ & _ & _ & Hp & _ & Hother).
  - vm_compute. reflexivity.
  - fold r in Hp, Hother. split.
    + rewrite Hp. reflexivity.
    + rewrite (Hother Fixture.hawks) by discriminate.
      vm_compute. reflexivity.
Defined.



(** ** routes/teams.js: deleting a team *)

(** What [$unset: { team: 1 }] makes of a player of the team. *)
Lemma unsetTeamMany_false (team : ObjectId) (l : list (ObjectId * Player.doc))
  (c : gmap ObjectId Player.doc) :
  snd (fold_left
         (fun acc e =>
            if snd acc && bool_decide (Player.team (snd e) = Some team)
            then
              let p := Player.set_team None (snd e) in
              if Player.duplicateKey (fst e) p (fst acc) then (fst acc, false)
              else (<[fst e := p]> (fst acc), true)
            else acc)
         l (c, false)) = false.
Proof.
  induction l as [| e l IH]; [reflexivity |]. simpl. exact IH.
Qed.

Lemma unsetTeamMany_fold (team : ObjectId) (l : list (ObjectId * Player.doc))
  (acc : gmap ObjectId Player.doc * bool) (c : gmap ObjectId Player.doc) :
  NoDup (fst <$> l) →
  (∀ k v, (k, v) ∈ l → fst acc !! k = Some v) →
  fold_left
    (fun acc e =>
       if snd acc && bool_decide (Player.team (snd e) = Some team)
       then
         let p := Player.set_team None (snd e) in
         if Player.duplicateKey (fst e) p (fst acc) then (fst acc, false)
         else (<[fst e := p]> (fst acc), true)
       else acc)
    l acc = (c, true) →
  ∀ pid,
    c !! pid
    = match (list_to_map l : gmap ObjectId Player.doc) !! pid with
      | Some p => Some (if bool_decide (Player.team p = Some team)
                        then Player.set_team None p else p)
      | None => fst acc !! pid
      end.
Proof.
  revert acc. induction l as [| [k v] l IH]; intros acc Hnd Hacc Hfold pid.
  - simpl in Hfold. rewrite Hfold. reflexivity.
  - simpl in Hnd. apply NoDup_cons in Hnd as [Hk Hnd].
    simpl in Hfold.
    assert (∀ k' v', (k', v') ∈ l → k' ≠ k) as Hfresh.
    { intros k' v' Hin ->. apply Hk, list_elem_of_fmap.
      exists (k, v'). split; [reflexivity | exact Hin]. }
    destruct acc as [m flag]. simpl in *.
    destruct flag.
    + simpl in Hfold.
      destruct (bool_decide_reflect (Player.team v = Some team)) as [Hon | Hoff].
      * destruct (Player.duplicateKey k (Player.set_team None v) m).
        { pose proof (eq_trans (eq_sym (unsetTeamMany_false team l m))
                        (f_equal snd Hfold)) as Hf.
          discriminate Hf. }
        assert (∀ k' v', (k', v') ∈ l →
                  fst (<[k := Player.set_team None v]> m, true) !! k' = Some v')
          as Hacc'.
        { intros k' v' Hin. cbn [fst].
          rewrite lookup_insert_ne by (apply not_eq_sym; eauto).
          apply Hacc. right. exact Hin. }
        rewrite (IH _ Hnd Hacc' Hfold pid).
        clear IH. cbn [fst].
        change (list_to_map ((k, v) :: l) : gmap string Player.doc)
          with (<[k := v]> (list_to_map l : gmap string Player.doc)).
        destruct (decide (k = pid)) as [-> | Hne].
        -- rewrite (not_elem_of_list_to_map_1 l pid Hk), !lookup_insert_eq.
           rewrite bool_decide_eq_true_2 by exact Hon. reflexivity.
        -- rewrite !lookup_insert_ne by exact Hne. reflexivity.
      * assert (∀ k' v', (k', v') ∈ l → fst (m, true) !! k' = Some v')
          as Hacc'.
        { intros k' v' Hin. apply Hacc. right. exact Hin. }
        rewrite (IH _ Hnd Hacc' Hfold pid).
        clear IH. cbn [fst].
        change (list_to_map ((k, v) :: l) : gmap string Player.doc)
          with (<[k := v]> (list_to_map l : gmap string Player.doc)).
        destruct (decide (k = pid)) as [-> | Hne].
        -- rewrite (not_elem_of_list_to_map_1 l pid Hk), lookup_insert_eq.
           rewrite bool_decide_eq_false_2 by exact Hoff. apply Hacc. left.
        -- rewrite lookup_insert_ne by exact Hne. reflexivity.
    + pose proof (eq_trans (eq_sym (unsetTeamMany_false team l m))
                    (f_equal snd Hfold)) as Hf.
      discriminate Hf.
Qed.

(** When the run comes to its end, each player of the team has lost it and
    every other player is as before. *)
Lemma unsetTeamMany_done (team : ObjectId) (coll c : gmap ObjectId Player.doc) :
  unsetTeamMany team coll = (c, true) →
  ∀ pid,
    c !! pid
    = (fun p => if bool_decide (Player.team p = Some team)
                then Player.set_team None p else p) <$> coll !! pid.
Proof.
  intros Hrun pid. unfold unsetTeamMany in Hrun.
  rewrite (unsetTeamMany_fold team (map_to_list coll) (coll, true) c
             (NoDup_fst_map_to_list coll)
             (fun k v Hin => proj1 (elem_of_map_to_list coll k v) Hin)
             Hrun pid).
  rewrite list_to_map_to_list. simpl.
  destruct (coll !! pid); reflexivity.
Qed.

Lemma teams_delete_200 (user : Req.user) (id : ObjectId) (store : Store) :
  Res.status (snd (teams_delete user id store)) = 200 →
  ∃ team players,
    Teams store !! id = Some team
    ∧ unsetTeamMany id (Players store) = (players, true)
    ∧ fst (teams_delete user id store)
      = {| Users := (fun u => if bool_decide (User.team u = Some id)
                              then User.set_team None u else u)
                      <$> alter (fun u => User.set_managedTeams
                                            (pull id (User.managedTeams u)) u)
                            (Team.coach team) (Users store);
           Teams := delete id (Teams store);
           Players := players;
           Games := Games store |}.
Proof.
  unfold teams_delete, gated.
  destruct (authorize _ user); [| discriminate].
  destruct (Teams store !! id) as [team |]; [| discriminate].
  destruct (notTeamsCoachOrAdmin user team); [discriminate |].
  destruct (unsetTeamMany id (Players store)) as [players flag].
  destruct flag; [| discriminate]. simpl.
  intros _. exists team, players. auto.
Qed.

(** A team delete that succeeded has removed the team and every [team]
    reference to it: the team is gone, no player and no user has it as team,
    no player is deleted and the players of other teams are as before.  Of the
    lists of managed teams, the one of the user who is the coach of the team at
    that moment has lost the id; the list of every other user is as before,
    also when it names the team.  The games are not touched: the games the
    team played stay, with the id of a team that is gone. *)
Theorem teams_delete_cleans (user : Req.user) (id : ObjectId) (store : Store) :
  let r := teams_delete user id store in
  Res.status (snd r) = 200 →
  ∃ team,
    Teams store !! id = Some team
    ∧ Teams (fst r) !! id = None
    ∧ (∀ other, other ≠ id → Teams (fst r) !! other = Teams store !! other)
    ∧ (∀ pid p, Players (fst r) !! pid = Some p → Player.team p ≠ Some id)
    ∧ (∀ pid p, Players store !! pid = Some p →
                ∃ p', Players (fst r) !! pid = Some p'
                      ∧ (Player.team p ≠ Some id → p' = p))
    ∧ (∀ uid u, Users (fst r) !! uid = Some u → User.team u ≠ Some id)
    ∧ (∀ u, Users (fst r) !! Team.coach team = Some u →
            id ∉ User.managedTeams u)
    ∧ (∀ uid u, uid ≠ Team.coach team → Users store !! uid = Some u →
                ∃ u', Users (fst r) !! uid = Some u'
                      ∧ User.managedTeams u' = User.managedTeams u)
    ∧ Games (fst r) = Games store.
Proof.
  intros r H200. subst r.
  destruct (teams_delete_200 user id store H200)
    as (team & players & Ht & Hrun & ->).
  pose proof (unsetTeamMany_done id (Players store) players Hrun) as Hplayers.
  exists team. split; [exact Ht |]. simpl.
  split; [apply lookup_delete_eq |].
  split; [intros other Hne; apply lookup_delete_ne; congruence |].
  split; [| split; [| split; [| split; [| split; [| reflexivity]]]]].
  5:{ intros uid u Hne Hu.
      rewrite lookup_fmap, lookup_alter_ne, Hu by congruence. simpl.
      eexists. split; [reflexivity |].
      destruct (bool_decide _); reflexivity. }
  - intros pid p Hp. rewrite Hplayers in Hp.
    destruct (Players store !! pid) as [p0 |]; [| discriminate].
    simpl in Hp. injection Hp as <-.
    destruct (bool_decide_reflect (Player.team p0 = Some id)) as [_ | Hoff];
      [discriminate | exact Hoff].
  - intros pid p Hp. rewrite Hplayers, Hp. simpl.
    eexists. split; [reflexivity |].
    intros Hoff. rewrite bool_decide_eq_false_2 by exact Hoff. reflexivity.
  - intros uid u Hu. apply lookup_fmap_Some in Hu as (u0 & <- & _).
    destruct (bool_decide_reflect (User.team u0 = Some id)) as [_ | Hoff];
      [discriminate | exact Hoff].
  - intros u Hu. apply lookup_fmap_Some in Hu as (u1 & <- & Hu1).
    rewrite lookup_alter_eq in Hu1.
    destruct (Users store !! Team.coach team) as [u0 |]; [| discriminate].
    injection Hu1 as <-.
    destruct (bool_decide _); simpl; apply pull_not_elem.
Qed.

Lemma teams_delete_cleans_witness :
  let r := teams_delete Fixture.asCoachA Fixture.hawks Fixture.store in
  Teams (fst r) !! Fixture.hawks = None
  ∧ Player.team <$> Players (fst r) !! Fixture.playerP = Some None
  ∧ Games (fst r) !! Fixture.game = Some Fixture.scheduled.
Proof.
  intros r.
  destruct (teams_delete_cleans Fixture.asCoachA Fixture.hawks Fixture.store)
    as (team & _ & Hgone & _ & Hnone & Hkept & _ & _ & _ & Hgames).
  - vm_compute. reflexivity.
  - fold r in Hgone, Hnone, Hkept, Hgames.
    split; [exact Hgone |]. split.
    + destruct (Hkept Fixture.playerP
                  (Fixture.player "Pat" Fixture.userP (Some Fixture.hawks) 7))
        as (p' & Hp' & _); [vm_compute; reflexivity |].
      rewrite Hp'. simpl. f_equal.
      pose proof (Hnone _ _ Hp') as Hne.
      assert (Player.team p' = None ∨ Player.team p' = Some Fixture.hawks)
        as [-> | Hc]; [| reflexivity | contradiction].
      vm_compute in Hp'. injection Hp' as <-. left. reflexivity.
    + rewrite Hgames. vm_compute. reflexivity.
Defined.

(** ** routes/players.js: creating a player *)

Lemma document_validated (now : Z) (body : PlayerBody.t) (d : Player.doc) :
  PlayerBody.document now body = Some d →
  Some (Player.position d) = PlayerBody.position body
  ∧ Some (Player.weight d) = PlayerBody.weight body
  ∧ Some (Player.age d) = PlayerBody.age body
  ∧ Some (Player.name d) = trim <$> PlayerBody.name body
  ∧ Some (Player.height d) = trim <$> PlayerBody.height body.
Proof.
  unfold PlayerBody.document.
  destruct (PlayerBody.name body), (PlayerBody.user body),
    (PlayerBody.team body), (PlayerBody.position body),
    (PlayerBody.jerseyNumber body), (PlayerBody.height body),
    (PlayerBody.weight body), (PlayerBody.age body); simpl; try discriminate.
  intros [= <-]. repeat split; reflexivity.
Qed.

Lemma document_user (now : Z) (body : PlayerBody.t) (d : Player.doc) :
  PlayerBody.document now body = Some d →
  Some (Player.user d) = PlayerBody.user body.
Proof.
  unfold PlayerBody.document.
  destruct (PlayerBody.name body), (PlayerBody.user body),
    (PlayerBody.team body), (PlayerBody.position body),
    (PlayerBody.jerseyNumber body), (PlayerBody.height body),
    (PlayerBody.weight body), (PlayerBody.age body); simpl; try discriminate.
  intros [= <-]. reflexivity.
Qed.

(** The two outcomes of the route: nothing written and no 201, or a 201 after
    every test has passed and the three writes. *)
Lemma players_post_cases (user : Req.user) (body : PlayerBody.t)
  (newId : ObjectId) (now : Z) (store : Store) :
  (fst (players_post user body newId now store) = store
   ∧ Res.status (snd (players_post user body newId now store)) ≠ 201)
  ∨ (∃ userId team d u t,
        PlayerBody.user body = Some userId
        ∧ PlayerBody.team body = Some team
        ∧ PlayerBody.document now body = Some d
        ∧ Users store !! userId = Some u ∧ User.role u = "player"
        ∧ Teams store !! team = Some t
        ∧ findOne (fun p => String.eqb (Player.user p) userId) (Players store)
          = None
        ∧ findOne (Player.sameKey (Player.jerseyNumber d, Some team))
            (Players store) = None
        ∧ Players store !! newId = None
        ∧ Player.validate d = true
        ∧ players_post user body newId now store
          = ({| Users := alter (fun u => User.set_playerProfile (Some newId)
                                           (User.set_team (Some team) u))
                           userId (Users store);
                Teams := alter (fun t => Team.set_players
                                           (addToSet newId (Team.players t)) t)
                           team (Teams store);
                Players := <[newId := d]> (Players store);
                Games := Games store |},
             Res.created
               (playerData
                  {| Users := alter (fun u => User.set_playerProfile (Some newId)
                                                (User.set_team (Some team) u))
                                userId (Users store);
                     Teams := alter (fun t => Team.set_players
                                                (addToSet newId (Team.players t)) t)
                                team (Teams store);
                     Players := <[newId := d]> (Players store);
                     Games := Games store |} newId))).
Proof.
  unfold players_post, gated.
  destruct (authorize _ user); [| left; split; [reflexivity | discriminate]].
  destruct (PlayerBody.validationResult body) as [| e errors];
    destruct (PlayerBody.user body) as [userId |];
    destruct (PlayerBody.team body) as [team |];
    destruct (PlayerBody.document now body) as [d |];
    try (left; split; [reflexivity | discriminate]).
  destruct (Users store !! userId) as [userExists |] eqn:Huser;
    [| left; split; [reflexivity | discriminate]].
  destruct (String.eqb_spec (User.role userExists) "player") as [Hrole |];
    [| left; split; [reflexivity | discriminate]]. simpl.
  destruct (Teams store !! team) as [teamExists |] eqn:Hteam;
    [| left; split; [reflexivity | discriminate]].
  destruct (andb _ _); [left; split; [reflexivity | discriminate] |].
  destruct (findOne _ (Players store)) as [existing |] eqn:Hone;
    [left; split; [reflexivity | discriminate] |].
  destruct (findOne (Player.sameKey _) (Players store)) as [taken |] eqn:Hkey;
    [left; split; [reflexivity | discriminate] |].
  destruct (negb (Player.validate d)) eqn:Hvalid;
    [left; split; [reflexivity | discriminate] |].
  destruct (bool_decide_reflect (is_Some (Players store !! newId))) as [| Hnew];
    [left; split; [reflexivity | discriminate] |].
  destruct (Player.duplicateKey newId d (Players store));
    [left; split; [reflexivity | discriminate] |].
  right. exists userId, team, d, userExists, teamExists. simpl.
  apply negb_false_iff in Hvalid.
  apply eq_None_not_Some in Hnew.
  repeat (split; [first [assumption | reflexivity] |]). reflexivity.
Qed.

(** A creation that succeeded has written the player the body describes,
    under an id that was free: the user, the team, the position, the jersey
    number, the weight and the age are the ones of the body, the name and the
    height are the ones of the body with the white space at their ends
    stripped, and the three numbers are within their bounds.  It has linked
    the player both ways: the user points to the team and to the new profile,
    and the team lists the new player.  The other players are as before. *)
Theorem players_post_created (user : Req.user) (body : PlayerBody.t)
  (newId : ObjectId) (now : Z) (store : Store) :
  let r := players_post user body newId now store in
  Res.status (snd r) = 201 →
  ∃ d userId team,
    Players store !! newId = None
    ∧ Players (fst r) !! newId = Some d
    ∧ PlayerBody.user body = Some userId ∧ Player.user d = userId
    ∧ PlayerBody.team body = Some team ∧ Player.team d = Some team
    ∧ Some (Player.jerseyNumber d) = PlayerBody.jerseyNumber body
    ∧ Some (Player.position d) = PlayerBody.position body
    ∧ Some (Player.weight d) = PlayerBody.weight body
    ∧ Some (Player.age d) = PlayerBody.age body
    ∧ Some (Player.name d) = trim <$> PlayerBody.name body
    ∧ Some (Player.height d) = trim <$> PlayerBody.height body
    ∧ (0 ≤ Player.jerseyNumber d ≤ 99)%Z
    ∧ (100 ≤ Player.weight d ≤ 400)%Z
    ∧ (16 ≤ Player.age d ≤ 50)%Z
    ∧ (∃ u, Users (fst r) !! userId = Some u
            ∧ User.role u = "player"
            ∧ User.team u = Some team ∧ User.playerProfile u = Some newId)
    ∧ (∃ t, Teams (fst r) !! team = Some t ∧ newId ∈ Team.players t)
    ∧ (∀ other, other ≠ newId →
                Players (fst r) !! other = Players store !! other).
Proof.
  intros r H201. subst r.
  destruct (players_post_cases user body newId now store)
    as [[_ Hno] | (userId & team & d & userExists & teamExists & Hu & Ht & Hd
                   & Huser & Hrole & Hteam & _ & _ & Hnew & Hvalid & Hr)];
    [contradiction |].
  rewrite Hr. simpl.
  destruct (document_fields now body d Hd) as [Hdt Hdj].
  pose proof (document_user now body d Hd) as Hdu.
  rewrite Hu in Hdu. injection Hdu as Hdu. rewrite Ht in Hdt.
  exists d, userId, team.
  split; [exact Hnew |]. split; [apply lookup_insert_eq |].
  split; [exact Hu |]. split; [exact Hdu |].
  split; [exact Ht |]. split; [exact Hdt |]. split; [exact Hdj |].
  destruct (document_validated now body d Hd) as (Hpos & Hw & Hage & Hn & Hh).
  split; [exact Hpos |]. split; [exact Hw |]. split; [exact Hage |].
  split; [exact Hn |]. split; [exact Hh |].
  unfold Player.validate in Hvalid.
  repeat (apply andb_prop in Hvalid as [Hvalid ?]).
  split; [lia |]. split; [lia |]. split; [lia |].
  split; [| split].
  - rewrite lookup_alter_eq, Huser. simpl.
    eexists. split; [reflexivity |]. simpl. auto.
  - rewrite lookup_alter_eq, Hteam. simpl.
    eexists. split; [reflexivity |]. simpl. unfold addToSet.
    destruct (bool_decide_reflect (newId ∈ Team.players teamExists));
      [assumption | apply elem_of_app; right; apply list_elem_of_here].
  - intros other Hne. apply lookup_insert_ne. congruence.
Qed.

Lemma players_post_created_witness :
  let r := players_post Fixture.asCoachA (Fixture.newPlayer Fixture.hawks 8)
             "64b0000000000000000000c9" 0 Fixture.store in
  ∃ d, Players (fst r) !! "64b0000000000000000000c9" = Some d
       ∧ Player.team d = Some Fixture.hawks ∧ Player.jerseyNumber d = 8%Z
       ∧ Player.name d = "Quin" ∧ Player.position d = "SG".
Proof.
  intros r.
  destruct (players_post_created Fixture.asCoachA
              (Fixture.newPlayer Fixture.hawks 8) "64b0000000000000000000c9" 0
              Fixture.store)
    as (d & userId & team & _ & Hd & _ & _ & Ht & Hdt & Hj & Hpos & _ & _ & Hn
        & _).
  - vm_compute. reflexivity.
  - exists d. split; [exact Hd |].
    injection Ht as <-. injection Hj as Hj.
    injection Hpos as Hpos. vm_compute in Hn. injection Hn as Hn. auto.
Defined.

(** The route keeps the two uniqueness rules of the players, whatever it
    answers: no two players of a team with the same jersey number, and no two
    profiles of one user. *)
Theorem players_post_keeps_unique (user : Req.user) (body : PlayerBody.t)
  (newId : ObjectId) (now : Z) (store : Store) :
  jerseyUnique (Players store) →
  oneProfilePerUser (Players store) →
  jerseyUnique (Players (fst (players_post user body newId now store)))
  ∧ oneProfilePerUser (Players (fst (players_post user body newId now store))).
Proof.
  intros Hjersey Hprofile.
  destruct (players_post_cases user body newId now store)
    as [[-> _] | (userId & team & d & u & t & Hu & Ht & Hd & _ & _ & _
                  & Hone & Hkey & Hnew & _ & ->)];
    [split; assumption |].
  destruct (document_fields now body d Hd) as [Hdt _].
  pose proof (document_user now body d Hd) as Hdu.
  rewrite Hu in Hdu. injection Hdu as Hdu. rewrite Ht in Hdt. simpl.
  assert (∀ k q, Players store !! k = Some q →
                 Player.indexKey q ≠ Player.indexKey d) as Hfree.
  { intros k q Hq Heq.
    destruct (findOne_is_Some (Player.sameKey (Player.jerseyNumber d, Some team))
                (Players store) k q Hq) as [x Hx].
    - unfold Player.sameKey. apply bool_decide_eq_true. rewrite Heq.
      unfold Player.indexKey. rewrite Hdt. reflexivity.
    - rewrite Hkey in Hx. discriminate. }
  assert (∀ k q, Players store !! k = Some q → Player.user q ≠ Player.user d)
    as Hfresh.
  { intros k q Hq Heq.
    destruct (findOne_is_Some (fun p => String.eqb (Player.user p) userId)
                (Players store) k q Hq) as [x Hx].
    - apply String.eqb_eq. congruence.
    - rewrite Hone in Hx. discriminate. }
  split.
  - intros i j p q Hp Hq Hteam Heq.
    apply lookup_insert_Some in Hp as [[<- <-] | [Hi Hp]];
      apply lookup_insert_Some in Hq as [[<- <-] | [Hj Hq]].
    + reflexivity.
    + exfalso. exact (Hfree j q Hq (eq_sym Heq)).
    + exfalso. exact (Hfree i p Hp Heq).
    + exact (Hjersey i j p q Hp Hq Hteam Heq).
  - intros i j p q Hp Hq Heq.
    apply lookup_insert_Some in Hp as [[<- <-] | [Hi Hp]];
      apply lookup_insert_Some in Hq as [[<- <-] | [Hj Hq]].
    + reflexivity.
    + exfalso. exact (Hfresh j q Hq (eq_sym Heq)).
    + exfalso. exact (Hfresh i p Hp Heq).
    + exact (Hprofile i j p q Hp Hq Heq).
Qed.

Lemma players_post_keeps_unique_witness :
  jerseyUnique
    (Players (fst (players_post Fixture.asCoachA
                     (Fixture.newPlayer Fixture.hawks 8)
                     "64b0000000000000000000c9" 0 Fixture.store))).
Proof.
  assert (Players Fixture.store
          = {[ Fixture.playerP
               := Fixture.player "Pat" Fixture.userP (Some Fixture.hawks) 7 ]})
    as Hps by reflexivity.
  apply (players_post_keeps_unique Fixture.asCoachA
           (Fixture.newPlayer Fixture.hawks 8) "64b0000000000000000000c9" 0
           Fixture.store).
  - intros i j p q Hp Hq _ _. rewrite Hps in Hp, Hq.
    apply lookup_singleton_Some in Hp as [<- _].
    apply lookup_singleton_Some in Hq as [<- _]. reflexivity.
  - intros i j p q Hp Hq _. rewrite Hps in Hp, Hq.
    apply lookup_singleton_Some in Hp as [<- _].
    apply lookup_singleton_Some in Hq as [<- _]. reflexivity.
Defined.

(** ** routes/players.js: a player without a team *)

(** A player whose team reference is null, or names a team that is gone,
    cannot be deleted: the handler reads [player.team._id] of the populated
    team, which is null, and the request of an admin or of any coach is
    answered 500 with nothing written.  The update of such a player by a
    coach is answered 500 as well. *)
Theorem players_without_team {Body : Type}
  (castPlayer : Body → option (Player.doc → Player.doc)) (user : Req.user)
  (id : ObjectId) (store : Store) (player : Player.doc) :
  Req.role user = "admin" ∨ Req.role user = "coach" →
  Players store !! id = Some player →
  Player.team player ≫= (fun t => Teams store !! t) = None →
  players_delete user id store = (store, Res.serverError)
  ∧ (Req.role user = "coach" →
     ∀ body, players_put Body castPlayer user id body store
             = (store, Res.serverError)).
Proof.
  intros Hrole Hp Hteam.
  assert (authorize ["admin"; "coach"] user = true) as Hauth.
  { unfold authorize. destruct Hrole as [-> | ->]; reflexivity. }
  split.
  - unfold players_delete, gated. rewrite Hauth, Hp, Hteam.
    unfold notPlayersCoach.
    destruct (String.eqb (Req.role user) "coach"); [reflexivity |].
    destruct (Player.team player); reflexivity.
  - intros Hcoach body. unfold players_put, gated.
    rewrite Hauth, Hp, Hteam. unfold notPlayersCoach. rewrite Hcoach.
    reflexivity.
Qed.

(** The player of the fixture after the Hawks have been deleted. *)
Lemma players_without_team_witness :
  players_delete Fixture.asAdmin Fixture.playerP
    (fst (teams_delete Fixture.asCoachA Fixture.hawks Fixture.store))
  = (fst (teams_delete Fixture.asCoachA Fixture.hawks Fixture.store),
     Res.serverError).
Proof.
  apply (players_without_team (@Fixture.emptyBody Player.doc) Fixture.asAdmin
           Fixture.playerP
           (fst (teams_delete Fixture.asCoachA Fixture.hawks Fixture.store))
           (Player.set_team None
              (Fixture.player "Pat" Fixture.userP (Some Fixture.hawks) 7))).
  - left. reflexivity.
  - vm_compute. reflexivity.
  - reflexivity.
Defined.

(** So a player taken off a roster can no longer be deleted: after a roster
    removal that succeeded, the delete of that player is answered 500,
    whoever asks, and the player document stays. *)
Theorem roster_remove_then_delete (user deleter : Req.user)
  (id playerId : ObjectId) (store : Store) :
  let r := teams_delete_players user id playerId store in
  Res.status (snd r) = 200 →
  Req.role deleter = "admin" ∨ Req.role deleter = "coach" →
  players_delete deleter playerId (fst r) = (fst r, Res.serverError)
  ∧ is_Some (Players (fst r) !! playerId).
Proof.
  intros r H200 Hrole. subst r.
  destruct (teams_delete_players_200 user id playerId store H200)
    as (team & player & _ & _ & Hr).
  assert (Players (fst (teams_delete_players user id playerId store)) !! playerId
          = Some (Player.set_team None player)) as Hp.
  { rewrite Hr. simpl. apply lookup_insert_eq. }
  split; [| rewrite Hp; eauto].
  unfold players_delete, gated.
  assert (authorize ["admin"; "coach"] deleter = true) as ->.
  { unfold authorize. destruct Hrole as [-> | ->]; reflexivity. }
  rewrite Hp. simpl. unfold notPlayersCoach.
  destruct (String.eqb (Req.role deleter) "coach"); reflexivity.
Qed.

Lemma roster_remove_then_delete_witness :
  is_Some
    (Players (fst (teams_delete_players Fixture.asCoachA Fixture.hawks
                     Fixture.playerP Fixture.store)) !! Fixture.playerP)
  ∧ Res.status
      (snd (players_delete Fixture.asAdmin Fixture.playerP
              (fst (teams_delete_players Fixture.asCoachA Fixture.hawks
                      Fixture.playerP Fixture.store)))) = 500.
Proof.
  destruct (roster_remove_then_delete Fixture.asCoachA Fixture.asAdmin
              Fixture.hawks Fixture.playerP Fixture.store) as [Hdel Hstay].
  - vm_compute. reflexivity.
  - left. reflexivity.
  - split; [exact Hstay |]. rewrite Hdel. reflexivity.
Defined.

(** ** The persisting variant of sockets/gameSockets.js *)

Lemma socket_alterSocket (name name' : string) (sid sid' : SocketId)
  (f : SocketIO.Socket → SocketIO.Socket) (io : SocketIO.Server) :
  SocketIO.socket name' sid' (SocketIO.alterSocket name sid f io)
  = if decide (name = name' ∧ sid = sid')
    then f <$> SocketIO.socket name' sid' io
    else SocketIO.socket name' sid' io.
Proof.
  unfold SocketIO.socket, SocketIO.alterSocket, SocketIO.alterNamespace. simpl.
  rewrite lookup_alter.
  destruct (decide (name = name')) as [-> | Hne].
  - destruct (SocketIO.nsps io !! name') as [n |]; simpl.
    + rewrite lookup_alter.
      destruct (decide (sid = sid')) as [-> | Hne'].
      * rewrite decide_True by done. reflexivity.
      * rewrite decide_False by (intros [_ ?]; done). reflexivity.
    + destruct (decide _); reflexivity.
  - rewrite decide_False by (intros [? _]; done). reflexivity.
Qed.

Lemma client_emit_persisting (name : string) (sid : SocketId)
  (event : ClientEvent) (w : World) (s : SocketIO.Socket) :
  SocketIO.socket name sid (io w) = Some s →
  SocketIO.handlers s = [GameSocketsPersisting] →
  client_emit name sid event w = gameSocketsPersisting name sid event w.
Proof.
  intros Hs Hh. unfold client_emit. rewrite Hs, Hh. reflexivity.
Qed.

Lemma fieldsValid_true (data : UpdateData) :
  (∀ h, ud_homeScore data = Some h → (0 ≤ h)%Z) →
  (∀ a, ud_awayScore data = Some a → (0 ≤ a)%Z) →
  (∀ st, ud_status data = Some st →
         st ∈ ["scheduled"; "in_progress"; "completed"; "cancelled"]) →
  fieldsValid data = true.
Proof.
  intros Hh Ha Hst. unfold fieldsValid, Game.scoreValid, Game.statusValid.
  destruct (ud_homeScore data) as [h |]; simpl;
    [rewrite (proj2 (Z.leb_le 0 h) (Hh h eq_refl)) |];
    (destruct (ud_awayScore data) as [a |]; simpl;
     [rewrite (proj2 (Z.leb_le 0 a) (Ha a eq_refl)) |]);
    (destruct (ud_status data) as [st |]; simpl; [| reflexivity]);
    specialize (Hst st eq_refl);
    repeat (apply elem_of_cons in Hst as [-> | Hst]; [reflexivity |]);
    apply elem_of_nil in Hst; contradiction.
Qed.

(** The persisting handler asks nothing about the socket that emits: whatever
    user the socket carries, and when it carries none, an [updateGame] whose
    fields pass the update validators, for a game that exists, writes the
    fields that are present and leaves the other paths of the game, the other
    games and the other collections as they were; the game read back goes to
    the room of the game. *)
Theorem persisting_update_written (name : string) (sid : SocketId)
  (data : UpdateData) (w : World) (s : SocketIO.Socket) (g : Game.doc) :
  SocketIO.socket name sid (io w) = Some s →
  SocketIO.handlers s = [GameSocketsPersisting] →
  (∀ h, ud_homeScore data = Some h → (0 ≤ h)%Z) →
  (∀ a, ud_awayScore data = Some a → (0 ≤ a)%Z) →
  (∀ st, ud_status data = Some st →
         st ∈ ["scheduled"; "in_progress"; "completed"; "cancelled"]) →
  Games (db w) !! gameId data = Some g →
  let w' := client_emit name sid (updateGame data) w in
  ∃ g',
    Games (db w') !! gameId data = Some g'
    ∧ Game.homeScore g' = default (Game.homeScore g) (ud_homeScore data)
    ∧ Game.awayScore g' = default (Game.awayScore g) (ud_awayScore data)
    ∧ Game.status g' = default (Game.status g) (ud_status data)
    ∧ Game.set_status (Game.status g)
        (Game.set_scores (Game.homeScore g) (Game.awayScore g) g') = g
    ∧ (∀ id', id' ≠ gameId data → Games (db w') !! id' = Games (db w) !! id')
    ∧ Users (db w') = Users (db w)
    ∧ Teams (db w') = Teams (db w)
    ∧ Players (db w') = Players (db w)
    ∧ io w'
      = SocketIO.to_emit (gameId data)
          (gameUpdated
             (Populated (gameId data) g'
                (Team.name <$> Teams (db w) !! Game.homeTeam g)
                (Team.name <$> Teams (db w) !! Game.awayTeam g)))
          (io w).
Proof.
  intros Hs Hh Hhome Haway Hstatus Hg w'. subst w'.
  rewrite (client_emit_persisting _ _ _ _ _ Hs Hh). simpl.
  rewrite (fieldsValid_true data Hhome Haway Hstatus), Hg. simpl.
  exists (updateFields data g).
  split; [apply lookup_insert_eq |].
  unfold updateFields.
  destruct (ud_homeScore data), (ud_awayScore data), (ud_status data);
    destruct g; simpl;
    (repeat (split; [reflexivity |]));
    (split; [intros id' Hne; apply lookup_insert_ne; congruence |]);
    repeat (split; [reflexivity |]); reflexivity.
Qed.

(** A socket that carries no user, on the main namespace, moves the status of
    the game of the fixture. *)
Lemma persisting_update_written_witness :
  let w := {| db := Fixture.store;
              io := {| SocketIO.nsps :=
                         {[ "/" := {| SocketIO.fns := [ProtectSocket];
                                      SocketIO.listeners := [GameSocketsPersisting];
                                      SocketIO.sockets :=
                                        {[ "anyone" :=
                                             {| SocketIO.user := None;
                                                SocketIO.rooms := {[ "anyone" ]};
                                                SocketIO.handlers :=
                                                  [GameSocketsPersisting];
                                                SocketIO.received := [] |} ]} |} ]} |} |} in
  ∃ g', Games (db (client_emit "/" "anyone" (updateGame Fixture.payload) w))
          !! Fixture.game = Some g'
        ∧ Game.homeScore g' = 2%Z ∧ Game.status g' = "in_progress".
Proof.
  intros w.
  destruct (persisting_update_written "/" "anyone" Fixture.payload w
              {| SocketIO.user := None; SocketIO.rooms := {[ "anyone" ]};
                 SocketIO.handlers := [GameSocketsPersisting];
                 SocketIO.received := [] |} Fixture.scheduled)
    as (g' & Hg' & Hh & _ & Hst & _).
  - vm_compute. reflexivity.
  - reflexivity.
  - intros h [= <-]. lia.
  - intros a H. discriminate H.
  - intros st [= <-]. set_solver.
  - vm_compute. reflexivity.
  - exists g'. split; [exact Hg' |]. split; [exact Hh | exact Hst].
Defined.

(** An [updateGame] that the persisting handler refuses changes the store in
    nothing and reaches no one but the sender, who gets one [errorMessage]:
    ["Update failed"] when a field fails its update validator, whether or not
    the game exists, and ["Game not found"] when the fields pass and no game
    is stored under the id, the id being the string form of an ObjectId.  No
    [gameUpdated] is sent. *)
Theorem persisting_update_refused (name : string) (sid : SocketId)
  (data : UpdateData) (w : World) (s : SocketIO.Socket) :
  SocketIO.socket name sid (io w) = Some s →
  SocketIO.handlers s = [GameSocketsPersisting] →
  fieldsValid data = false
  ∨ (isObjectIdString (gameId data) = true
     ∧ Games (db w) !! gameId data = None) →
  let w' := client_emit name sid (updateGame data) w in
  db w' = db w
  ∧ SocketIO.socket name sid (io w')
    = Some (SocketIO.deliver
              (errorMessage (if fieldsValid data then "Game not found"
                             else "Update failed")) s)
  ∧ (∀ name' sid', ¬ (name = name' ∧ sid = sid') →
       SocketIO.socket name' sid' (io w') = SocketIO.socket name' sid' (io w)).
Proof.
  intros Hs Hh Hbad w'. subst w'.
  rewrite (client_emit_persisting _ _ _ _ _ Hs Hh). simpl.
  destruct (fieldsValid data) eqn:Hv; simpl.
  - destruct Hbad as [Hbad | [_ Hnone]]; [discriminate |]. rewrite Hnone. simpl.
    split; [reflexivity |]. unfold SocketIO.emit. split.
    + rewrite socket_alterSocket, decide_True by done. rewrite Hs. reflexivity.
    + intros name' sid' Hne.
      rewrite socket_alterSocket, decide_False by exact Hne. reflexivity.
  - split; [reflexivity |]. unfold SocketIO.emit. split.
    + rewrite socket_alterSocket, decide_True by done. rewrite Hs. reflexivity.
    + intros name' sid' Hne.
      rewrite socket_alterSocket, decide_False by exact Hne. reflexivity.
Qed.

(** On the fixture, with a sender on the main namespace: a negative score
    for the game is refused with ["Update failed"], a score for an id that
    names no game with ["Game not found"], and the store is as before. *)
Lemma persisting_update_refused_witness :
  let s := {| SocketIO.user := None; SocketIO.rooms := {[ "anyone" ]};
              SocketIO.handlers := [GameSocketsPersisting];
              SocketIO.received := [] |} in
  let w := {| db := Fixture.store;
              io := {| SocketIO.nsps :=
                         {[ "/" := {| SocketIO.fns := [ProtectSocket];
                                      SocketIO.listeners := [GameSocketsPersisting];
                                      SocketIO.sockets := {[ "anyone" := s ]} |} ]} |} |} in
  let data := {| gameId := Fixture.game; ud_homeScore := Some (-1)%Z;
                 ud_awayScore := None; ud_status := None; ud_rest := [] |} in
  let data' := {| gameId := "64b0000000000000000000ee";
                  ud_homeScore := Some 2%Z; ud_awayScore := None;
                  ud_status := None; ud_rest := [] |} in
  (db (client_emit "/" "anyone" (updateGame data) w) = Fixture.store
   ∧ SocketIO.socket "/" "anyone"
       (io (client_emit "/" "anyone" (updateGame data) w))
     = Some (SocketIO.deliver (errorMessage "Update failed") s))
  ∧ (db (client_emit "/" "anyone" (updateGame data') w) = Fixture.store
     ∧ SocketIO.socket "/" "anyone"
         (io (client_emit "/" "anyone" (updateGame data') w))
       = Some (SocketIO.deliver (errorMessage "Game not found") s)).
Proof.
  intros s w data data'. split.
  - destruct (persisting_update_refused "/" "anyone" data w s eq_refl eq_refl
                (or_introl eq_refl)) as (Hdb & Hs & _).
    split; [exact Hdb | exact Hs].
  - destruct (persisting_update_refused "/" "anyone" data' w s eq_refl eq_refl
                (or_intror (conj eq_refl eq_refl))) as (Hdb & Hs & _).
    split; [exact Hdb | exact Hs].
Defined.

(** ** models/Team.js: the pre-save hook *)

(** Whatever win percentage a document carries when it is saved is replaced:
    the hook computes it from the two counters only, and running it on its
    own result changes nothing. *)
Theorem pre_save_overrides (this : Team.doc) (p : Number.t) :
  Team.pre_save
    (Team.set_stats {| Team.wins := Team.wins (Team.stats this);
                       Team.losses := Team.losses (Team.stats this);
                       Team.winPercentage := p |} this)
  = Team.pre_save this
  ∧ Team.pre_save (Team.pre_save this) = Team.pre_save this.
Proof.
  unfold Team.pre_save. simpl.
  destruct (Number.gt _ _) eqn:Hgt; simpl; rewrite Hgt;
    split; reflexivity.
Qed.

(** ** The list routes *)

Lemma byName_total {A : Type} (name : A → string) : Total (byName name).
Proof. intros a b. apply String.leb_total. Qed.

Lemma NoDup_fst_filter {A : Type} (f : ObjectId * A → bool)
  (l : list (ObjectId * A)) :
  NoDup l.*1 → NoDup (List.filter f l).*1.
Proof.
  induction l as [| e l IH]; simpl; [intros _; constructor |].
  intros Hnd. apply NoDup_cons in Hnd as [Hnotin Hnd].
  destruct (f e); simpl; [| exact (IH Hnd)].
  apply NoDup_cons. split; [| exact (IH Hnd)].
  intros Hin. apply Hnotin.
  apply list_elem_of_fmap in Hin as (e' & -> & Hin').
  apply list_elem_of_fmap. exists e'. split; [reflexivity |].
  apply list_elem_of_In. apply list_elem_of_In, filter_In in Hin' as [Hin' _].
  exact Hin'.
Qed.

(** [Model.find(filter).sort({ name: 1 })]: the documents that match, each
    once, in ascending order of their names. *)
Lemma sortByName_findMany {A : Type} (name : A → string) (filter : A → bool)
  (coll : gmap ObjectId A) :
  Sorted (byName name) (sortByName name (findMany filter coll))
  ∧ NoDup (sortByName name (findMany filter coll)).*1
  ∧ (∀ id x, (id, x) ∈ sortByName name (findMany filter coll)
             ↔ coll !! id = Some x ∧ filter x = true).
Proof.
  unfold sortByName.
  pose proof (merge_sort_Permutation (byName name) (findMany filter coll)) as Hperm.
  split; [apply (@Sorted_merge_sort _ (byName name) _ (byName_total name)) |].
  split.
  - rewrite Hperm. unfold findMany.
    apply NoDup_fst_filter, NoDup_fst_map_to_list.
  - intros id x. rewrite Hperm. unfold findMany.
    rewrite list_elem_of_In, filter_In, <- list_elem_of_In, elem_of_map_to_list.
    reflexivity.
Qed.

(** [GET /api/teams] answers, when it does not fail, with the teams that are
    coached by the user of the [coach] parameter (every team when the
    parameter is absent or empty) and whose [isActive] flag is the truth of
    [isActive === 'true'] (every team when the parameter is absent): each such
    team once, in ascending order of the names, with [count] their number. *)
Theorem teams_list_lists (castObjectId : string → option ObjectId)
  (coach isActive : option string) (store : Store) (r : ListRes.t) :
  teams_list castObjectId coach isActive store = Some r →
  ∃ c teams,
    idCondition castObjectId coach = Some c
    ∧ ListRes.data r = map (teamView store) teams
    ∧ ListRes.count r = length (ListRes.data r)
    ∧ Sorted (byName Team.name) teams
    ∧ NoDup teams.*1
    ∧ (∀ id t, (id, t) ∈ teams
               ↔ Teams store !! id = Some t
                 ∧ (∀ c', c = Some c' → Team.coach t = c')
                 ∧ (∀ v, isActive = Some v
                         → Team.isActive t = String.eqb v "true")).
Proof.
  unfold teams_list. destruct (idCondition castObjectId coach) as [c |];
    [| discriminate].
  intros [= <-]. simpl.
  destruct (sortByName_findMany Team.name (teams_query c isActive) (Teams store))
    as (Hsorted & Hnd & Hmem).
  exists c, (sortByName Team.name (findMany (teams_query c isActive) (Teams store))).
  split; [reflexivity |]. split; [reflexivity |].
  split; [rewrite length_map; reflexivity |].
  split; [exact Hsorted |]. split; [exact Hnd |].
  intros id t. rewrite Hmem. unfold teams_query.
  rewrite andb_true_iff.
  split.
  - intros (Hl & Hc & Ha). split; [exact Hl |]. split.
    + intros c' ->. simpl in Hc. apply String.eqb_eq in Hc. exact Hc.
    + intros v ->. apply Bool.eqb_prop in Ha. exact Ha.
  - intros (Hl & Hc & Ha). split; [exact Hl |]. split.
    + destruct c as [c' |]; simpl; [| reflexivity].
      apply String.eqb_eq, Hc. reflexivity.
    + destruct isActive as [v |]; [| reflexivity].
      rewrite (Ha v eq_refl). apply Bool.eqb_reflx.
Qed.

(** [GET /api/players] answers, when it does not fail, with the players of
    the team of the [team] parameter and of the position of the [position]
    parameter (no condition for a parameter that is absent or empty), and of
    the [isActive] flag that the parameter names when it is ['true'] or
    ['false']: each such player once, in ascending order of the names. *)
Theorem players_list_lists (castObjectId : string → option ObjectId)
  (team position isActive : option string) (store : Store) (r : ListRes.t) :
  players_list castObjectId team position isActive store = Some r →
  ∃ t players,
    idCondition castObjectId team = Some t
    ∧ ListRes.data r = map (populatePlayer store) players
    ∧ ListRes.count r = length (ListRes.data r)
    ∧ Sorted (byName Player.name) players
    ∧ NoDup players.*1
    ∧ (∀ id p, (id, p) ∈ players
               ↔ Players store !! id = Some p
                 ∧ (∀ t', t = Some t' → Player.team p = Some t')
                 ∧ (truthy position = true
                    → Some (Player.position p) = position)
                 ∧ (isActive = Some "true" → Player.isActive p = true)
                 ∧ (isActive = Some "false" → Player.isActive p = false)).
Proof.
  unfold players_list. destruct (idCondition castObjectId team) as [t |];
    [| discriminate].
  intros [= <-]. simpl.
  destruct (sortByName_findMany Player.name
              (players_query t position isActive) (Players store))
    as (Hsorted & Hnd & Hmem).
  exists t, (sortByName Player.name
               (findMany (players_query t position isActive) (Players store))).
  split; [reflexivity |]. split; [reflexivity |].
  split; [rewrite length_map; reflexivity |].
  split; [exact Hsorted |]. split; [exact Hnd |].
  intros id p. rewrite Hmem. unfold players_query.
  rewrite !andb_true_iff.
  split.
  - intros (Hl & (Ht & Hp) & Ha). split; [exact Hl |]. split; [| split; [| split]].
    + intros t' ->. simpl in Ht. apply bool_decide_eq_true_1 in Ht. exact Ht.
    + intros Htruthy. rewrite Htruthy in Hp.
      apply bool_decide_eq_true_1 in Hp. exact Hp.
    + intros ->. simpl in Ha. apply Bool.eqb_prop in Ha. exact Ha.
    + intros ->. simpl in Ha. apply Bool.eqb_prop in Ha. exact Ha.
  - intros (Hl & Ht & Hp & Htrue & Hfalse). split; [exact Hl |].
    split; [split |].
    + destruct t as [t' |]; simpl; [| reflexivity].
      apply bool_decide_eq_true_2, Ht. reflexivity.
    + destruct (truthy position); [| reflexivity].
      apply bool_decide_eq_true_2, Hp. reflexivity.
    + destruct isActive as [v |]; [| reflexivity].
      destruct (String.eqb v "true") eqn:Hv1; simpl.
      * apply String.eqb_eq in Hv1 as ->. rewrite (Htrue eq_refl). reflexivity.
      * destruct (String.eqb v "false") eqn:Hv2; [| reflexivity].
        apply String.eqb_eq in Hv2 as ->. rewrite (Hfalse eq_refl). reflexivity.
Qed.

(** The two list routes read their [isActive] parameter differently.  On
    [GET /api/teams] every value other than ['true'] asks for the teams that
    are not active, as ['false'] does; on [GET /api/players] every value other
    than ['true'] and ['false'] is dropped, and the answer is the one without
    the parameter. *)
Theorem isActive_other_values (castObjectId : string → option ObjectId)
  (v : string) (coach team position : option string) (store : Store) :
  v ≠ "true" → v ≠ "false" →
  teams_list castObjectId coach (Some v) store
  = teams_list castObjectId coach (Some "false") store
  ∧ players_list castObjectId team position (Some v) store
    = players_list castObjectId team position None store.
Proof.
  intros Htrue Hfalse.
  apply String.eqb_neq in Htrue. apply String.eqb_neq in Hfalse.
  unfold teams_list, players_list, teams_query, players_query.
  rewrite Htrue, Hfalse. simpl. split; reflexivity.
Qed.

(** On the fixture the teams of coach A are the Hawks alone; a parameter that
    is not an ObjectId makes the route fail, so the hypothesis of the theorem
    is a real one. *)
Lemma teams_list_lists_witness :
  let cast := fun s => if Validator.isMongoId s then Some s else None in
  teams_list cast (Some "no id") None Fixture.store = None
  ∧ ∃ r, teams_list cast (Some Fixture.coachA) None Fixture.store = Some r
         ∧ ∃ c teams,
             idCondition cast (Some Fixture.coachA) = Some c
             ∧ ListRes.data r = map (teamView Fixture.store) teams
             ∧ ListRes.count r = length (ListRes.data r)
             ∧ Sorted (byName Team.name) teams
             ∧ NoDup teams.*1
             ∧ (∀ id t, (id, t) ∈ teams
                        ↔ Teams Fixture.store !! id = Some t
                          ∧ (∀ c', c = Some c' → Team.coach t = c')
                          ∧ (∀ v, None = Some v
                                  → Team.isActive t = String.eqb v "true")).
Proof.
  intros cast. split; [vm_compute; reflexivity |].
  destruct (teams_list cast (Some Fixture.coachA) None Fixture.store)
    as [r |] eqn:Hr; [| vm_compute in Hr; discriminate Hr].
  exists r. split; [reflexivity |].
  exact (teams_list_lists cast (Some Fixture.coachA) None Fixture.store r Hr).
Defined.

Lemma players_list_lists_witness :
  let cast := fun s => if Validator.isMongoId s then Some s else None in
  ∃ r, players_list cast (Some Fixture.hawks) (Some "") (Some "true")
         Fixture.store = Some r
       ∧ ∃ t players,
           idCondition cast (Some Fixture.hawks) = Some t
           ∧ ListRes.data r = map (populatePlayer Fixture.store) players
           ∧ ListRes.count r = length (ListRes.data r)
           ∧ Sorted (byName Player.name) players
           ∧ NoDup players.*1
           ∧ (∀ id p, (id, p) ∈ players
                      ↔ Players Fixture.store !! id = Some p
                        ∧ (∀ t', t = Some t' → Player.team p = Some t')
                        ∧ (truthy (Some "") = true
                           → Some (Player.position p) = Some "")
                        ∧ (Some "true" = Some "true" → Player.isActive p = true)
                        ∧ (Some "true" = Some "false"
                           → Player.isActive p = false)).
Proof.
  intros cast.
  destruct (players_list cast (Some Fixture.hawks) (Some "") (Some "true")
              Fixture.store) as [r |] eqn:Hr; [| vm_compute in Hr; discriminate Hr].
  exists r. split; [reflexivity |].
  exact (players_list_lists cast (Some Fixture.hawks) (Some "") (Some "true")
           Fixture.store r Hr).
Defined.

(** [?isActive=0] on the two routes. *)
Lemma isActive_other_values_witness :
  let cast := fun s => if Validator.isMongoId s then Some s else None in
  teams_list cast None (Some "0") Fixture.store
  = teams_list cast None (Some "false") Fixture.store
  ∧ players_list cast None None (Some "0") Fixture.store
    = players_list cast None None None Fixture.store.
Proof.
  intros cast.
  apply (isActive_other_values cast "0" None None None Fixture.store);
    discriminate.
Defined.

(** ** routes/teams.js: the creation of a team *)

Lemma teams_post_cases (castObjectId : string → option ObjectId) (year : Z)
  (user : Req.user) (body : TeamBody.t) (newId : ObjectId) (now : Z)
  (store : Store) :
  (fst (teams_post castObjectId year user body newId now store) = store
   ∧ Res.status (snd (teams_post castObjectId year user body newId now store))
     ≠ 201)
  ∨ (∃ name coachId coach,
        TeamBody.name body = Some name
        ∧ findOne (fun t => String.eqb (Team.name t) (trim name)) (Teams store)
          = None
        ∧ (if String.eqb (Req.role user) "coach" then Some (Req.id user)
           else TeamBody.coach body) ≫= castObjectId = Some coachId
        ∧ Users store !! coachId = Some coach
        ∧ User.role coach = "coach"
        ∧ Teams store !! newId = None
        ∧ Team_validate year (Team_document now name coachId body) = true
        ∧ teams_post castObjectId year user body newId now store
          = ({| Users := alter (fun u => User.set_managedTeams
                                           (addToSet newId (User.managedTeams u)) u)
                           coachId (Users store);
                Teams := <[newId := Team.pre_save
                                      (Team_document now name coachId body)]>
                           (Teams store);
                Players := Players store;
                Games := Games store |},
             Res.created
               (teamData false
                  {| Users := alter (fun u => User.set_managedTeams
                                                (addToSet newId
                                                   (User.managedTeams u)) u)
                                coachId (Users store);
                     Teams := <[newId := Team.pre_save
                                           (Team_document now name coachId body)]>
                                (Teams store);
                     Players := Players store;
                     Games := Games store |} newId))).
Proof.
  unfold teams_post, gated.
  destruct (authorize _ user); [| left; split; [reflexivity | discriminate]].
  destruct (TeamBody.validationResult year body) as [| e errors];
    destruct (TeamBody.name body) as [name |];
    try (left; split; [reflexivity | discriminate]).
  destruct (findOne _ (Teams store)) as [existing |] eqn:Hname;
    [left; split; [reflexivity | discriminate] |].
  destruct (negb (truthy _));
    [left; split; [reflexivity | discriminate] |].
  destruct (_ ≫= castObjectId) as [coachId |] eqn:Hcast;
    [| left; split; [reflexivity | discriminate]].
  destruct (Users store !! coachId) as [coach |] eqn:Hcoach;
    [| left; split; [reflexivity | discriminate]].
  destruct (String.eqb (User.role coach) "coach") eqn:Hrole; simpl;
    [| left; split; [reflexivity | discriminate]].
  apply String.eqb_eq in Hrole.
  destruct (Team_validate year _) eqn:Hvalid; simpl;
    [| left; split; [reflexivity | discriminate]].
  destruct (bool_decide (is_Some (Teams store !! newId))) eqn:Hfresh; simpl;
    [left; split; [reflexivity | discriminate] |].
  destruct (Team.duplicateKey newId _ (Teams store)); simpl;
    [left; split; [reflexivity | discriminate] |].
  right. exists name, coachId, coach.
  apply bool_decide_eq_false_1 in Hfresh.
  apply eq_None_not_Some in Hfresh.
  repeat (split; [first [assumption | reflexivity] |]). reflexivity.
Qed.

(** A team that [POST /api/teams] created (201) is a new document under a new
    id: its name is the trimmed name of the body, it has no player, no game
    played and is active, and its coach is a user with the role coach, who has
    the team among the managed teams afterwards.  When the requester is a
    coach that user is the requester, whatever [coach] the body names.  The
    other teams, the other users, the players and the games are as before. *)
Theorem teams_post_created (castObjectId : string → option ObjectId) (year : Z)
  (user : Req.user) (body : TeamBody.t) (newId : ObjectId) (now : Z)
  (store store' : Store) (r : Res.t) :
  teams_post castObjectId year user body newId now store = (store', r) →
  Res.status r = 201 →
  ∃ name coachId coach t,
    TeamBody.name body = Some name
    ∧ Teams store !! newId = None
    ∧ Teams store' !! newId = Some t
    ∧ Team.name t = trim name
    ∧ Team.coach t = coachId
    ∧ Team.players t = []
    ∧ Team.isActive t = true
    ∧ Team.stats t = {| Team.wins := Number.zero; Team.losses := Number.zero;
                        Team.winPercentage := Number.zero |}
    ∧ Users store !! coachId = Some coach
    ∧ User.role coach = "coach"
    ∧ (Req.role user = "coach" → castObjectId (Req.id user) = Some coachId)
    ∧ Users store' !! coachId
      = Some (User.set_managedTeams (addToSet newId (User.managedTeams coach))
                coach)
    ∧ newId ∈ addToSet newId (User.managedTeams coach)
    ∧ (∀ id, id ≠ newId → Teams store' !! id = Teams store !! id)
    ∧ (∀ id, id ≠ coachId → Users store' !! id = Users store !! id)
    ∧ Players store' = Players store
    ∧ Games store' = Games store
    ∧ Res.data r
      = Res.TeamData newId t (Some (User.name coach, User.email coach)) [].
Proof.
  intros Hpost Hstatus.
  destruct (teams_post_cases castObjectId year user body newId now store)
    as [[_ Hne] | (name & coachId & coach & Hname & _ & Hcast & Hcoach & Hrole
                   & Hfresh & _ & Heq)].
  { rewrite Hpost in Hne. contradiction. }
  rewrite Hpost in Heq. injection Heq as -> ->.
  exists name, coachId, coach,
    (Team.pre_save (Team_document now name coachId body)).
  cbn [Teams Users Players Games Res.data Res.created].
  split; [exact Hname |]. split; [exact Hfresh |].
  split; [apply lookup_insert_eq |].
  do 5 (split; [reflexivity |]).
  split; [exact Hcoach |]. split; [exact Hrole |].
  split.
  { intros Hr. rewrite Hr in Hcast. exact Hcast. }
  split.
  { rewrite lookup_alter_eq, Hcoach. reflexivity. }
  split.
  { unfold addToSet. destruct (bool_decide _) eqn:Hin.
    - apply bool_decide_eq_true_1 in Hin. exact Hin.
    - apply elem_of_app. right. apply list_elem_of_here. }
  split.
  { intros id Hne. apply lookup_insert_ne. congruence. }
  split.
  { intros id Hne. apply lookup_alter_ne. congruence. }
  do 2 (split; [reflexivity |]).
  unfold teamData. cbn [Teams Users Players].
  rewrite lookup_insert_eq. unfold populateUser. cbn [Users].
  replace (Team.coach (Team.pre_save (Team_document now name coachId body)))
    with coachId by reflexivity.
  rewrite lookup_alter_eq, Hcoach. reflexivity.
Qed.

(** [POST /api/teams] keeps the names of the teams distinct: whatever the
    request and its answer, no two teams have the same name afterwards when
    none had before. *)
Theorem teams_post_keeps_names_unique (castObjectId : string → option ObjectId)
  (year : Z) (user : Req.user) (body : TeamBody.t) (newId : ObjectId) (now : Z)
  (store : Store) :
  nameUnique (Teams store) →
  nameUnique
    (Teams (fst (teams_post castObjectId year user body newId now store))).
Proof.
  intros Huniq.
  destruct (teams_post_cases castObjectId year user body newId now store)
    as [[-> _] | (name & coachId & coach & _ & Hnone & _ & _ & _ & Hfresh & _
                  & ->)]; [exact Huniq |].
  cbn [fst Teams].
  assert (∀ id t, Teams store !! id = Some t → Team.name t ≠ trim name) as Hfree.
  { intros id t Hl Heq.
    destruct (findOne_is_Some (fun t => String.eqb (Team.name t) (trim name))
                (Teams store) id t Hl) as [e He].
    - apply String.eqb_eq. exact Heq.
    - rewrite Hnone in He. discriminate. }
  intros i j s t Hi Hj Hst.
  apply lookup_insert_Some in Hi as [[<- <-] | [Hni Hi]];
    apply lookup_insert_Some in Hj as [[<- <-] | [Hnj Hj]].
  - reflexivity.
  - exfalso. apply (Hfree j t Hj). symmetry. exact Hst.
  - exfalso. apply (Hfree i s Hi). exact Hst.
  - exact (Huniq i j s t Hi Hj Hst).
Qed.

(** A name that is taken is refused before anything else is looked at: when a
    team has the name of the body, trimmed as the setter of the path trims it,
    an admin or a coach gets the 400 ["Team name already exists"] and the
    store is as before. *)
Theorem teams_post_name_taken (castObjectId : string → option ObjectId)
  (year : Z) (user : Req.user) (body : TeamBody.t) (newId : ObjectId) (now : Z)
  (store : Store) (name : string) (id : ObjectId) (t : Team.doc) :
  Req.role user = "admin" ∨ Req.role user = "coach" →
  TeamBody.validationResult year body = [] →
  TeamBody.name body = Some name →
  Teams store !! id = Some t →
  Team.name t = trim name →
  teams_post castObjectId year user body newId now store
  = (store, Res.fail 400 "Team name already exists").
Proof.
  intros Hrole Hvalid Hname Ht Heq.
  unfold teams_post, gated.
  replace (authorize ["admin"; "coach"] user) with true
    by (unfold authorize; destruct Hrole as [-> | ->]; reflexivity).
  rewrite Hvalid, Hname.
  destruct (findOne_is_Some (fun t => String.eqb (Team.name t) (trim name))
              (Teams store) id t Ht) as [e ->]; [| reflexivity].
  apply String.eqb_eq. exact Heq.
Qed.

(** Coach A asks for a team named ["  Comets "] to be coached by coach B: the
    team is created as ["Comets"], coached by coach A. *)
Lemma teams_post_created_witness :
  let cast := fun s => if Validator.isMongoId s then Some s else None in
  let body := {| TeamBody.name := Some "  Comets ";
                 TeamBody.description := None;
                 TeamBody.foundedYear := Some 1999%Z;
                 TeamBody.homeVenue := None; TeamBody.primary := None;
                 TeamBody.secondary := None; TeamBody.logo := None;
                 TeamBody.coach := Some Fixture.coachB |} in
  let result := teams_post cast 2025 Fixture.asCoachA body
                  "64b0000000000000000000b9" 0 Fixture.store in
  ∃ coach t,
    Teams (fst result) !! "64b0000000000000000000b9" = Some t
    ∧ Team.name t = "Comets"
    ∧ Team.coach t = Fixture.coachA
    ∧ Users (fst result) !! Fixture.coachA
      = Some (User.set_managedTeams
                (addToSet "64b0000000000000000000b9" (User.managedTeams coach))
                coach).
Proof.
  intros cast body result.
  destruct (teams_post_created cast 2025 Fixture.asCoachA body
              "64b0000000000000000000b9" 0 Fixture.store (fst result)
              (snd result))
    as (name & coachId & coach & t & Hname & _ & Ht & Hn & Hc & _ & _ & _ & _
        & _ & Hself & Hu & _).
  - apply surjective_pairing.
  - vm_compute. reflexivity.
  - injection Hname as <-.
    specialize (Hself eq_refl). injection Hself as <-.
    exists coach, t. split; [exact Ht |]. split; [exact Hn |].
    split; [exact Hc | exact Hu].
Defined.

Lemma nameUnique_fixture : nameUnique (Teams Fixture.store).
Proof.
  assert (Teams Fixture.store
          = <[ Fixture.hawks := Fixture.team "Hawks" Fixture.coachA
                                  [Fixture.playerP] 3 1 ]>
              {[ Fixture.owls := Fixture.team "Owls" Fixture.coachB [] 0 0 ]})
    as Hts by reflexivity.
  intros i j s t Hi Hj Hst. rewrite Hts in Hi, Hj.
  apply lookup_insert_Some in Hi as [[<- <-] | [_ Hi]];
    apply lookup_insert_Some in Hj as [[<- <-] | [_ Hj]];
    try apply lookup_singleton_Some in Hi as [<- <-];
    try apply lookup_singleton_Some in Hj as [<- <-];
    first [reflexivity | discriminate Hst].
Qed.

Lemma teams_post_keeps_names_unique_witness :
  nameUnique
    (Teams (fst (teams_post
                   (fun s => if Validator.isMongoId s then Some s else None)
                   2025 Fixture.asCoachC
                   {| TeamBody.name := Some "Comets";
                      TeamBody.description := None;
                      TeamBody.foundedYear := None;
                      TeamBody.homeVenue := None; TeamBody.primary := None;
                      TeamBody.secondary := None; TeamBody.logo := None;
                      TeamBody.coach := None |}
                   "64b0000000000000000000b9" 0 Fixture.store))).
Proof.
  apply (teams_post_keeps_names_unique
           (fun s => if Validator.isMongoId s then Some s else None)).
  exact nameUnique_fixture.
Defined.

(** ["Hawks"] between a no-break space (the bytes 194 and 160) and a space
    is taken when the Hawks exist. *)
Lemma teams_post_name_taken_witness :
  teams_post (fun s => if Validator.isMongoId s then Some s else None)
    2025 Fixture.asCoachC
    {| TeamBody.name :=
         Some (String (ascii_of_nat 194) (String (ascii_of_nat 160) "Hawks "));
       TeamBody.description := None;
       TeamBody.foundedYear := None; TeamBody.homeVenue := None;
       TeamBody.primary := None; TeamBody.secondary := None;
       TeamBody.logo := None; TeamBody.coach := None |}
    "64b0000000000000000000b9" 0 Fixture.store
  = (Fixture.store, Res.fail 400 "Team name already exists").
Proof.
  apply (teams_post_name_taken _ 2025 Fixture.asCoachC _ _ 0 Fixture.store
           (String (ascii_of_nat 194) (String (ascii_of_nat 160) "Hawks "))
           Fixture.hawks
           (Fixture.team "Hawks" Fixture.coachA [Fixture.playerP] 3 1)).
  - right. reflexivity.
  - reflexivity.
  - reflexivity.
  - reflexivity.
  - reflexivity.
Defined.

(** ** middleware/socketAuth.js behind [io.use]: the gate of the main namespace *)

Lemma connect_main_eq (jwt_verify : string → option ObjectId) (w : World)
  (n : SocketIO.Namespace) (sid : SocketId) (handshake : Handshake) :
  SocketIO.nsps (io w) !! "/" = Some n →
  SocketIO.fns n = [ProtectSocket] →
  connect jwt_verify "/" sid handshake w
  = match protectSocket jwt_verify (db w) handshake (SocketIO.newSocket sid) with
    | inl message => (w, ConnectError message)
    | inr s =>
        (with_io
           (SocketIO.alterNamespace "/"
              (fun n0 => {| SocketIO.fns := SocketIO.fns n0;
                            SocketIO.listeners := SocketIO.listeners n0;
                            SocketIO.sockets :=
                              <[sid := {| SocketIO.user := SocketIO.user s;
                                          SocketIO.rooms := SocketIO.rooms s;
                                          SocketIO.handlers := SocketIO.listeners n;
                                          SocketIO.received := SocketIO.received s |}]>
                                (SocketIO.sockets n0) |})
              (io w)) w,
         Connected)
    end.
Proof.
  intros Hn Hf. unfold connect. rewrite Hn, Hf. simpl.
  destruct (protectSocket _ _ _ _); reflexivity.
Qed.

Lemma connect_main_socket (jwt_verify : string → option ObjectId) (w : World)
  (n : SocketIO.Namespace) (sid : SocketId) (token : string) (id : ObjectId)
  (u : User.doc) :
  SocketIO.nsps (io w) !! "/" = Some n →
  SocketIO.fns n = [ProtectSocket] →
  token ≠ "" → jwt_verify token = Some id → Users (db w) !! id = Some u →
  let r := connect jwt_verify "/" sid {| auth_token := Some token |} w in
  snd r = Connected
  ∧ db (fst r) = db w
  ∧ SocketIO.socket "/" sid (io (fst r))
    = Some {| SocketIO.user := Some {| su_id := id; su_role := User.role u;
                                       su_name := User.name u |};
              SocketIO.rooms := {[ sid ]};
              SocketIO.handlers := SocketIO.listeners n;
              SocketIO.received := [] |}.
Proof.
  intros Hn Hf Hne Hv Hu r. subst r.
  rewrite (connect_main_eq jwt_verify w n sid _ Hn Hf).
  unfold protectSocket. cbn [auth_token].
  apply String.eqb_neq in Hne. rewrite Hne, Hv, Hu.
  cbn [fst snd db io with_io].
  split; [reflexivity |]. split; [reflexivity |].
  unfold SocketIO.socket. rewrite nsps_alterNamespace, decide_True by reflexivity.
  rewrite Hn. simpl. rewrite lookup_insert_eq. reflexivity.
Qed.

(** Where [protectSocket] is the middleware of the main namespace, a client
    gets a socket there exactly when its handshake carries a token that is
    not empty, that verifies, and whose user is in the store; the socket then
    carries the role and the name of that user, and is in no room but its
    own.  A handshake that is refused leaves the process as it was. *)
Theorem main_namespace_connect (jwt_verify : string → option ObjectId)
  (w : World) (n : SocketIO.Namespace) (sid : SocketId) (handshake : Handshake) :
  SocketIO.nsps (io w) !! "/" = Some n →
  SocketIO.fns n = [ProtectSocket] →
  let r := connect jwt_verify "/" sid handshake w in
  (snd r = Connected
   ↔ ∃ token id u, auth_token handshake = Some token ∧ token ≠ ""
                   ∧ jwt_verify token = Some id ∧ Users (db w) !! id = Some u)
  ∧ (snd r ≠ Connected → fst r = w)
  ∧ (∀ token id u,
       auth_token handshake = Some token → token ≠ "" →
       jwt_verify token = Some id → Users (db w) !! id = Some u →
       db (fst r) = db w
       ∧ SocketIO.socket "/" sid (io (fst r))
         = Some {| SocketIO.user := Some {| su_id := id; su_role := User.role u;
                                            su_name := User.name u |};
                   SocketIO.rooms := {[ sid ]};
                   SocketIO.handlers := SocketIO.listeners n;
                   SocketIO.received := [] |}).
Proof.
  intros Hn Hf r. split; [| split].
  - subst r. split.
    + rewrite (connect_main_eq jwt_verify w n sid handshake Hn Hf).
      unfold protectSocket.
      destruct (auth_token handshake) as [token |]; [| discriminate].
      destruct (String.eqb_spec token "") as [-> | Hne]; [discriminate |].
      destruct (jwt_verify token) as [id |] eqn:Hv; [| discriminate].
      destruct (Users (db w) !! id) as [u |] eqn:Hu; [| discriminate].
      intros _. exists token, id, u. auto.
    + intros (token & id & u & Ht & Hne & Hv & Hu).
      destruct handshake as [t]. simpl in Ht. subst t.
      exact (proj1 (connect_main_socket jwt_verify w n sid token id u
                      Hn Hf Hne Hv Hu)).
  - subst r. rewrite (connect_main_eq jwt_verify w n sid handshake Hn Hf).
    destruct (protectSocket _ _ _ _); simpl; [reflexivity | congruence].
  - intros token id u Ht Hne Hv Hu.
    destruct handshake as [t]. simpl in Ht. subst t.
    exact (proj2 (connect_main_socket jwt_verify w n sid token id u
                    Hn Hf Hne Hv Hu)).
Qed.

(** On the process as server.js starts it: coach A gets a socket on the main
    namespace, and a handshake without a token gets none. *)
Lemma main_namespace_connect_witness :
  SocketIO.socket "/" "bench"
    (io (fst (connect Fixture.jwt_verify "/" "bench"
                {| auth_token := Some "jwt:64b0000000000000000000a1" |}
                Fixture.world)))
  = Some {| SocketIO.user := Some {| su_id := Fixture.coachA;
                                     su_role := "coach"; su_name := "Ann" |};
            SocketIO.rooms := {[ "bench" ]}; SocketIO.handlers := [];
            SocketIO.received := [] |}.
Proof.
  destruct (main_namespace_connect Fixture.jwt_verify Fixture.world _ "bench"
              {| auth_token := Some "jwt:64b0000000000000000000a1" |}
              server_main_namespace eq_refl) as (_ & _ & Hs).
  exact (proj2 (Hs "jwt:64b0000000000000000000a1" Fixture.coachA
                  (Fixture.user "Ann" "coach" None None [Fixture.hawks])
                  eq_refl ltac:(discriminate) eq_refl eq_refl)).
Defined.

(** ** server.js with the persisting variant of sockets/gameSockets.js *)

Lemma server_persisting_namespace :
  SocketIO.nsps (server initGameSocketsPersisting) !! "/"
  = Some {| SocketIO.fns := [ProtectSocket];
            SocketIO.listeners := [GameSocketsPersisting];
            SocketIO.sockets := ∅ |}.
Proof. vm_compute. reflexivity. Qed.

(** With the persisting variant every user who passes the gate can write a
    score, whatever the role: a user of the store connects with a token that
    verifies and emits an [updateGame] whose fields pass the update validators
    for a game that exists, and the game is written with the fields of the
    event.  The handler has no test of the role, though its comment reserves
    the updates to admins and coaches. *)
Theorem persisting_any_user_pushes (jwt_verify : string → option ObjectId)
  (store : Store) (token : string) (id : ObjectId) (u : User.doc)
  (sid : SocketId) (data : UpdateData) (g : Game.doc) :
  token ≠ "" → jwt_verify token = Some id → Users store !! id = Some u →
  fieldsValid data = true →
  Games store !! gameId data = Some g →
  let w0 := {| db := store; io := server initGameSocketsPersisting |} in
  let c := connect jwt_verify "/" sid {| auth_token := Some token |} w0 in
  let w2 := client_emit "/" sid (updateGame data) (fst c) in
  snd c = Connected
  ∧ SocketIO.user <$> SocketIO.socket "/" sid (io (fst c))
    = Some (Some {| su_id := id; su_role := User.role u;
                    su_name := User.name u |})
  ∧ db w2 = with_Games (<[gameId data := updateFields data g]> (Games store))
              store.
Proof.
  intros Hne Hv Hu Hvalid Hg w0 c w2.
  destruct (connect_main_socket jwt_verify w0 _ sid token id u
              server_persisting_namespace eq_refl Hne Hv Hu)
    as (Hc & Hdb & Hs).
  fold c in Hc, Hdb, Hs. cbn [db w0] in Hdb.
  split; [exact Hc |]. split; [rewrite Hs; reflexivity |].
  subst w2. rewrite (client_emit_persisting _ _ _ _ _ Hs eq_refl).
  cbn [gameSocketsPersisting]. rewrite Hvalid, Hdb, Hg. reflexivity.
Qed.

(** Pat, a player, moves the status and the home score of the game. *)
Lemma persisting_any_user_pushes_witness :
  db (client_emit "/" "couch" (updateGame Fixture.payload)
        (fst (connect Fixture.jwt_verify "/" "couch"
                {| auth_token := Some "jwt:64b0000000000000000000a4" |}
                Fixture.worldPersisting)))
  = with_Games (<[Fixture.game := updateFields Fixture.payload Fixture.scheduled]>
                  (Games Fixture.store)) Fixture.store.
Proof.
  exact (proj2 (proj2 (persisting_any_user_pushes Fixture.jwt_verify
                         Fixture.store "jwt:64b0000000000000000000a4"
                         Fixture.userP
                         (Fixture.user "Pat" "player" (Some Fixture.hawks)
                            (Some Fixture.playerP) [])
                         "couch" Fixture.payload Fixture.scheduled
                         ltac:(discriminate) eq_refl eq_refl eq_refl eq_refl))).
Defined.

(** ** The unique indexes under the routes that update *)

Lemma Player_duplicateKey_true (id other : ObjectId) (p q : Player.doc)
  (coll : gmap ObjectId Player.doc) :
  coll !! other = Some q → other ≠ id →
  Player.indexKey q = Player.indexKey p →
  Player.duplicateKey id p coll = true.
Proof.
  intros Hq Hne Hkey. unfold Player.duplicateKey.
  apply existsb_exists. exists (other, q). split.
  - apply list_elem_of_In, elem_of_map_to_list. exact Hq.
  - simpl. apply andb_true_iff. split.
    + apply negb_true_iff, String.eqb_neq. exact Hne.
    + apply bool_decide_eq_true_2. exact Hkey.
Qed.

Lemma Player_duplicateKey_false (id : ObjectId) (p : Player.doc)
  (coll : gmap ObjectId Player.doc) :
  Player.duplicateKey id p coll = false →
  ∀ other q, coll !! other = Some q → other ≠ id →
             Player.indexKey q ≠ Player.indexKey p.
Proof.
  intros Hdup other q Hq Hne Hkey.
  rewrite (Player_duplicateKey_true id other p q coll Hq Hne Hkey) in Hdup.
  discriminate.
Qed.

Lemma Team_duplicateKey_false (id : ObjectId) (t : Team.doc)
  (coll : gmap ObjectId Team.doc) :
  Team.duplicateKey id t coll = false →
  ∀ other s, coll !! other = Some s → other ≠ id → Team.name s ≠ Team.name t.
Proof.
  intros Hdup other s Hs Hne Hname.
  enough (Team.duplicateKey id t coll = true) as Habs
      by (rewrite Habs in Hdup; discriminate).
  unfold Team.duplicateKey. apply existsb_exists. exists (other, s). split.
  - apply list_elem_of_In, elem_of_map_to_list. exact Hs.
  - simpl. apply andb_true_iff. split.
    + apply negb_true_iff, String.eqb_neq. exact Hne.
    + apply String.eqb_eq. exact Hname.
Qed.

(** A roster removal can stop half way.  When a player without a team
    already wears the jersey number of the player to remove, the write that
    clears the team of the player is refused by the unique index on (jersey
    number, team): the route answers 500, the team's list has lost the player
    all the same, and the player and the user still point to the team. *)
Theorem roster_remove_half_done (user : Req.user) (id playerId other : ObjectId)
  (store : Store) (team : Team.doc) (player q : Player.doc) :
  Req.role user = "admin"
  ∨ (Req.role user = "coach" ∧ Team.coach team = Req.id user) →
  Teams store !! id = Some team →
  Players store !! playerId = Some player →
  Players store !! other = Some q →
  other ≠ playerId →
  Player.team q = None →
  Player.jerseyNumber q = Player.jerseyNumber player →
  let r := teams_delete_players user id playerId store in
  snd r = Res.serverError
  ∧ Teams (fst r) !! id
    = Some (Team.set_players (pull playerId (Team.players team)) team)
  ∧ (playerId ∉ pull playerId (Team.players team))
  ∧ Players (fst r) = Players store
  ∧ Users (fst r) = Users store.
Proof.
  intros Hrole Ht Hp Hq Hne Hteam Hjersey r. subst r.
  unfold teams_delete_players, gated.
  replace (authorize ["admin"; "coach"] user) with true
    by (unfold authorize; destruct Hrole as [-> | [-> _]]; reflexivity).
  rewrite Ht.
  replace (notTeamsCoachOrAdmin user team) with false.
  2:{ unfold notTeamsCoachOrAdmin.
      destruct Hrole as [-> | [-> ->]]; simpl; [reflexivity |].
      rewrite String.eqb_refl. reflexivity. }
  rewrite Hp. cbn [Players with_Teams].
  rewrite (Player_duplicateKey_true playerId other
             (Player.set_team None player) q (Players store) Hq Hne).
  2:{ unfold Player.indexKey. simpl. rewrite Hteam, Hjersey. reflexivity. }
  simpl.
  split; [reflexivity |].
  split; [rewrite lookup_alter_eq, Ht; reflexivity |].
  split; [apply pull_not_elem |].
  split; reflexivity.
Qed.

(** Pat, number 7 of the Hawks, cannot leave them while a player without a
    team wears the 7. *)
Lemma roster_remove_half_done_witness :
  let store := with_Players
                 (<["64b0000000000000000000c8"
                    := Fixture.player "Sam" Fixture.userQ None 7]>
                    (Players Fixture.store)) Fixture.store in
  let r := teams_delete_players Fixture.asCoachA Fixture.hawks Fixture.playerP
             store in
  snd r = Res.serverError
  ∧ Team.players <$> Teams (fst r) !! Fixture.hawks = Some []
  ∧ Player.team <$> Players (fst r) !! Fixture.playerP
    = Some (Some Fixture.hawks).
Proof.
  intros store r.
  destruct (roster_remove_half_done Fixture.asCoachA Fixture.hawks
              Fixture.playerP "64b0000000000000000000c8" store
              (Fixture.team "Hawks" Fixture.coachA [Fixture.playerP] 3 1)
              (Fixture.player "Pat" Fixture.userP (Some Fixture.hawks) 7)
              (Fixture.player "Sam" Fixture.userQ None 7))
    as (H500 & Ht & _ & Hp & _).
  - right. split; reflexivity.
  - vm_compute. reflexivity.
  - vm_compute. reflexivity.
  - vm_compute. reflexivity.
  - discriminate.
  - reflexivity.
  - reflexivity.
  - fold r in H500, Ht, Hp.
    split; [exact H500 |]. split.
    + rewrite Ht. vm_compute. reflexivity.
    + rewrite Hp. vm_compute. reflexivity.
Defined.

Lemma Team_duplicateKey_true (id other : ObjectId) (t s : Team.doc)
  (coll : gmap ObjectId Team.doc) :
  coll !! other = Some s → other ≠ id → Team.name s = Team.name t →
  Team.duplicateKey id t coll = true.
Proof.
  intros Hs Hne Hname.
  destruct (Team.duplicateKey id t coll) eqn:Hdup; [reflexivity |].
  exfalso. exact (Team_duplicateKey_false id t coll Hdup other s Hs Hne Hname).
Qed.

(** [PUT /api/teams/:id] cannot give two teams one name.  An update by the
    coach of the team or by an admin that would give the team the name of
    another team is refused by the unique index on the name: the answer is 500
    and nothing is written.  So, whatever the body and the answer, the names
    of the teams are distinct after the request when they were before. *)
Theorem teams_put_keeps_names_unique {Body : Type}
  (castTeam : Body → option (Team.doc → Team.doc)) (user : Req.user)
  (id : ObjectId) (body : Body) (store : Store) :
  (∀ team update other taken,
      Req.role user = "admin"
      ∨ (Req.role user = "coach" ∧ Team.coach team = Req.id user) →
      Teams store !! id = Some team →
      castTeam body = Some update →
      Teams store !! other = Some taken → other ≠ id →
      Team.name (update team) = Team.name taken →
      teams_put Body castTeam user id body store = (store, Res.serverError))
  ∧ (nameUnique (Teams store) →
     nameUnique (Teams (fst (teams_put Body castTeam user id body store)))).
Proof.
  split.
  - intros team update other taken Hrole Ht Hcast Hother Hne Hname.
    unfold teams_put, gated.
    replace (authorize ["admin"; "coach"] user) with true
      by (unfold authorize; destruct Hrole as [-> | [-> _]]; reflexivity).
    rewrite Ht.
    replace (notTeamsCoachOrAdmin user team) with false.
    2:{ unfold notTeamsCoachOrAdmin.
        destruct Hrole as [-> | [-> ->]]; simpl; [reflexivity |].
        rewrite String.eqb_refl. reflexivity. }
    rewrite Hcast.
    rewrite (Team_duplicateKey_true id other (update team) taken (Teams store)
               Hother Hne (eq_sym Hname)).
    reflexivity.
  - intros Huniq. unfold teams_put, gated.
    destruct (authorize _ user); [| exact Huniq].
    destruct (Teams store !! id) as [team |] eqn:Ht; [| exact Huniq].
    destruct (notTeamsCoachOrAdmin user team); [exact Huniq |].
    destruct (castTeam body) as [update |]; [| exact Huniq].
    destruct (Team.duplicateKey id (update team) (Teams store)) eqn:Hdup;
      [exact Huniq |].
    pose proof (Team_duplicateKey_false id (update team) (Teams store) Hdup)
      as Hfree.
    cbn [fst Teams with_Teams].
    intros i j s t Hi Hj Hst.
    apply lookup_insert_Some in Hi as [[<- <-] | [Hni Hi]];
      apply lookup_insert_Some in Hj as [[<- <-] | [Hnj Hj]].
    + reflexivity.
    + exfalso. apply (Hfree j t Hj); [congruence |]. symmetry. exact Hst.
    + exfalso. apply (Hfree i s Hi); [congruence |]. exact Hst.
    + exact (Huniq i j s t Hi Hj Hst).
Qed.

(** Coach A asks for the Hawks to be named ["Owls "]: the answer is 500, and
    the Hawks are the Hawks. *)
Lemma teams_put_keeps_names_unique_witness :
  teams_put string Fixture.nameBody Fixture.asCoachA Fixture.hawks "Owls "
    Fixture.store
  = (Fixture.store, Res.serverError)
  ∧ nameUnique
      (Teams (fst (teams_put string Fixture.nameBody Fixture.asCoachA
                     Fixture.hawks "Owls " Fixture.store))).
Proof.
  destruct (teams_put_keeps_names_unique Fixture.nameBody Fixture.asCoachA
              Fixture.hawks "Owls " Fixture.store) as [Hrefused Hkept].
  split.
  - eapply (Hrefused (Fixture.team "Hawks" Fixture.coachA [Fixture.playerP] 3 1)
              _ Fixture.owls (Fixture.team "Owls" Fixture.coachB [] 0 0)).
    + right. split; reflexivity.
    + reflexivity.
    + vm_compute. reflexivity.
    + reflexivity.
    + discriminate.
    + reflexivity.
  - apply Hkept. exact nameUnique_fixture.
Defined.

(** [PUT /api/players/:id] cannot give two players of a team one jersey
    number.  An update, by an admin or by the coach of the player's team, that
    would give the player the number and the team of another player is refused
    by the unique index on the two paths: the answer is 500 and nothing is
    written.  So, whatever the body and the answer, the jersey numbers of each
    team are distinct after the request when they were before. *)
Theorem players_put_keeps_jersey_unique {Body : Type}
  (castPlayer : Body → option (Player.doc → Player.doc)) (user : Req.user)
  (id : ObjectId) (body : Body) (store : Store) :
  (∀ player teamId team update other taken,
      Players store !! id = Some player →
      Player.team player = Some teamId →
      Teams store !! teamId = Some team →
      Req.role user = "admin"
      ∨ (Req.role user = "coach" ∧ Team.coach team = Req.id user) →
      castPlayer body = Some update →
      Players store !! other = Some taken → other ≠ id →
      Player.indexKey (update player) = Player.indexKey taken →
      players_put Body castPlayer user id body store
      = (store, Res.serverError))
  ∧ (jerseyUnique (Players store) →
     jerseyUnique
       (Players (fst (players_put Body castPlayer user id body store)))).
Proof.
  split.
  - intros player teamId team update other taken Hp Hpt Ht Hrole Hcast Hother
      Hne Hkey.
    unfold players_put, gated.
    replace (authorize ["admin"; "coach"] user) with true
      by (unfold authorize; destruct Hrole as [-> | [-> _]]; reflexivity).
    rewrite Hp, Hpt. simpl. rewrite Ht.
    replace (notPlayersCoach user (Some team)) with (Some false).
    2:{ unfold notPlayersCoach.
        destruct Hrole as [-> | [-> ->]]; simpl; [reflexivity |].
        rewrite String.eqb_refl. reflexivity. }
    rewrite Hcast.
    rewrite (Player_duplicateKey_true id other (update player) taken
               (Players store) Hother Hne (eq_sym Hkey)).
    reflexivity.
  - intros Huniq. unfold players_put, gated.
    destruct (authorize _ user); [| exact Huniq].
    destruct (Players store !! id) as [player |] eqn:Hp; [| exact Huniq].
    destruct (notPlayersCoach user _) as [[|] |]; try exact Huniq.
    destruct (castPlayer body) as [update |]; [| exact Huniq].
    destruct (Player.duplicateKey id (update player) (Players store)) eqn:Hdup;
      [exact Huniq |].
    pose proof (Player_duplicateKey_false id (update player) (Players store)
                  Hdup) as Hfree.
    cbn [fst Players with_Players].
    intros i j p q Hi Hj Hteam Hkey.
    apply lookup_insert_Some in Hi as [[<- <-] | [Hni Hi]];
      apply lookup_insert_Some in Hj as [[<- <-] | [Hnj Hj]].
    + reflexivity.
    + exfalso. apply (Hfree j q Hj); [congruence |]. symmetry. exact Hkey.
    + exfalso. apply (Hfree i p Hi); [congruence |]. exact Hkey.
    + exact (Huniq i j p q Hi Hj Hteam Hkey).
Qed.

(** Quin has joined the Hawks with the number 8; coach A asks for the number
    7, which Pat wears: the answer is 500, and nothing is written. *)
Lemma players_put_keeps_jersey_unique_witness :
  let store := fst (players_post Fixture.asCoachA
                      (Fixture.newPlayer Fixture.hawks 8)
                      "64b0000000000000000000c9" 0 Fixture.store) in
  players_put Z Fixture.jerseyBody Fixture.asCoachA "64b0000000000000000000c9"
    7%Z store
  = (store, Res.serverError).
Proof.
  intros store.
  destruct (players_put_keeps_jersey_unique Fixture.jerseyBody Fixture.asCoachA
              "64b0000000000000000000c9" 7%Z store) as [Hrefused _].
  eapply (Hrefused _ Fixture.hawks _ _ Fixture.playerP
            (Fixture.player "Pat" Fixture.userP (Some Fixture.hawks) 7)).
  - vm_compute. reflexivity.
  - reflexivity.
  - vm_compute. reflexivity.
  - right. split; reflexivity.
  - reflexivity.
  - vm_compute. reflexivity.
  - discriminate.
  - reflexivity.
Defined.

(** * The score route and the room it emits to *)





(** * The process as server.js starts it *)

Lemma server_noSocket : noSocket (server initGameSockets).
Proof.
  intros name sid. unfold SocketIO.socket.
  rewrite server_namespaces. cbn [SocketIO.nsps].
  destruct (decide (name = "/api/game")) as [-> | Hgame].
  - rewrite lookup_insert_eq. simpl. apply lookup_empty.
  - rewrite lookup_insert_ne by congruence.
    destruct (decide (name = "/")) as [-> | Hmain].
    + rewrite lookup_singleton_eq. simpl. apply lookup_empty.
    + rewrite lookup_singleton_ne by congruence. reflexivity.
Qed.

Lemma to_emit_noSocket (room : Room) (p : Packet) (io : SocketIO.Server) :
  noSocket io → noSocket (SocketIO.to_emit room p io).
Proof.
  intros Hno name sid. unfold SocketIO.to_emit.
  rewrite socket_nsp_to_emit, Hno. destruct (decide _); reflexivity.
Qed.

Lemma games_put_score_noSocket (user : Req.user) (id : ObjectId)
  (body : ScoreBody.t) (w : World) :
  noSocket (io w) → noSocket (io (fst (games_put_score user id body w))).
Proof.
  intros Hno. unfold games_put_score, gated.
  destruct (authorize _ user); [| exact Hno].
  destruct (ScoreBody.validationResult body);
    destruct (ScoreBody.homeScore body), (ScoreBody.awayScore body);
    try exact Hno.
  destruct (negb _); [exact Hno |].
  destruct (Games (db w) !! id); [| exact Hno].
  simpl. apply to_emit_noSocket. exact Hno.
Qed.

Lemma client_emit_noSocket (name : string) (sid : SocketId)
  (event : ClientEvent) (w : World) :
  noSocket (io w) → client_emit name sid event w = w.
Proof. intros Hno. unfold client_emit. rewrite Hno. reflexivity. Qed.

Lemma client_disconnect_noSocket (name : string) (sid : SocketId) (w : World) :
  noSocket (io w) → noSocket (io (client_disconnect name sid w)).
Proof.
  intros Hno name' sid'. specialize (Hno name' sid').
  unfold SocketIO.socket in *. unfold client_disconnect. cbn [io with_io].
  rewrite nsps_alterNamespace.
  destruct (decide (name = name')) as [<- | Hne]; [| exact Hno].
  destruct (SocketIO.nsps (io w) !! name) as [n |]; simpl in *; [| reflexivity].
  destruct (decide (sid = sid')) as [<- | Hsid].
  - apply lookup_delete_eq.
  - rewrite lookup_delete_ne by exact Hsid. exact Hno.
Qed.

(** After whatever requests, the process is as server.js left it: Socket.IO
    is attached to the server of [http.createServer], the port is open on the
    server of [app.listen], and no client has a socket. *)
Lemma handle_started (jwt_verify : string → option ObjectId) (r : Request)
  (p : Process) :
  attached p = createServer → listening p = [appListen] →
  noSocket (io (world p)) →
  attached (handle jwt_verify r p) = createServer
  ∧ listening (handle jwt_verify r p) = [appListen]
  ∧ noSocket (io (world (handle jwt_verify r p))).
Proof.
  intros Ha Hl Hno. destruct r; simpl.
  - unfold upgrade. rewrite Ha, Hl. simpl. auto.
  - rewrite (client_emit_noSocket _ _ _ _ Hno). auto.
  - split; [exact Ha |]. split; [exact Hl |].
    apply client_disconnect_noSocket. exact Hno.
  - split; [exact Ha |]. split; [exact Hl |].
    apply games_put_score_noSocket. exact Hno.
  - auto.
Qed.

Lemma handleAll_started (jwt_verify : string → option ObjectId)
  (requests : list Request) (p : Process) :
  attached p = createServer → listening p = [appListen] →
  noSocket (io (world p)) →
  attached (handleAll jwt_verify requests p) = createServer
  ∧ listening (handleAll jwt_verify requests p) = [appListen]
  ∧ noSocket (io (world (handleAll jwt_verify requests p))).
Proof.
  revert p. induction requests as [| r requests IH]; intros p Ha Hl Hno; simpl.
  - auto.
  - destruct (handle_started jwt_verify r p Ha Hl Hno) as (Ha' & Hl' & Hno').
    apply IH; assumption.
Qed.

Lemma program_started (jwt_verify : string → option ObjectId)
  (requests : list Request) (store : Store) :
  let p := handleAll jwt_verify requests (start initGameSockets store) in
  attached p = createServer ∧ listening p = [appListen]
  ∧ noSocket (io (world p)).
Proof.
  apply handleAll_started; [reflexivity | reflexivity |].
  exact server_noSocket.
Qed.

(** The sockets the gateway would have, were its server the one that
    listens: the authenticated ones, without a handler, and the ones with the
    handlers of sockets/gameSockets.js, without a user. *)
Lemma wired_socket (io : SocketIO.Server) (name : string) (sid : SocketId)
  (s : SocketIO.Socket) :
  wired io → SocketIO.socket name sid io = Some s →
  (name = "/" ∧ SocketIO.handlers s = [])
  ∨ (name = "/api/game" ∧ SocketIO.handlers s = [GameSockets]
     ∧ SocketIO.user s = None).
Proof.
  intros (Hother & (n0 & Hn0 & _ & _ & Hs0) & (n1 & Hn1 & _ & _ & Hs1)) Hs.
  unfold SocketIO.socket in Hs.
  destruct (decide (name = "/")) as [-> | Hmain].
  - rewrite Hn0 in Hs. simpl in Hs. left. split; [reflexivity |].
    exact (proj1 (Hs0 sid s Hs)).
  - destruct (decide (name = "/api/game")) as [-> | Hgame].
    + rewrite Hn1 in Hs. simpl in Hs. right. split; [reflexivity |].
      destruct (Hs1 sid s Hs) as (Hh & Hu & _). auto.
    + rewrite (Hother name Hmain Hgame) in Hs. discriminate.
Qed.

(** On the fixture: coach A presents a token that verifies.  The process
    answers 404 and is as before; the gate, had the request reached it, would
    have accepted the handshake and attached the coach to the socket. *)
Lemma coach_connection_refused :
  upgrade Fixture.jwt_verify "/" "bench"
    {| auth_token := Some "jwt:64b0000000000000000000a1" |} Fixture.program
  = (Fixture.program, NotFound)
  ∧ snd (connect Fixture.jwt_verify "/" "bench"
           {| auth_token := Some "jwt:64b0000000000000000000a1" |}
           Fixture.world)
    = Connected
  ∧ SocketIO.user
      <$> SocketIO.socket "/" "bench"
            (io (fst (connect Fixture.jwt_verify "/" "bench"
                        {| auth_token := Some "jwt:64b0000000000000000000a1" |}
                        Fixture.world)))
    = Some (Some {| su_id := Fixture.coachA; su_role := "coach";
                    su_name := "Ann" |}).
Proof. repeat split; vm_compute; reflexivity. Qed.

(** C3 (fails on the code: Socket.IO is attached to the server of
    [http.createServer(app)], and the port is opened by [app.listen], on
    another server).  After whatever requests, a request for a real-time
    connection, whatever namespace it names and whatever its handshake
    holds, a token that verifies too, is answered 404: the process is as
    before, no client has a socket, and so no user is attached to any. *)
Theorem connection_request_not_found (jwt_verify : string → option ObjectId)
  (store : Store) (requests : list Request) (name : string) (sid : SocketId)
  (handshake : Handshake) :
  let p := handleAll jwt_verify requests (start initGameSockets store) in
  upgrade jwt_verify name sid handshake p = (p, NotFound)
  ∧ noSocket (io (world (fst (upgrade jwt_verify name sid handshake p)))).
Proof.
  intros p.
  destruct (program_started jwt_verify requests store) as (Ha & Hl & Hno).
  fold p in Ha, Hl, Hno.
  assert (upgrade jwt_verify name sid handshake p = (p, NotFound)) as Hup.
  { unfold upgrade. rewrite Ha, Hl. reflexivity. }
  split; [exact Hup |]. rewrite Hup. exact Hno.
Qed.

(** C8 (fails on the code, by the same defect as C3).  A client asks for a
    connection and emits [joinGame(gameId)]: after whatever requests, no
    socket is made for it, the event reaches no handler and changes nothing,
    and no socket is in any room.  The second defect behind it: were the
    server of Socket.IO the one that listens, the connections that carry a
    user would be those of the main namespace, on which no handler is
    registered, and their [joinGame] would change nothing either. *)
Theorem joinGame_out_of_reach (jwt_verify : string → option ObjectId)
  (store : Store) (requests : list Request) (name : string) (sid : SocketId)
  (handshake : Handshake) (gameId : Room) :
  (let p := handleAll jwt_verify (requests ++ [ClientConnect name sid handshake])
              (start initGameSockets store) in
   handle jwt_verify (ClientEmit name sid (joinGame gameId)) p = p
   ∧ noSocket (io (world p)))
  ∧ (let w := serveAll jwt_verify requests
                {| db := store; io := server initGameSockets |} in
     ∀ s, SocketIO.socket name sid (io w) = Some s →
          is_Some (SocketIO.user s) →
          client_emit name sid (joinGame gameId) w = w).
Proof.
  split.
  - intros p.
    destruct (program_started jwt_verify
                (requests ++ [ClientConnect name sid handshake]) store)
      as (_ & _ & Hno).
    fold p in Hno. split; [| exact Hno].
    simpl. rewrite (client_emit_noSocket _ _ _ _ Hno).
    destruct p. reflexivity.
  - intros w s Hs Hu.
    pose proof (wired_serveAll jwt_verify requests
                  {| db := store; io := server initGameSockets |} wired_server)
      as Hw.
    fold w in Hw.
    destruct (wired_socket (io w) name sid s Hw Hs)
      as [[_ Hh] | (_ & _ & Hnone)].
    + unfold client_emit. rewrite Hs, Hh. reflexivity.
    + rewrite Hnone in Hu. destruct Hu as [u Hu]. discriminate Hu.
Qed.

(** C4 (fails on the code, by the same defect as C3).  A client asks for a
    connection and emits [updateGame]: after whatever requests, no socket is
    made for it, the event reaches no handler, and nothing is sent to
    anyone.  The second defect behind it: were the server of Socket.IO the one
    that listens, the [updateGame] of every socket would change nothing, that
    of a coach and of an admin too: a socket of the main namespace has no
    handler, and a socket of the namespace of sockets/gameSockets.js carries
    no user, so that the test of the role fails. *)
Theorem updateGame_never_rebroadcast (jwt_verify : string → option ObjectId)
  (store : Store) (requests : list Request) (name : string) (sid : SocketId)
  (handshake : Handshake) (updateData : UpdateData) :
  (let p := handleAll jwt_verify (requests ++ [ClientConnect name sid handshake])
              (start initGameSockets store) in
   handle jwt_verify (ClientEmit name sid (updateGame updateData)) p = p
   ∧ noSocket (io (world p)))
  ∧ (let w := serveAll jwt_verify requests
                {| db := store; io := server initGameSockets |} in
     client_emit name sid (updateGame updateData) w = w).
Proof.
  split.
  - intros p.
    destruct (program_started jwt_verify
                (requests ++ [ClientConnect name sid handshake]) store)
      as (_ & _ & Hno).
    fold p in Hno. split; [| exact Hno].
    simpl. rewrite (client_emit_noSocket _ _ _ _ Hno).
    destruct p. reflexivity.
  - intros w.
    pose proof (wired_serveAll jwt_verify requests
                  {| db := store; io := server initGameSockets |} wired_server)
      as Hw.
    fold w in Hw. unfold client_emit.
    destruct (SocketIO.socket name sid (io w)) as [s |] eqn:Hs; [| reflexivity].
    destruct (wired_socket (io w) name sid s Hw Hs)
      as [[_ Hh] | (_ & Hh & Hnone)].
    + rewrite Hh. reflexivity.
    + rewrite Hh. simpl. rewrite Hs.
      unfold mayPush. rewrite Hnone. reflexivity.
Qed.
